(** * gh-ai-proxy: the review store of the Cloudflare Worker

    A shallow embedding of [src/worker.ts] (with [src/utils/kv.ts] and
    [handlers/reviewsHandler.ts]) and the properties of its review
    handlers.

    Layout:
    - [Text]    JavaScript strings (UTF-16 code units), the UTF-8 codec of
                [TextEncoder] / [TextDecoder];
    - [Num]     the Number type (binary64) with its decimal reading and
                printing;
    - [Json]    JavaScript values, [JSON.parse] and [JSON.stringify];
    - [Js]      completions, the few operators the handlers apply to values;
    - [Worker]  the store, the handlers and the [fetch] entry point;
    - the properties. *)

From stdpp Require Import gmap strings.
From Stdlib Require Import ZArith List Bool Lia Ascii Strings.Byte Floats.SpecFloat.
From Stdlib Require Import Decimal DecimalPos.
Import ListNotations.

Local Open Scope Z_scope.
Local Set Warnings "-register-all".

(* ===================================================================== *)
(** * Text: strings and the UTF-8 codec *)
(* ===================================================================== *)

Module Text.

(** A JavaScript string is a sequence of 16-bit code units. *)
Abbreviation jsstring := (list Z).

Definition is_code_unit (c : Z) : Prop := 0 <= c < 65536.
Definition is_jsstring (s : jsstring) : Prop := Forall is_code_unit s.

Definition is_high_surrogate (c : Z) : bool := (0xD800 <=? c) && (c <=? 0xDBFF).
Definition is_low_surrogate (c : Z) : bool := (0xDC00 <=? c) && (c <=? 0xDFFF).
Definition is_surrogate (c : Z) : bool := (0xD800 <=? c) && (c <=? 0xDFFF).

Definition jsstring_eqb (s t : jsstring) : bool := bool_decide (s = t).

(** ** Bytes *)

Definition Z_of_byte (b : byte) : Z := Z.of_N (Byte.to_N b).

Definition byte_of_Z (z : Z) : byte :=
  match Byte.of_N (Z.to_N z) with Some b => b | None => x00 end.

(** ** UTF-16: code points of a string, and back

    [StringToCodePoints]: a high surrogate followed by a low one is one
    supplementary code point; any other code unit, a lone surrogate
    included, is a code point of its own. *)

Definition pair_code_point (hi lo : Z) : Z :=
  Z.shiftl (hi - 0xD800) 10 + (lo - 0xDC00) + 0x10000.

Fixpoint StringToCodePoints (s : jsstring) : list Z :=
  match s with
  | [] => []
  | c :: rest =>
      if is_high_surrogate c then
        match rest with
        | lo :: rest' =>
            if is_low_surrogate lo
            then pair_code_point c lo :: StringToCodePoints rest'
            else c :: StringToCodePoints rest
        | [] => [c]
        end
      else c :: StringToCodePoints rest
  end.

(** [CodePointsToString]: the UTF-16 encoding of one code point. *)
Definition utf16_encode (cp : Z) : jsstring :=
  if cp <? 0x10000 then [cp]
  else [0xD800 + Z.shiftr (cp - 0x10000) 10; 0xDC00 + Z.land (cp - 0x10000) 0x3FF].

Definition CodePointsToString (cps : list Z) : jsstring :=
  flat_map utf16_encode cps.

(** ** UTF-8 encoder ([TextEncoder.encode])

    The string is first made a scalar value string: a lone surrogate
    becomes U+FFFD. *)

Definition to_scalar (cp : Z) : Z := if is_surrogate cp then 0xFFFD else cp.

Definition utf8_encode_code_point (cp : Z) : list byte :=
  if cp <=? 0x7F then [byte_of_Z cp]
  else if cp <=? 0x7FF then
    [byte_of_Z (Z.shiftr cp 6 + 0xC0);
     byte_of_Z (Z.lor 0x80 (Z.land cp 0x3F))]
  else if cp <=? 0xFFFF then
    [byte_of_Z (Z.shiftr cp 12 + 0xE0);
     byte_of_Z (Z.lor 0x80 (Z.land (Z.shiftr cp 6) 0x3F));
     byte_of_Z (Z.lor 0x80 (Z.land cp 0x3F))]
  else
    [byte_of_Z (Z.shiftr cp 18 + 0xF0);
     byte_of_Z (Z.lor 0x80 (Z.land (Z.shiftr cp 12) 0x3F));
     byte_of_Z (Z.lor 0x80 (Z.land (Z.shiftr cp 6) 0x3F));
     byte_of_Z (Z.lor 0x80 (Z.land cp 0x3F))].

Definition TextEncoder_encode (s : jsstring) : list byte :=
  flat_map (fun cp => utf8_encode_code_point (to_scalar cp)) (StringToCodePoints s).

(** ** UTF-8 decoder ([TextDecoder("utf-8").decode], replacement mode)

    The decoder of the Encoding Standard: a code point under construction,
    the number of continuation bytes still needed and the bounds the next
    byte has to meet.  A byte that does not fit yields U+FFFD and is read
    again as the start of a sequence. *)

Record utf8_state := Utf8State {
  u8_code_point : Z;
  u8_needed : nat;
  u8_lower : Z;
  u8_upper : Z
}.

Definition utf8_initial : utf8_state := Utf8State 0 0 0x80 0xBF.

(** A byte read with no sequence pending. *)
Definition utf8_start (x : Z) : list Z * utf8_state :=
  if x <=? 0x7F then ([x], utf8_initial)
  else if (0xC2 <=? x) && (x <=? 0xDF) then
    ([], Utf8State (Z.land x 0x1F) 1 0x80 0xBF)
  else if (0xE0 <=? x) && (x <=? 0xEF) then
    ([], Utf8State (Z.land x 0xF) 2
           (if x =? 0xE0 then 0xA0 else 0x80)
           (if x =? 0xED then 0x9F else 0xBF))
  else if (0xF0 <=? x) && (x <=? 0xF4) then
    ([], Utf8State (Z.land x 0x7) 3
           (if x =? 0xF0 then 0x90 else 0x80)
           (if x =? 0xF4 then 0x8F else 0xBF))
  else ([0xFFFD], utf8_initial).

Definition utf8_step (st : utf8_state) (b : byte) : list Z * utf8_state :=
  let x := Z_of_byte b in
  match u8_needed st with
  | O => utf8_start x
  | S n =>
      if (u8_lower st <=? x) && (x <=? u8_upper st) then
        let cp := Z.lor (Z.shiftl (u8_code_point st) 6) (Z.land x 0x3F) in
        match n with
        | O => ([cp], utf8_initial)
        | S _ => ([], Utf8State cp n 0x80 0xBF)
        end
      else
        let '(out, st') := utf8_start x in (0xFFFD :: out, st')
  end.

Fixpoint utf8_run (st : utf8_state) (bs : list byte) : list Z :=
  match bs with
  | [] => match u8_needed st with O => [] | S _ => [0xFFFD] end
  | b :: rest => let '(out, st') := utf8_step st b in out ++ utf8_run st' rest
  end.

(** A leading byte order mark is dropped ([ignoreBOM] is false). *)
Definition strip_bom (bs : list byte) : list byte :=
  match bs with
  | xef :: xbb :: xbf :: rest => rest
  | _ => bs
  end.

Definition TextDecoder_decode (bs : list byte) : jsstring :=
  CodePointsToString (utf8_run utf8_initial (strip_bom bs)).

(** String literals of the source: the file is UTF-8, the literal is the
    decoding of its bytes. *)
Definition lit (s : string) : jsstring :=
  TextDecoder_decode (String.list_byte_of_string s).

(** Code units of the ASCII characters the grammar of JSON names. *)
Definition ch (a : ascii) : Z := Z.of_N (Ascii.N_of_ascii a).

End Text.
Import Text.


(* ===================================================================== *)
(** * Num: the Number type *)
(* ===================================================================== *)

Module Num.

(** A Number is an IEEE 754 binary64 value. *)
Abbreviation Number := spec_float.

Definition prec : Z := 53.
Definition emax : Z := 1024.

Definition Number_of_Z (z : Z) : Number := binary_normalize prec emax z 0 false.

(** [StringToNumber] on a decimal literal [m * 10^e] ([neg] its sign): the
    nearest binary64 value, ties to even. *)
Definition of_decimal (neg : bool) (m : N) (e : Z) : Number :=
  match m with
  | N0 => S754_zero neg
  | Npos p =>
      if 0 <=? e
      then binary_normalize prec emax
             (if neg then Z.neg (p * Z.to_pos (10 ^ e)) else Z.pos (p * Z.to_pos (10 ^ e)))
             0 neg
      else SFdiv prec emax (S754_finite neg p 0)
             (S754_finite false (Z.to_pos (10 ^ (- e))) 0)
  end.

Definition is_finite (x : Number) : bool :=
  match x with
  | S754_zero _ | S754_finite _ _ _ => true
  | _ => false
  end.

(** ** [Number::toString]

    The value is [num / den] exactly.  [decimal_exponent] is the [n] with
    [10^(n-1) <= x < 10^n]; [shortest] looks for the least number [k] of
    digits for which a decimal [s * 10^(n-k)] reads back as [x], and takes
    the [s] nearest to [x]. *)

Definition exact_fraction (m : positive) (e : Z) : Z * Z :=
  if 0 <=? e then (Z.pos m * 2 ^ e, 1) else (Z.pos m, 2 ^ (- e)).

Definition uint_length (u : uint) : Z := Z.of_nat (Decimal.nb_digits u).

Fixpoint scale_up (fuel : nat) (num den : Z) (j : Z) : Z :=
  match fuel with
  | O => j
  | S f => if den <=? num * 10 ^ j then j else scale_up f num den (j + 1)
  end.

Definition decimal_exponent (num den : Z) : Z :=
  if den <=? num
  then uint_length (Pos.to_uint (Z.to_pos (num / den)))
  else 1 - scale_up 400 num den 1.

(** [x / 10^(n-k)] as a quotient and a remainder over [d]. *)
Definition scaled (num den : Z) (p : Z) : Z * Z * Z :=
  let '(a, d) := if 0 <=? p then (num, den * 10 ^ p) else (num * 10 ^ (- p), den) in
  (a / d, a mod d, d).

Definition reads_back (x : Number) (c : Z) (p : Z) : bool :=
  match x, of_decimal false (Z.to_N c) p with
  | S754_finite _ m e, S754_finite _ m' e' => (m =? m')%positive && (e =? e')
  | _, _ => false
  end.

Fixpoint strip_zeros (fuel : nat) (c : Z) : Z :=
  match fuel with
  | O => c
  | S f => if (c mod 10 =? 0) && negb (c =? 0) then strip_zeros f (c / 10) else c
  end.

(** The result: the digits [s] and the exponent [n]. *)
Definition finish (c : Z) (p : Z) : positive * Z :=
  (Z.to_pos (strip_zeros 400 c), p + uint_length (Pos.to_uint (Z.to_pos c))).

Fixpoint shortest (fuel : nat) (x : Number) (num den n k : Z) : positive * Z :=
  let p := n - k in
  let '(q, r, d) := scaled num den p in
  match fuel with
  | O => finish q p
  | S f =>
      let lo := reads_back x q p in
      let hi := reads_back x (q + 1) p in
      if lo && hi then
        match 2 * r ?= d with
        | Lt => finish q p
        | Gt => finish (q + 1) p
        | Eq => if Z.even q then finish q p else finish (q + 1) p
        end
      else if lo then finish q p
      else if hi then finish (q + 1) p
      else shortest f x num den n (k + 1)
  end.

Definition shortest_digits (m : positive) (e : Z) : positive * Z :=
  let '(num, den) := exact_fraction m e in
  shortest 17 (S754_finite false m e) num den (decimal_exponent num den) 1.

Fixpoint uint_chars (u : uint) : jsstring :=
  match u with
  | Nil => []
  | D0 u => 48 :: uint_chars u
  | D1 u => 49 :: uint_chars u
  | D2 u => 50 :: uint_chars u
  | D3 u => 51 :: uint_chars u
  | D4 u => 52 :: uint_chars u
  | D5 u => 53 :: uint_chars u
  | D6 u => 54 :: uint_chars u
  | D7 u => 55 :: uint_chars u
  | D8 u => 56 :: uint_chars u
  | D9 u => 57 :: uint_chars u
  end.

Definition digits_of_pos (p : positive) : jsstring := uint_chars (Pos.to_uint p).

Definition zeros (n : Z) : jsstring := repeat 48 (Z.to_nat n).

(** The layout of the digits [ds] (there are [k] of them) with exponent [n]. *)
Definition layout (ds : jsstring) (n : Z) : jsstring :=
  let k := Z.of_nat (length ds) in
  if (k <=? n) && (n <=? 21) then ds ++ zeros (n - k)
  else if (0 <? n) && (n <=? 21) then
    firstn (Z.to_nat n) ds ++ [ch "."] ++ skipn (Z.to_nat n) ds
  else if (-6 <? n) && (n <=? 0) then
    [ch "0"; ch "."] ++ zeros (- n) ++ ds
  else
    let e := n - 1 in
    let exponent :=
      [ch "e"; if e <? 0 then ch "-" else ch "+"] ++ digits_of_pos (Z.to_pos (Z.abs e)) in
    match ds with
    | [d] => d :: exponent
    | d :: more => d :: ch "." :: more ++ exponent
    | [] => exponent
    end.

Definition Number_toString (x : Number) : jsstring :=
  match x with
  | S754_nan => lit "NaN"
  | S754_zero _ => [ch "0"]
  | S754_infinity neg => (if neg then [ch "-"] else []) ++ lit "Infinity"
  | S754_finite neg m e =>
      let '(s, n) := shortest_digits m e in
      (if neg then [ch "-"] else []) ++ layout (digits_of_pos s) n
  end.

(** [ToBoolean] of a Number: false for zeros and NaN. *)
Definition Number_truthy (x : Number) : bool :=
  match x with
  | S754_zero _ | S754_nan => false
  | _ => true
  end.

(** [Number::equal], the [===] of two Numbers. *)
Definition Number_equal (x y : Number) : bool := SFeqb x y.

End Num.
Import Num.

(* ===================================================================== *)
(** * Json: values, JSON.stringify and JSON.parse *)
(* ===================================================================== *)

Module Json.

(** The values the program handles: what [JSON.parse] builds, and
    [undefined] for a property that is not there. The properties of an
    object are kept in the order [OrdinaryOwnPropertyKeys] lists them. *)
Inductive JsValue :=
| JUndefined
| JNull
| JBool (b : bool)
| JNumber (n : Number)
| JString (s : jsstring)
| JArray (elems : list JsValue)
| JObject (props : list (jsstring * JsValue)).

(** ** Objects *)

Fixpoint digits_value (acc : Z) (ds : jsstring) : Z :=
  match ds with
  | [] => acc
  | d :: rest => digits_value (acc * 10 + (d - 48)) rest
  end.

Definition is_digit (c : Z) : bool := (48 <=? c) && (c <=? 57).

(** An array index: the canonical decimal string of an integer below
    [2^32 - 1]. *)
Definition array_index (k : jsstring) : option Z :=
  match k with
  | [] => None
  | c :: rest =>
      if forallb is_digit k && (negb (c =? 48) || match rest with [] => true | _ => false end)
         && (Z.of_nat (length k) <=? 10)
      then let i := digits_value 0 k in
           if i <? 4294967295 then Some i else None
      else None
  end.

Fixpoint lookup_prop (k : jsstring) (props : list (jsstring * JsValue)) : option JsValue :=
  match props with
  | [] => None
  | (k', v) :: rest => if jsstring_eqb k k' then Some v else lookup_prop k rest
  end.

Fixpoint replace_prop (k : jsstring) (v : JsValue) (props : list (jsstring * JsValue))
  : list (jsstring * JsValue) :=
  match props with
  | [] => []
  | (k', v') :: rest =>
      if jsstring_eqb k k' then (k', v) :: rest else (k', v') :: replace_prop k v rest
  end.

Fixpoint insert_index (i : Z) (k : jsstring) (v : JsValue) (props : list (jsstring * JsValue))
  : list (jsstring * JsValue) :=
  match props with
  | [] => [(k, v)]
  | (k', v') :: rest =>
      match array_index k' with
      | Some j => if j <? i then (k', v') :: insert_index i k v rest
                  else (k, v) :: props
      | None => (k, v) :: props
      end
  end.

(** [CreateDataProperty]: an existing key keeps its place and takes the new
    value; a new array index goes among the indices, in ascending order; any
    other new key goes last. *)
Definition define_prop (props : list (jsstring * JsValue)) (k : jsstring) (v : JsValue)
  : list (jsstring * JsValue) :=
  match lookup_prop k props with
  | Some _ => replace_prop k v props
  | None =>
      match array_index k with
      | Some i => insert_index i k v props
      | None => props ++ [(k, v)]
      end
  end.

Definition object_of_members (ms : list (jsstring * JsValue)) : JsValue :=
  JObject (fold_left (fun o kv => define_prop o (fst kv) (snd kv)) ms []).

(** ** JSON.stringify *)

Definition hex_digit (n : Z) : Z := if n <? 10 then 48 + n else 87 + n.

Definition UnicodeEscape (c : Z) : jsstring :=
  [ch "\"; ch "u";
   hex_digit (Z.land (Z.shiftr c 12) 0xF); hex_digit (Z.land (Z.shiftr c 8) 0xF);
   hex_digit (Z.land (Z.shiftr c 4) 0xF); hex_digit (Z.land c 0xF)].

Definition quote_code_point (c : Z) : jsstring :=
  if c =? 0x08 then [ch "\"; ch "b"]
  else if c =? 0x09 then [ch "\"; ch "t"]
  else if c =? 0x0A then [ch "\"; ch "n"]
  else if c =? 0x0C then [ch "\"; ch "f"]
  else if c =? 0x0D then [ch "\"; ch "r"]
  else if c =? 0x22 then [ch "\"; 0x22]
  else if c =? 0x5C then [ch "\"; ch "\"]
  else if (c <? 0x20) || is_surrogate c then UnicodeEscape c
  else utf16_encode c.

Definition QuoteJSONString (s : jsstring) : jsstring :=
  [0x22] ++ flat_map quote_code_point (StringToCodePoints s) ++ [0x22].

Fixpoint join (sep : jsstring) (parts : list jsstring) : jsstring :=
  match parts with
  | [] => []
  | [p] => p
  | p :: rest => p ++ sep ++ join sep rest
  end.

(** [SerializeJSONProperty] without indentation: [None] is [undefined]. An
    [undefined] element of an array is written [null], an [undefined]
    property of an object is left out. *)
Fixpoint SerializeJSONProperty (v : JsValue) : option jsstring :=
  match v with
  | JUndefined => None
  | JNull => Some (lit "null")
  | JBool true => Some (lit "true")
  | JBool false => Some (lit "false")
  | JNumber n => Some (if is_finite n then Number_toString n else lit "null")
  | JString s => Some (QuoteJSONString s)
  | JArray elems =>
      Some ([ch "["]
            ++ join [ch ","]
                 (map (fun e => match SerializeJSONProperty e with
                                | Some t => t
                                | None => lit "null"
                                end) elems)
            ++ [ch "]"])
  | JObject props =>
      Some ([ch "{"]
            ++ join [ch ","]
                 (flat_map (fun kv => match SerializeJSONProperty (snd kv) with
                                      | Some t => [QuoteJSONString (fst kv) ++ [ch ":"] ++ t]
                                      | None => []
                                      end) props)
            ++ [ch "}"])
  end.

Definition JSON_stringify (v : JsValue) : option jsstring := SerializeJSONProperty v.

(** ** JSON.parse *)

Inductive parsed (A : Type) :=
| Parsed (a : A) (rest : jsstring)
| SyntaxErr
| OutOfFuel.
Arguments Parsed {A} a rest.
Arguments SyntaxErr {A}.
Arguments OutOfFuel {A}.

Definition is_ws (c : Z) : bool :=
  (c =? 0x09) || (c =? 0x0A) || (c =? 0x0D) || (c =? 0x20).

Fixpoint skip_ws (s : jsstring) : jsstring :=
  match s with
  | c :: rest => if is_ws c then skip_ws rest else s
  | [] => []
  end.

Definition hex_value (c : Z) : option Z :=
  if (48 <=? c) && (c <=? 57) then Some (c - 48)
  else if (97 <=? c) && (c <=? 102) then Some (c - 87)
  else if (65 <=? c) && (c <=? 70) then Some (c - 55)
  else None.

Definition hex4 (a b c d : Z) : option Z :=
  match hex_value a, hex_value b, hex_value c, hex_value d with
  | Some x, Some y, Some z, Some w => Some (((x * 16 + y) * 16 + z) * 16 + w)
  | _, _, _, _ => None
  end.

Definition simple_escape (c : Z) : option Z :=
  if c =? 0x22 then Some 0x22
  else if c =? 0x5C then Some 0x5C
  else if c =? ch "/" then Some (ch "/")
  else if c =? ch "b" then Some 0x08
  else if c =? ch "f" then Some 0x0C
  else if c =? ch "n" then Some 0x0A
  else if c =? ch "r" then Some 0x0D
  else if c =? ch "t" then Some 0x09
  else None.

(** The characters of a string, read after its opening quote up to and
    with the closing one. *)
Fixpoint parse_string_chars (s : jsstring) : option (jsstring * jsstring) :=
  match s with
  | [] => None
  | c :: rest =>
      if c =? 0x22 then Some ([], rest)
      else if c =? 0x5C then
        match rest with
        | [] => None
        | e :: rest1 =>
            if e =? ch "u" then
              match rest1 with
              | a :: b :: c' :: d :: rest2 =>
                  match hex4 a b c' d, parse_string_chars rest2 with
                  | Some u, Some (t, r) => Some (u :: t, r)
                  | _, _ => None
                  end
              | _ => None
              end
            else
              match simple_escape e, parse_string_chars rest1 with
              | Some u, Some (t, r) => Some (u :: t, r)
              | _, _ => None
              end
        end
      else if c <? 0x20 then None
      else
        match parse_string_chars rest with
        | Some (t, r) => Some (c :: t, r)
        | None => None
        end
  end.

Fixpoint span_digits (s : jsstring) : jsstring * jsstring :=
  match s with
  | c :: rest =>
      if is_digit c then let '(ds, r) := span_digits rest in (c :: ds, r)
      else ([], s)
  | [] => ([], [])
  end.

(** A number: an optional minus sign; an integer part, a single zero or a
    non-zero digit followed by digits; an optional fraction, a point and at
    least one digit; an optional exponent, e or E, an optional sign and at
    least one digit. *)
Definition parse_int_part (s : jsstring) : option (jsstring * jsstring) :=
  match s with
  | c :: rest =>
      if c =? 48 then Some ([c], rest)
      else if is_digit c then Some (span_digits s)
      else None
  | [] => None
  end.

Definition parse_frac_part (s : jsstring) : option (jsstring * jsstring) :=
  match s with
  | c :: rest =>
      if c =? ch "." then
        match span_digits rest with
        | ([], _) => None
        | (ds, r) => Some (ds, r)
        end
      else Some ([], s)
  | [] => Some ([], [])
  end.

Definition parse_exp_digits (neg : bool) (s : jsstring) : option (Z * jsstring) :=
  match span_digits s with
  | ([], _) => None
  | (ds, r) => Some (if neg then - digits_value 0 ds else digits_value 0 ds, r)
  end.

Definition parse_exp_part (s : jsstring) : option (Z * jsstring) :=
  match s with
  | c :: rest =>
      if (c =? ch "e") || (c =? ch "E") then
        match rest with
        | sg :: rest1 =>
            if sg =? ch "+" then parse_exp_digits false rest1
            else if sg =? ch "-" then parse_exp_digits true rest1
            else parse_exp_digits false rest
        | [] => None
        end
      else Some (0, s)
  | [] => Some (0, [])
  end.

Definition parse_unsigned (neg : bool) (s : jsstring) : option (Number * jsstring) :=
  match parse_int_part s with
  | None => None
  | Some (int, r1) =>
      match parse_frac_part r1 with
      | None => None
      | Some (frac, r2) =>
          match parse_exp_part r2 with
          | None => None
          | Some (e, r3) =>
              Some (of_decimal neg (Z.to_N (digits_value 0 (int ++ frac)))
                      (e - Z.of_nat (length frac)), r3)
          end
      end
  end.

Definition parse_number (s : jsstring) : option (Number * jsstring) :=
  match s with
  | c :: rest => if c =? ch "-" then parse_unsigned true rest else parse_unsigned false s
  | [] => None
  end.

Fixpoint match_prefix (p s : jsstring) : option jsstring :=
  match p, s with
  | [], _ => Some s
  | a :: p', b :: s' => if a =? b then match_prefix p' s' else None
  | _ :: _, [] => None
  end.

Definition parse_literal (word : jsstring) (v : JsValue) (s : jsstring) : parsed JsValue :=
  match match_prefix word s with
  | Some r => Parsed v r
  | None => SyntaxErr
  end.

(** The recursive descent. Each call passes one unit of fuel less to the
    calls it makes. *)
Fixpoint parse_value (fuel : nat) (s : jsstring) : parsed JsValue :=
  match fuel with
  | O => OutOfFuel
  | S f =>
      match skip_ws s with
      | [] => SyntaxErr
      | c :: r =>
          if c =? ch "{" then
            match skip_ws r with
            | [] => SyntaxErr
            | c1 :: r1 =>
                if c1 =? ch "}" then Parsed (JObject []) r1
                else match parse_members f (c1 :: r1) with
                     | Parsed ms r2 => Parsed (object_of_members ms) r2
                     | SyntaxErr => SyntaxErr
                     | OutOfFuel => OutOfFuel
                     end
            end
          else if c =? ch "[" then
            match skip_ws r with
            | [] => SyntaxErr
            | c1 :: r1 =>
                if c1 =? ch "]" then Parsed (JArray []) r1
                else match parse_elements f (c1 :: r1) with
                     | Parsed vs r2 => Parsed (JArray vs) r2
                     | SyntaxErr => SyntaxErr
                     | OutOfFuel => OutOfFuel
                     end
            end
          else if c =? 0x22 then
            match parse_string_chars r with
            | Some (t, r1) => Parsed (JString t) r1
            | None => SyntaxErr
            end
          else if c =? ch "t" then parse_literal (lit "true") (JBool true) (c :: r)
          else if c =? ch "f" then parse_literal (lit "false") (JBool false) (c :: r)
          else if c =? ch "n" then parse_literal (lit "null") JNull (c :: r)
          else
            match parse_number (c :: r) with
            | Some (n, r1) => Parsed (JNumber n) r1
            | None => SyntaxErr
            end
      end
  end

with parse_elements (fuel : nat) (s : jsstring) : parsed (list JsValue) :=
  match fuel with
  | O => OutOfFuel
  | S f =>
      match parse_value f s with
      | Parsed v r =>
          match skip_ws r with
          | [] => SyntaxErr
          | c :: r1 =>
              if c =? ch "," then
                match parse_elements f r1 with
                | Parsed vs r2 => Parsed (v :: vs) r2
                | SyntaxErr => SyntaxErr
                | OutOfFuel => OutOfFuel
                end
              else if c =? ch "]" then Parsed [v] r1
              else SyntaxErr
          end
      | SyntaxErr => SyntaxErr
      | OutOfFuel => OutOfFuel
      end
  end

with parse_members (fuel : nat) (s : jsstring) : parsed (list (jsstring * JsValue)) :=
  match fuel with
  | O => OutOfFuel
  | S f =>
      match skip_ws s with
      | [] => SyntaxErr
      | q :: r =>
          if q =? 0x22 then
            match parse_string_chars r with
            | None => SyntaxErr
            | Some (k, r1) =>
                match skip_ws r1 with
                | [] => SyntaxErr
                | c :: r2 =>
                    if c =? ch ":" then
                      match parse_value f r2 with
                      | Parsed v r3 =>
                          match skip_ws r3 with
                          | [] => SyntaxErr
                          | c' :: r4 =>
                              if c' =? ch "," then
                                match parse_members f r4 with
                                | Parsed ms r5 => Parsed ((k, v) :: ms) r5
                                | SyntaxErr => SyntaxErr
                                | OutOfFuel => OutOfFuel
                                end
                              else if c' =? ch "}" then Parsed [(k, v)] r4
                              else SyntaxErr
                          end
                      | SyntaxErr => SyntaxErr
                      | OutOfFuel => OutOfFuel
                      end
                    else SyntaxErr
                end
            end
          else SyntaxErr
      end
  end.

(** The whole text is one value between optional white space. *)
Definition parse_text (fuel : nat) (text : jsstring) : parsed JsValue :=
  match parse_value fuel text with
  | Parsed v r => match skip_ws r with [] => Parsed v [] | _ => SyntaxErr end
  | SyntaxErr => SyntaxErr
  | OutOfFuel => OutOfFuel
  end.

Definition parse_fuel (text : jsstring) : nat := S (S (2 * length text)).

End Json.
Import Json.

(* ===================================================================== *)
(** * Js: completions and the operators the handlers use *)
(* ===================================================================== *)

Module Js.

Inductive ErrorKind := SyntaxError | TypeError | RangeError | OtherError.

(** What a [throw] or a rejected promise carries: an instance of [Error]
    with its message, or any other value. *)
Inductive Thrown :=
| ErrorObject (kind : ErrorKind) (message : jsstring)
| ThrownValue (v : JsValue).

Inductive Completion (A : Type) :=
| Normal (a : A)
| Throw (t : Thrown).
Arguments Normal {A} a.
Arguments Throw {A} t.

(** The wording of an engine's messages is its own; these follow V8. *)
Definition TypeError_ (msg : string) {A} : Completion A :=
  Throw (ErrorObject TypeError (lit msg)).

(** [JSON.parse]. *)
Definition JSON_parse (text : jsstring) : Completion JsValue :=
  match parse_text (parse_fuel text) text with
  | Parsed v _ => Normal v
  | SyntaxErr => Throw (ErrorObject SyntaxError (lit "Unexpected token in JSON"))
  | OutOfFuel => Throw (ErrorObject RangeError (lit "Maximum call stack size exceeded"))
  end.

Definition ToBoolean (v : JsValue) : bool :=
  match v with
  | JUndefined | JNull => false
  | JBool b => b
  | JNumber n => Number_truthy n
  | JString s => match s with [] => false | _ => true end
  | JArray _ | JObject _ => true
  end.

Definition length_key : jsstring := Eval vm_compute in lit "length".

(** [v.k] for a key [k] that no prototype defines (the program reads
    [name], [text], [rating], [model], [message], [stack] and [length]). *)
Definition Get (v : JsValue) (k : jsstring) : Completion JsValue :=
  match v with
  | JUndefined => TypeError_ "Cannot read properties of undefined"
  | JNull => TypeError_ "Cannot read properties of null"
  | JBool _ | JNumber _ => Normal JUndefined
  | JString s =>
      if jsstring_eqb k length_key then Normal (JNumber (Number_of_Z (Z.of_nat (length s))))
      else match array_index k with
           | Some i => Normal (match nth_error s (Z.to_nat i) with
                               | Some c => JString [c]
                               | None => JUndefined
                               end)
           | None => Normal JUndefined
           end
  | JArray elems =>
      if jsstring_eqb k length_key then Normal (JNumber (Number_of_Z (Z.of_nat (length elems))))
      else match array_index k with
           | Some i => Normal (match nth_error elems (Z.to_nat i) with
                               | Some e => e
                               | None => JUndefined
                               end)
           | None => Normal JUndefined
           end
  | JObject props =>
      Normal (match lookup_prop k props with Some x => x | None => JUndefined end)
  end.

(** [v.k = x] in strict mode code, for a key that is not an array index. On
    an array the property is set beside the elements, where neither
    [JSON.stringify] nor the program looks: the array is left as it is. *)
Definition Set_ (v : JsValue) (k : jsstring) (x : JsValue) : Completion JsValue :=
  match v with
  | JUndefined => TypeError_ "Cannot set properties of undefined"
  | JNull => TypeError_ "Cannot set properties of null"
  | JBool _ | JNumber _ | JString _ => TypeError_ "Cannot create property"
  | JArray elems => Normal (JArray elems)
  | JObject props => Normal (JObject (define_prop props k x))
  end.

(** [===]. Two objects are equal when they are the same object, which the
    values do not tell: the program compares with a primitive on one side
    at least, where an object is never equal. *)
Definition IsStrictlyEqual (a b : JsValue) : bool :=
  match a, b with
  | JUndefined, JUndefined => true
  | JNull, JNull => true
  | JBool x, JBool y => Bool.eqb x y
  | JNumber x, JNumber y => Number_equal x y
  | JString s, JString t => jsstring_eqb s t
  | _, _ => false
  end.

Definition toString_key : jsstring := Eval vm_compute in lit "toString".

(** [ToString], as a template literal applies it. An object that hides
    [Object.prototype.toString] behind a property of its own, which is not
    a function, has no primitive value: [None] is the [TypeError]. *)
Fixpoint ToString (v : JsValue) : option jsstring :=
  match v with
  | JUndefined => Some (lit "undefined")
  | JNull => Some (lit "null")
  | JBool true => Some (lit "true")
  | JBool false => Some (lit "false")
  | JNumber n => Some (Number_toString n)
  | JString s => Some s
  | JArray elems =>
      (fix items (l : list JsValue) : option (list jsstring) :=
         match l with
         | [] => Some []
         | e :: rest =>
             match (match e with
                    | JUndefined | JNull => Some []
                    | _ => ToString e
                    end), items rest with
             | Some t, Some ts => Some (t :: ts)
             | _, _ => None
             end
         end) elems
      ≫= fun parts => Some (join [ch ","] parts)
  | JObject props =>
      match lookup_prop toString_key props with
      | Some _ => None
      | None => Some (lit "[object Object]")
      end
  end.

Definition template (v : JsValue) : Completion jsstring :=
  match ToString v with
  | Some s => Normal s
  | None => TypeError_ "Cannot convert object to primitive value"
  end.

(** ** [Date.prototype.toISOString] of a time value in milliseconds *)

Definition digit_char (n : Z) : Z := 48 + n mod 10.
Definition pad2 (n : Z) : jsstring := [digit_char (n / 10); digit_char n].
Definition pad3 (n : Z) : jsstring := digit_char (n / 100) :: pad2 n.
Definition pad4 (n : Z) : jsstring := digit_char (n / 1000) :: pad3 n.
Definition pad6 (n : Z) : jsstring := digit_char (n / 100000) :: digit_char (n / 10000) :: pad4 n.

Definition msPerDay : Z := 86400000.

(** Year, month and day of a day number counted from 1970-01-01. *)
Definition civil_from_days (days : Z) : Z * Z * Z :=
  let z := days + 719468 in
  let era := z / 146097 in
  let doe := z mod 146097 in
  let yoe := (doe - doe / 1460 + doe / 36524 - doe / 146096) / 365 in
  let doy := doe - (365 * yoe + yoe / 4 - yoe / 100) in
  let mp := (5 * doy + 2) / 153 in
  let d := doy - (153 * mp + 2) / 5 + 1 in
  let m := if mp <? 10 then mp + 3 else mp - 9 in
  let y := yoe + era * 400 + (if m <=? 2 then 1 else 0) in
  (y, m, d).

Definition year_string (y : Z) : jsstring :=
  if (0 <=? y) && (y <=? 9999) then pad4 y
  else (if y <? 0 then ch "-" else ch "+") :: pad6 (Z.abs y).

Definition Date_toISOString (t : Z) : jsstring :=
  let '(y, m, d) := civil_from_days (t / msPerDay) in
  let ms := t mod msPerDay in
  year_string y ++ [ch "-"] ++ pad2 m ++ [ch "-"] ++ pad2 d ++ [ch "T"]
  ++ pad2 (ms / 3600000) ++ [ch ":"] ++ pad2 (ms / 60000 mod 60) ++ [ch ":"]
  ++ pad2 (ms / 1000 mod 60) ++ [ch "."] ++ pad3 (ms mod 1000) ++ [ch "Z"].

End Js.
Import Js.

(* ===================================================================== *)
(** * Worker: the store, the handlers, the entry point *)
(* ===================================================================== *)

(** ** The key-value namespace

    [kv_data] is what the namespace holds. A namespace that is out of reach
    rejects [get] or [put] with [kv_get_fault] or [kv_put_fault]. [kv_log]
    lists the writes that were made, the last one first. *)
Record KVNamespace := {
  kv_data : gmap string (list byte);
  kv_get_fault : option Thrown;
  kv_put_fault : option Thrown;
  kv_log : list (string * list byte)
}.

(** [src/types.ts]: a review, and the bindings of the worker. *)
Record Review := {
  name : jsstring;
  text : jsstring;
  rating : Number;
  date : option jsstring
}.

Record Env := {
  GITHUB_MODELS_TOKEN : jsstring;
  REVIEWS_DB : KVNamespace
}.

Record Request := {
  method : string;
  pathname : string;
  req_body : list byte
}.

(** A [Response] as its constructor leaves it: the status, the headers in
    the order they were set and the body. To a body that is a string the
    constructor gives the type [text/plain;charset=UTF-8] when the headers
    of [init] name no [Content-Type]: the header is appended to them. *)
Record Response := {
  status : Z;
  headers : list (string * string);
  body : option jsstring
}.

(** What [fetch] returns from the inference endpoint. *)
Record Upstream := {
  up_status : Z;
  up_content_type : option string;
  up_text : jsstring
}.

(** What the platform provides and the repository does not define: the
    Unicode case mapping of [String.prototype.toLowerCase], the clock read
    by [new Date()], the answer of the remote endpoint to a token and a
    request body. *)
Record Host := {
  toLowerCase : jsstring -> jsstring;
  now : Z;
  github : jsstring -> option jsstring -> Completion Upstream
}.

(** An asynchronous function: it runs on the bindings, may change the
    namespace, and completes or throws. *)
Definition Async (A : Type) : Type := Env -> Completion A * Env.

Definition ret {A} (a : A) : Async A := fun env => (Normal a, env).

Definition bind {A B} (m : Async A) (k : A -> Async B) : Async B :=
  fun env =>
    match m env with
    | (Normal a, env') => k a env'
    | (Throw t, env') => (Throw t, env')
    end.

Definition lift {A} (c : Completion A) : Async A := fun env => (c, env).

Definition try_catch {A} (m : Async A) (handler : Thrown -> Async A) : Async A :=
  fun env =>
    match m env with
    | (Normal a, env') => (Normal a, env')
    | (Throw t, env') => handler t env'
    end.

(** [let* x := await m in k]: the rest of the function after an [await]. *)
Notation "'let*' x ':=' m 'in' k" := (bind m (fun x => k))
  (at level 10, x name, m at level 100, k at level 200).

(** ** [KVNamespace.get(key, "arrayBuffer")] and [KVNamespace.put] *)

Definition kv_get (key : string) : Async (option (list byte)) :=
  fun env =>
    match kv_get_fault (REVIEWS_DB env) with
    | Some t => (Throw t, env)
    | None => (Normal (kv_data (REVIEWS_DB env) !! key), env)
    end.

Definition kv_put (key : string) (bytes : list byte) : Async unit :=
  fun env =>
    let kv := REVIEWS_DB env in
    match kv_put_fault kv with
    | Some t => (Throw t, env)
    | None =>
        (Normal tt,
         {| GITHUB_MODELS_TOKEN := GITHUB_MODELS_TOKEN env;
            REVIEWS_DB := {| kv_data := <[key := bytes]> (kv_data kv);
                             kv_get_fault := kv_get_fault kv;
                             kv_put_fault := kv_put_fault kv;
                             kv_log := (key, bytes) :: kv_log kv |} |})
    end.

(** ** [src/utils/kv.ts] *)

(** [TextEncoder.encode] of [undefined] is the encoding of the empty
    string. *)
Definition putJsonUtf8 (key : string) (obj : JsValue) : Async unit :=
  let bytes := TextEncoder_encode (default [] (JSON_stringify obj)) in
  kv_put key bytes.

(** An [ArrayBuffer] is an object, so [!raw] holds for [null] only. *)
Definition getJsonUtf8 (key : string) : Async JsValue :=
  let* raw := kv_get key in
  match raw with
  | None => ret JNull
  | Some bytes => lift (JSON_parse (TextDecoder_decode bytes))
  end.

(** ** [src/utils/cors.ts], [src/utils/response.ts], [src/config.ts] *)

Definition cors : list (string * string) :=
  [("Access-Control-Allow-Origin", "*");
   ("Access-Control-Allow-Headers", "Content-Type, Authorization, X-GitHub-Api-Version");
   ("Access-Control-Allow-Methods", "GET,POST,OPTIONS,DELETE")]%string.

(** [json(data, status)], for a status from 200 to 599, which are the ones
    the constructor of [Response] takes: the program gives 200, 400, 404
    and 500. *)
Definition json (data : JsValue) (status : Z) : Response :=
  {| status := status;
     headers := ("Content-Type", "application/json; charset=utf-8")%string :: cors;
     body := JSON_stringify data |}.

Definition GH_MODELS_URL : string := "https://models.github.ai/inference/chat/completions".
Definition GH_API_VERSION : string := "2022-11-28".
Definition DEFAULT_MODEL : string := "microsoft/phi-4-mini-instruct".

(** ** Values of the program *)

Definition k_name : jsstring := Eval vm_compute in lit "name".
Definition k_text : jsstring := Eval vm_compute in lit "text".
Definition k_rating : jsstring := Eval vm_compute in lit "rating".
Definition k_date : jsstring := Eval vm_compute in lit "date".
Definition k_ok : jsstring := Eval vm_compute in lit "ok".
Definition k_error : jsstring := Eval vm_compute in lit "error".
Definition k_reviews : jsstring := Eval vm_compute in lit "reviews".
Definition k_review : jsstring := Eval vm_compute in lit "review".
Definition k_message : jsstring := Eval vm_compute in lit "message".
Definition k_model : jsstring := Eval vm_compute in lit "model".
Definition k_stack : jsstring := Eval vm_compute in lit "stack".

Definition five : Number := Eval vm_compute in Number_of_Z 5.

(** A review as the object literal [{ name, text, rating, date }] builds
    it: a review without [date] has no such property. *)
Definition js_of_Review (r : Review) : JsValue :=
  JObject ([(k_name, JString (name r)); (k_text, JString (text r));
            (k_rating, JNumber (rating r))]
           ++ match date r with
              | Some d => [(k_date, JString d)]
              | None => []
              end).

Definition error_envelope (message : jsstring) : JsValue :=
  JObject [(k_ok, JBool false); (k_error, JString message)].

(** ** The seed of [handleGetReviews] in [src/worker.ts] *)

Definition seed : list Review :=
  [ {| name := lit "Jennifer D.";
       text := lit "My 3 children went to Deebas Daycare over the past 16yrs. They are like family to us. They always took excellent care of my children and my children love them. They are wonderful people and an amazing Daycare. I highly recommend Deebas Daycare!";
       rating := five;
       date := None |};
    {| name := lit EmptyString;
       text := lit "We are very grateful for the care and support provided to our son by Deeba’s daycare. He was there from the age of 4 months until he started kindergarten. They did a fantastic job of preparing him for school.";
       rating := five;
       date := None |};
    {| name := lit EmptyString;
       text := lit "I highly recommend Deeba’s daycare. My son loves it there. They are loving and provide exceptional care!";
       rating := five;
       date := None |} ].

(** The seed of [handleGetReviews] in [src/handlers/reviewsHandler.ts]: the
    same records with shortened texts. *)
Definition seed_short : list Review :=
  [ {| name := lit "Jennifer D.";
       text := lit "My 3 children went to Deebas Daycare over the past 16yrs...";
       rating := five;
       date := None |};
    {| name := lit EmptyString;
       text := lit "We are very grateful for the care and support provided...";
       rating := five;
       date := None |};
    {| name := lit EmptyString;
       text := lit "I highly recommend Deeba’s daycare. My son loves it there...";
       rating := five;
       date := None |} ].

(** ** Methods the handlers call on values *)

(** [stored.unshift(x)]: the array with [x] in front. A value that is not
    an array has no function of that name. *)
Definition Array_unshift (stored x : JsValue) : Completion JsValue :=
  match stored with
  | JArray elems => Normal (JArray (x :: elems))
  | _ => TypeError_ "stored.unshift is not a function"
  end.

(** [elems.filter(keep)], where [keep] may throw. *)
Fixpoint filter_elems (keep : JsValue -> Completion bool) (elems : list JsValue)
  : Completion (list JsValue) :=
  match elems with
  | [] => Normal []
  | e :: rest =>
      match keep e with
      | Throw t => Throw t
      | Normal b =>
          match filter_elems keep rest with
          | Throw t => Throw t
          | Normal kept => Normal (if b then e :: kept else kept)
          end
      end
  end.

Definition Array_filter (reviews : JsValue) (keep : JsValue -> Completion bool)
  : Completion (list JsValue * list JsValue) :=
  match reviews with
  | JArray elems =>
      match filter_elems keep elems with
      | Normal kept => Normal (elems, kept)
      | Throw t => Throw t
      end
  | _ => TypeError_ "reviews.filter is not a function"
  end.

(** ** [src/handlers/reviewsHandler.ts], [src/worker.ts] *)

Section Handlers.

Variable host : Host.

(** [v.toLowerCase()]: a string has the method, another value has not. *)
Definition call_toLowerCase (v : JsValue) : Completion JsValue :=
  match v with
  | JString s => Normal (JString (toLowerCase host s))
  | _ => TypeError_ "toLowerCase is not a function"
  end.

(** [r.name?.toLowerCase()]: [undefined] when [r.name] is [undefined] or
    [null]. *)
Definition optional_toLowerCase (v : JsValue) : Completion JsValue :=
  match v with
  | JUndefined | JNull => Normal JUndefined
  | _ => call_toLowerCase v
  end.

(** [handleGetReviews], over the records [seed_records] it seeds with. *)
Definition getReviews (seed_records : list Review) : Async Response :=
  let* stored := getJsonUtf8 "reviews" in
  let* empty :=
    if negb (ToBoolean stored) then ret true
    else let* len := lift (Get stored length_key) in
         ret (IsStrictlyEqual len (JNumber (Number_of_Z 0))) in
  if (empty : bool) then
    let js_of_reviews := JArray (map js_of_Review seed_records) in
    let* done := putJsonUtf8 "reviews" js_of_reviews in
    ret (json (JObject [(k_ok, JBool true); (k_reviews, js_of_reviews)]) 200)
  else
    ret (json (JObject [(k_ok, JBool true); (k_reviews, stored)]) 200).

Definition handleGetReviews : Async Response := getReviews seed.

(** [req.json()]: the body is decoded as UTF-8 and parsed. *)
Definition Request_json (req : Request) : Async JsValue :=
  lift (JSON_parse (TextDecoder_decode (req_body req))).

Definition Request_text (req : Request) : Async jsstring :=
  ret (TextDecoder_decode (req_body req)).

(** [a ?? b]. *)
Definition nullish (a b : JsValue) : JsValue :=
  match a with
  | JUndefined | JNull => b
  | _ => a
  end.

(** [a || b]. *)
Definition or_else (a b : JsValue) : JsValue := if ToBoolean a then a else b.

Definition handlePostReview (req : Request) : Async Response :=
  try_catch
    (let* body := Request_json req in
     let* missing :=
       let* body_name := lift (Get body k_name) in
       if negb (ToBoolean body_name) then ret true
       else let* body_text := lift (Get body k_text) in
            ret (negb (ToBoolean body_text)) in
     if (missing : bool) then
       ret (json (error_envelope (lit "Missing name or text")) 400)
     else
       let* body_name := lift (Get body k_name) in
       let* body_text := lift (Get body k_text) in
       let* body_rating := lift (Get body k_rating) in
       let newReview :=
         JObject [(k_name, body_name);
                  (k_text, body_text);
                  (k_rating, nullish body_rating (JNumber five));
                  (k_date, JString (Date_toISOString (now host)))] in
       let* stored := getJsonUtf8 "reviews" in
       let* stored' := lift (Array_unshift (or_else stored (JArray [])) newReview) in
       let* done := putJsonUtf8 "reviews" stored' in
       ret (json (JObject [(k_ok, JBool true); (k_review, newReview)]) 200))
    (fun err => ret (json (error_envelope (lit "Server error")) 500)).

(** [err instanceof Error ? err.message : "Unknown server error"]. *)
Definition message_of (err : Thrown) : jsstring :=
  match err with
  | ErrorObject _ message => message
  | ThrownValue _ => lit "Unknown server error"
  end.

(** The test of the filter,
    [(r) => r.name?.toLowerCase() !== body.name!.toLowerCase()]: the left
    operand is evaluated first. *)
Definition name_differs (body_name r : JsValue) : Completion bool :=
  match Get r k_name with
  | Throw t => Throw t
  | Normal r_name =>
      match optional_toLowerCase r_name with
      | Throw t => Throw t
      | Normal lowered =>
          match call_toLowerCase body_name with
          | Throw t => Throw t
          | Normal wanted => Normal (negb (IsStrictlyEqual lowered wanted))
          end
      end
  end.

Definition handleDeleteReview (req : Request) : Async Response :=
  try_catch
    (let* body := Request_json req in
     let* body_name := lift (Get body k_name) in
     if negb (ToBoolean body_name) then
       ret (json (error_envelope (lit "Missing name field")) 400)
     else
       let* stored := getJsonUtf8 "reviews" in
       let* split :=
         lift (Array_filter (or_else stored (JArray [])) (name_differs body_name)) in
       let '(reviews, filtered) := split in
       if (length filtered =? length reviews)%nat then
         let* shown := lift (template body_name) in
         ret (json (error_envelope (lit "No reviews found for " ++ shown)) 404)
       else
         let* done := putJsonUtf8 "reviews" (JArray filtered) in
         let* shown := lift (template body_name) in
         ret (json (JObject
                      [(k_ok, JBool true);
                       (k_message,
                        JString (lit "Deleted "
                                 ++ Number_toString
                                      (Number_of_Z (Z.of_nat (length reviews)
                                                    - Z.of_nat (length filtered)))
                                 ++ lit " review(s) for " ++ shown))])
                200))
    (fun err => ret (json (error_envelope (message_of err)) 500)).

(** The proxy of [src/handlers/githubProxyHandler.ts]. *)
Definition handleGitHubProxy (req : Request) : Async Response :=
  try_catch
    (let* rawBody := Request_text req in
     let data :=
       match JSON_parse rawBody with
       | Normal v => v
       | Throw _ => JObject []
       end in
     let* model := lift (Get data k_model) in
     let* data' :=
       if negb (ToBoolean model)
       then lift (Set_ data k_model (JString (lit DEFAULT_MODEL)))
       else ret data in
     fun env =>
       match github host (GITHUB_MODELS_TOKEN env) (JSON_stringify data') with
       | Throw t => (Throw t, env)
       | Normal gh =>
           (Normal {| status := up_status gh;
                      headers :=
                        ("Content-Type",
                         match up_content_type gh with
                         | Some ct => ct
                         | None => "application/json"
                         end)%string :: cors;
                      body := Some (up_text gh) |}, env)
       end)
    (fun err =>
       let thrown :=
         match err with
         | ErrorObject _ m => JObject [(k_message, JString m)]
         | ThrownValue v => v
         end in
       let* stack := lift (Get thrown k_stack) in
       let* message := lift (Get thrown k_message) in
       ret (json (JObject [(k_ok, JBool false);
                           (k_error, or_else message (JString (lit "Unknown error")))])
              500)).

(** The [fetch] entry point of [src/worker.ts]. *)
Definition fetch (req : Request) : Async Response :=
  if String.eqb (method req) "OPTIONS" then
    ret {| status := 204; headers := cors; body := None |}
  else if String.eqb (method req) "GET" && String.eqb (pathname req) "/" then
    ret (json (JObject [(k_ok, JBool true);
                        (lit "proxy", JString (lit "github-models"));
                        (lit "to", JString (lit GH_MODELS_URL));
                        (lit "default_model", JString (lit DEFAULT_MODEL));
                        (lit "version", JString (lit GH_API_VERSION))]) 200)
  else if String.eqb (pathname req) "/reviews" && String.eqb (method req) "DELETE" then
    handleDeleteReview req
  else if String.eqb (pathname req) "/reviews" && String.eqb (method req) "GET" then
    handleGetReviews
  else if String.eqb (pathname req) "/reviews" && String.eqb (method req) "POST" then
    handlePostReview req
  else if String.eqb (method req) "POST" then
    handleGitHubProxy req
  else
    ret {| status := 404;
           headers := cors ++ [("Content-Type", "text/plain;charset=UTF-8")%string];
           body := Some (lit "Not Found") |}.

End Handlers.

(** ** Notions the statements use *)

(** The blob under the key of the collection. *)
Definition stored_blob (env : Env) : option (list byte) :=
  kv_data (REVIEWS_DB env) !! "reviews"%string.

(** The bytes [putJsonUtf8] writes for a value. *)
Definition blob_of (v : JsValue) : list byte :=
  TextEncoder_encode (default [] (JSON_stringify v)).

(** The bindings after one successful write of [v] under the key of the
    collection. *)
Definition persist (env : Env) (v : JsValue) : Env :=
  {| GITHUB_MODELS_TOKEN := GITHUB_MODELS_TOKEN env;
     REVIEWS_DB :=
       {| kv_data := <["reviews"%string := blob_of v]> (kv_data (REVIEWS_DB env));
          kv_get_fault := kv_get_fault (REVIEWS_DB env);
          kv_put_fault := kv_put_fault (REVIEWS_DB env);
          kv_log := ("reviews"%string, blob_of v) :: kv_log (REVIEWS_DB env) |} |}.

(** The namespace answers reads and writes. *)
Definition healthy (env : Env) : Prop :=
  kv_get_fault (REVIEWS_DB env) = None /\ kv_put_fault (REVIEWS_DB env) = None.

(** Reading the collection gives [v] ([null] when there is none). *)
Definition holds (env : Env) (v : JsValue) : Prop :=
  getJsonUtf8 "reviews" env = (Normal v, env).

Definition js_of_reviews (records : list Review) : JsValue :=
  JArray (map js_of_Review records).

Definition seed_response (records : list Review) : Response :=
  json (JObject [(k_ok, JBool true); (k_reviews, js_of_reviews records)]) 200.

Definition GET_reviews : Request :=
  {| method := "GET"; pathname := "/reviews"; req_body := [] |}.

(** The record [handlePostReview] builds from the properties of a body. *)
Definition newReview_of (host : Host) (body_name body_text body_rating : JsValue) : JsValue :=
  JObject [(k_name, body_name);
           (k_text, body_text);
           (k_rating, nullish body_rating (JNumber five));
           (k_date, JString (Date_toISOString (now host)))].

(** The shape [YYYY-MM-DDTHH:mm:ss.sssZ] of ISO 8601, the year of four
    digits or of six with a sign. *)
Definition iso8601_tail (s : jsstring) : bool :=
  match s with
  | [d1; m1; m2; d2; d3; d4; t; h1; h2; c1; n1; n2; c2; s1; s2; p; f1; f2; f3; z] =>
      forallb is_digit [m1; m2; d3; d4; h1; h2; n1; n2; s1; s2; f1; f2; f3]
      && forallb (fun x => x =? ch "-") [d1; d2]
      && (t =? ch "T") && forallb (fun x => x =? ch ":") [c1; c2]
      && (p =? ch ".") && (z =? ch "Z")
  | _ => false
  end.

Definition is_iso8601 (s : jsstring) : bool :=
  match s with
  | sg :: y1 :: y2 :: y3 :: y4 :: y5 :: y6 :: rest =>
      if (sg =? ch "+") || (sg =? ch "-")
      then forallb is_digit [y1; y2; y3; y4; y5; y6] && iso8601_tail rest
      else forallb is_digit [sg; y1; y2; y3] && iso8601_tail (y4 :: y5 :: y6 :: rest)
  | _ => false
  end.

(** The name of a stored record as [handleDeleteReview] reads it:
    [Some (Some s)] a string, [Some None] no name ([undefined] or [null]),
    [None] when the record has no readable name (it is [null], or its name
    is neither a string nor missing). *)
Definition name_of (r : JsValue) : option (option jsstring) :=
  match Get r k_name with
  | Normal (JString s) => Some (Some s)
  | Normal JUndefined | Normal JNull => Some None
  | _ => None
  end.

Definition well_named (r : JsValue) : Prop := name_of r <> None.

(** A record matches a query when it has a name and both are equal after
    lowercasing. *)
Definition matches (host : Host) (query : jsstring) (r : JsValue) : bool :=
  match name_of r with
  | Some (Some s) => jsstring_eqb (toLowerCase host s) (toLowerCase host query)
  | _ => false
  end.

Definition DELETE_reviews (bytes : list byte) : Request :=
  {| method := "DELETE"; pathname := "/reviews"; req_body := bytes |}.

Definition POST_reviews (bytes : list byte) : Request :=
  {| method := "POST"; pathname := "/reviews"; req_body := bytes |}.

(** The request body parses to [v]. *)
Definition body_is (req : Request) (v : JsValue) : Prop :=
  JSON_parse (TextDecoder_decode (req_body req)) = Normal v.

(** ** A host for examples: ASCII letters only are lowercased *)

Definition ascii_lower (s : jsstring) : jsstring :=
  map (fun c => if (65 <=? c) && (c <=? 90) then c + 32 else c) s.

Definition example_host : Host :=
  {| toLowerCase := ascii_lower;
     now := 1700000000123;
     github := fun _ _ => Throw (ErrorObject OtherError (lit "fetch failed")) |}.

Definition empty_kv : KVNamespace :=
  {| kv_data := ∅; kv_get_fault := None; kv_put_fault := None; kv_log := [] |}.

Definition empty_env : Env :=
  {| GITHUB_MODELS_TOKEN := lit "token"; REVIEWS_DB := empty_kv |}.

Definition env_with (bytes : list byte) : Env :=
  {| GITHUB_MODELS_TOKEN := lit "token";
     REVIEWS_DB := {| kv_data := {[ "reviews"%string := bytes ]};
                      kv_get_fault := None; kv_put_fault := None; kv_log := [] |} |}.

Definition offline_env : Env :=
  {| GITHUB_MODELS_TOKEN := lit "token";
     REVIEWS_DB := {| kv_data := ∅;
                      kv_get_fault := Some (ErrorObject OtherError (lit "KV GET failed"));
                      kv_put_fault := Some (ErrorObject OtherError (lit "KV PUT failed"));
                      kv_log := [] |} |}.

(** JSON texts of the examples are written with an apostrophe for the
    double quote. *)
Definition json_text (s : string) : jsstring :=
  map (fun c => if c =? 39 then 34 else c) (lit s).

Definition json_bytes (s : string) : list byte := TextEncoder_encode (json_text s).

(** The answers of [handleDeleteReview]. *)
Definition not_found_response (query : jsstring) : Response :=
  json (error_envelope (lit "No reviews found for " ++ query)) 404.

Definition deleted_response (removed : nat) (query : jsstring) : Response :=
  json (JObject [(k_ok, JBool true);
                 (k_message,
                  JString (lit "Deleted "
                           ++ Number_toString (Number_of_Z (Z.of_nat removed))
                           ++ lit " review(s) for " ++ query))]) 200.

(** The records a query leaves in place. *)
Definition survivors (host : Host) (query : jsstring) (rs : list JsValue) : list JsValue :=
  List.filter (fun r => negb (matches host query r)) rs.

(** What [stored || []] is for a collection that is absent or an array. *)
Definition collection_of (stored : JsValue) : option (list JsValue) :=
  match stored with
  | JNull => Some []
  | JArray elems => Some elems
  | _ => None
  end.

(** Requests of the examples. *)
Definition jane_request : Request :=
  POST_reviews (json_bytes "{'name':'Jane Doe','text':'Loved it! 😊','rating':4,'date':'1999-01-01'}").

Definition jane_body : JsValue :=
  JObject [(k_name, JString (lit "Jane Doe")); (k_text, JString (lit "Loved it! 😊"));
           (k_rating, JNumber (Number_of_Z 4)); (k_date, JString (lit "1999-01-01"))].

Definition unrated_request : Request :=
  POST_reviews (json_bytes "{'name':'A','text':'hi'}").

Definition unrated_body : JsValue :=
  JObject [(k_name, JString (lit "A")); (k_text, JString (lit "hi"))].

Definition nameless_request : Request := POST_reviews (json_bytes "{'text':'hi'}").

(** The namespace after the first List: it holds the seed. *)
Definition seeded_env : Env := persist empty_env (js_of_reviews seed).

Definition delete_request (query : string) : Request :=
  DELETE_reviews (TextEncoder_encode
                    (json_text "{'name':'" ++ lit query ++ json_text "'}")).

Definition nameless (r : JsValue) : Prop :=
  name_of r = Some None \/ name_of r = Some (Some []).

(** A Unicode scalar value: a code point that is not a surrogate. *)
Definition is_scalar (cp : Z) : Prop :=
  0 <= cp < 0x110000 /\ ~ (0xD800 <= cp <= 0xDFFF).

(** A string with no lone surrogate: every unit is a scalar value of its
    own or belongs to a pair. *)
Inductive well_formed : jsstring -> Prop :=
| wf_nil : well_formed []
| wf_unit c s :
    0 <= c < 0x10000 -> ~ (0xD800 <= c <= 0xDFFF) -> well_formed s ->
    well_formed (c :: s)
| wf_pair hi lo s :
    0xD800 <= hi <= 0xDBFF -> 0xDC00 <= lo <= 0xDFFF -> well_formed s ->
    well_formed (hi :: lo :: s).

(** What the parser of strings makes of [more] after units it has read. *)
Definition after (units : jsstring) (more : option (jsstring * jsstring))
  : option (jsstring * jsstring) :=
  match more with
  | Some (t, r) => Some (units ++ t, r)
  | None => None
  end.

(** ** The tokens of numbers *)

Definition all_digits (ds : jsstring) : Prop := Forall (fun c => is_digit c = true) ds.

(** What may follow a number: not a character that would continue it. *)
Definition delimited (rest : jsstring) : Prop :=
  match rest with
  | [] => True
  | c :: _ => is_digit c = false /\ c <> ch "." /\ c <> ch "e" /\ c <> ch "E"
  end.

(** An integer part: a single zero, or digits that do not begin with one. *)
Definition integer_part (i : jsstring) : Prop :=
  i = [48] \/ exists d i', i = d :: i' /\ is_digit d = true /\ d <> 48 /\ all_digits i'.

Definition frac_text (f : jsstring) : jsstring :=
  match f with
  | [] => []
  | _ => ch "." :: f
  end.

Definition exp_text (e : option (bool * jsstring)) : jsstring :=
  match e with
  | None => []
  | Some (neg, x) => ch "e" :: (if neg then ch "-" else ch "+") :: x
  end.

Definition exp_value (e : option (bool * jsstring)) : Z :=
  match e with
  | None => 0
  | Some (neg, x) => if neg then - digits_value 0 x else digits_value 0 x
  end.

Definition exponent_part (e : option (bool * jsstring)) : Prop :=
  match e with
  | None => True
  | Some (_, x) => x <> [] /\ all_digits x
  end.

(** The parts [layout] puts together: integer digits, fraction digits and
    exponent. *)
Definition layout_parts (ds : jsstring) (n : Z)
  : jsstring * jsstring * option (bool * jsstring) :=
  let k := Z.of_nat (length ds) in
  if (k <=? n) && (n <=? 21) then (ds ++ zeros (n - k), [], None)
  else if (0 <? n) && (n <=? 21) then (firstn (Z.to_nat n) ds, skipn (Z.to_nat n) ds, None)
  else if (-6 <? n) && (n <=? 0) then ([48], zeros (- n) ++ ds, None)
  else (firstn 1 ds, skipn 1 ds,
        Some (n - 1 <? 0, digits_of_pos (Z.to_pos (Z.abs (n - 1))))).

(** What [JSON.parse] reads from what [JSON.stringify] writes for a
    Number: the Number its digits denote, and [null] for a Number that is
    not finite. *)
Definition reread_number (x : Number) : JsValue :=
  if is_finite x then
    match parse_number (Number_toString x) with
    | Some (v, _) => JNumber v
    | None => JNull
    end
  else JNull.

(** A review as it is read back: its strings as they were. *)
Definition reread (r : Review) : JsValue :=
  JObject ([(k_name, JString (name r)); (k_text, JString (text r));
            (k_rating, reread_number (rating r))]
           ++ match date r with
              | Some d => [(k_date, JString d)]
              | None => []
              end).

(** The strings of a review are strings of JavaScript. *)
Definition valid_review (r : Review) : Prop :=
  is_jsstring (name r) /\ is_jsstring (text r)
  /\ match date r with Some d => is_jsstring d | None => True end.

(** What [JSON.stringify] writes for a Number and for a review. *)
Definition number_text (x : Number) : jsstring :=
  if is_finite x then Number_toString x else lit "null".

Definition member_text (k : jsstring) (value : jsstring) : jsstring :=
  QuoteJSONString k ++ [ch ":"] ++ value.

Definition review_text (r : Review) : jsstring :=
  [ch "{"]
  ++ join [ch ","]
       ([member_text k_name (QuoteJSONString (name r));
         member_text k_text (QuoteJSONString (text r));
         member_text k_rating (number_text (rating r))]
        ++ match date r with
           | Some d => [member_text k_date (QuoteJSONString d)]
           | None => []
           end)
  ++ [ch "}"].

Definition collection_text (rs : list Review) : jsstring :=
  [ch "["] ++ join [ch ","] (map review_text rs) ++ [ch "]"].

(** A review of the examples: an emoji, an accented letter, a lone
    surrogate, a quote and a line break in its text. *)
Definition emoji_review : Review :=
  {| name := lit "Zoë";
     text := lit "Loved it! 😊" ++ [0xD83D; 34; 10; 0xDE0A];
     rating := Number_of_Z 4;
     date := Some (lit "2023-11-14T22:13:20.123Z") |}.

Definition is_jsstringb (s : jsstring) : bool :=
  forallb (fun c => (0 <=? c) && (c <? 65536)) s.

(** The record of the scenario of Append, as created at the time of
    [example_host]. *)
Definition jane_review : Review :=
  {| name := lit "Jane Doe"; text := lit "Loved it! 😊"; rating := Number_of_Z 4;
     date := Some (lit "2023-11-14T22:13:20.123Z") |}.

(* ===================================================================== *)
(** * The entry point of the handlers of [src/handlers] *)
(* ===================================================================== *)

(** [src/worker.ts] as it routes to [src/handlers/reviewsHandler.ts] and
    [src/handlers/githubProxyHandler.ts]: the URL is read first, the three
    methods of [/reviews] are tested inside one test of the path, and
    [handleGetReviews] is the one of [reviewsHandler.ts], which seeds the
    shortened texts. *)
Module Modular.
Section Entry.

Variable host : Host.

Definition handleGetReviews : Async Response := getReviews seed_short.

Definition fetch (req : Request) : Async Response :=
  let proxy_or_not_found : Async Response :=
    if String.eqb (method req) "POST" then handleGitHubProxy host req
    else ret {| status := 404;
                headers := cors ++ [("Content-Type", "text/plain;charset=UTF-8")%string];
                body := Some (lit "Not Found") |} in
  if String.eqb (method req) "OPTIONS" then
    ret {| status := 204; headers := cors; body := None |}
  else if String.eqb (method req) "GET" && String.eqb (pathname req) "/" then
    ret (json (JObject [(k_ok, JBool true);
                        (lit "proxy", JString (lit "github-models"));
                        (lit "to", JString (lit GH_MODELS_URL));
                        (lit "default_model", JString (lit DEFAULT_MODEL));
                        (lit "version", JString (lit GH_API_VERSION))]) 200)
  else if String.eqb (pathname req) "/reviews" then
    if String.eqb (method req) "GET" then handleGetReviews
    else if String.eqb (method req) "POST" then handlePostReview host req
    else if String.eqb (method req) "DELETE" then handleDeleteReview host req
    else proxy_or_not_found
  else proxy_or_not_found.

End Entry.
End Modular.

(* ===================================================================== *)
(** * Notions of the statements about routing and the proxy *)
(* ===================================================================== *)

(** The answers of [fetch] that no handler makes. *)
Definition preflight_response : Response :=
  {| status := 204; headers := cors; body := None |}.

Definition not_found : Response :=
  {| status := 404;
     headers := cors ++ [("Content-Type", "text/plain;charset=UTF-8")%string];
     body := Some (lit "Not Found") |}.

(** The requests that [fetch] hands to a handler of the reviews. *)
Definition reviews_route (req : Request) : bool :=
  String.eqb (pathname req) "/reviews"
  && (String.eqb (method req) "GET" || String.eqb (method req) "POST"
      || String.eqb (method req) "DELETE").

(** The bindings are as they were, or one value was written under the key
    of the collection. *)
Definition one_write (env env' : Env) : Prop :=
  env' = env \/ exists v, env' = persist env v.

(** What the proxy answers when the endpoint answers [gh]. *)
Definition relay (gh : Upstream) : Response :=
  {| status := up_status gh;
     headers :=
       ("Content-Type",
        match up_content_type gh with
        | Some ct => ct
        | None => "application/json"
        end)%string :: cors;
     body := Some (up_text gh) |}.

(** The body the proxy sends when it has nothing of the request to send. *)
Definition default_model_body : jsstring :=
  json_text "{'model':'microsoft/phi-4-mini-instruct'}".

(** A value that was thrown and is not [null] or [undefined]: its
    properties can be read. *)
Definition readable (t : Thrown) : Prop :=
  t <> ThrownValue JNull /\ t <> ThrownValue JUndefined.

(** A host whose endpoint answers 200 with the body it was sent, and one
    whose endpoint answers 429 as JSON. *)
Definition echo_host : Host :=
  {| toLowerCase := ascii_lower;
     now := 1700000000123;
     github := fun _ sent =>
                 Normal {| up_status := 200; up_content_type := None;
                           up_text := default [] sent |} |}.

Definition GET (path : string) : Request :=
  {| method := "GET"; pathname := path; req_body := [] |}.

Definition POST (path : string) (bytes : list byte) : Request :=
  {| method := "POST"; pathname := path; req_body := bytes |}.

(** Whether a query leaves a review in place: the names differ after
    lowercasing. *)
Definition keeps (host : Host) (query : jsstring) (r : Review) : bool :=
  negb (jsstring_eqb (toLowerCase host (name r)) (toLowerCase host query)).

(** A namespace that holds a JSON object where the collection should be. *)
Definition object_env : Env := env_with (json_bytes "{'reviews':[]}").

Definition DELETE (path : string) (bytes : list byte) : Request :=
  {| method := "DELETE"; pathname := path; req_body := bytes |}.

(* ===================================================================== *)
(** * Notions of the statements about stored values *)
(* ===================================================================== *)

(** What [JSON.stringify] writes of a value where one must be written: an
    element of an array that is [undefined] is written [null]. *)
Definition written (v : JsValue) : jsstring :=
  match SerializeJSONProperty v with
  | Some t => t
  | None => lit "null"
  end.

(** A value as [JSON.parse] reads what [JSON.stringify] wrote of it: a
    Number is the one its digits denote, an [undefined] element is [null],
    an [undefined] property is not there, and the properties are defined in
    the order they were written. *)
Fixpoint reread_value (v : JsValue) : JsValue :=
  match v with
  | JUndefined | JNull => JNull
  | JBool b => JBool b
  | JNumber x => reread_number x
  | JString s => JString s
  | JArray elems => JArray (map reread_value elems)
  | JObject props =>
      object_of_members
        (flat_map (fun kv => match snd kv with
                             | JUndefined => []
                             | _ => [(fst kv, reread_value (snd kv))]
                             end) props)
  end.

(** The strings of a value, keys included, are strings of JavaScript. *)
Fixpoint storable (v : JsValue) : bool :=
  match v with
  | JString s => is_jsstringb s
  | JArray elems => forallb storable elems
  | JObject props => forallb (fun kv => is_jsstringb (fst kv) && storable (snd kv)) props
  | _ => true
  end.

(** What is read, with fuel enough, of a text that a value wrote. *)
Definition reads_back (v : JsValue) : Prop :=
  forall rest, delimited rest ->
  exists F0, forall F, (F0 <= F)%nat ->
    parse_value F (written v ++ rest) = Parsed (reread_value v) rest.

(** The same Number, bit for bit. *)
Definition same_number (x y : Number) : bool :=
  match x, y with
  | S754_zero a, S754_zero b => Bool.eqb a b
  | S754_infinity a, S754_infinity b => Bool.eqb a b
  | S754_nan, S754_nan => true
  | S754_finite a m e, S754_finite b m' e' => Bool.eqb a b && Pos.eqb m m' && Z.eqb e e'
  | _, _ => false
  end.

Fixpoint distinct (keys : list jsstring) : bool :=
  match keys with
  | [] => true
  | k :: rest => negb (existsb (jsstring_eqb k) rest) && distinct rest
  end.

(** A value that JSON holds as it is: no [undefined], Numbers that are
    the ones their digits denote, and in an object keys that differ and
    are not array indices, which an object would put first. *)
Fixpoint plain (v : JsValue) : bool :=
  match v with
  | JUndefined => false
  | JNull | JBool _ | JString _ => true
  | JNumber x =>
      match reread_number x with
      | JNumber y => same_number x y
      | _ => false
      end
  | JArray elems => forallb plain elems
  | JObject props =>
      forallb (fun kv => match array_index (fst kv) with
                         | Some _ => false
                         | None => plain (snd kv)
                         end) props
      && distinct (map fst props)
  end.

(** A name that Append takes and that is not a string. *)
Definition untyped_name (nv : JsValue) : Prop :=
  ToBoolean nv = true /\ (forall s, nv <> JString s)
  /\ (forall x, nv = JNumber x -> is_finite x = true).

(** A value of the examples: an object with a nested array, an emoji and a
    Number. *)
Definition settings_value : JsValue :=
  JObject [(lit "tags", JArray [JString (lit "😊"); JNull; JBool true]);
           (lit "limit", JNumber (Number_of_Z 4))].

(** An Append whose name is the number 7. *)
Definition seven_request : Request :=
  POST_reviews (json_bytes "{'name':7,'text':'hi'}").

Definition seven_body : JsValue :=
  JObject [(k_name, JNumber (Number_of_Z 7)); (k_text, JString (lit "hi"))].

(* ===================================================================== *)
(** * Notions of the statements about what is written and answered *)
(* ===================================================================== *)

(** The decoder with a sequence pending: the code point read so far leaves
    room for the bytes still needed. *)
Definition pending (st : utf8_state) : Prop :=
  match u8_needed st with
  | 0%nat => True
  | 1%nat => 0 <= u8_code_point st < 32768
  | 2%nat => 0 <= u8_code_point st < 512
  | 3%nat => 0 <= u8_code_point st < 8
  | _ => False
  end.

Definition storable_props (props : list (jsstring * JsValue)) : bool :=
  forallb (fun kv => is_jsstringb (fst kv) && storable (snd kv)) props.

(** The day number of a date, counted from 1970-01-01. *)
Definition days_from_civil (y m d : Z) : Z :=
  let y' := if m <=? 2 then y - 1 else y in
  let era := y' / 400 in
  let yoe := y' - era * 400 in
  let mp := if 2 <? m then m - 3 else m + 9 in
  let doy := (153 * mp + 2) / 5 + d - 1 in
  let doe := yoe * 365 + yoe / 4 - yoe / 100 + doy in
  era * 146097 + doe - 719468.

(** The time value that a string [YYYY-MM-DDTHH:mm:ss.sssZ] denotes, in
    milliseconds since 1970-01-01T00:00:00.000Z. *)
Definition Date_parse (s : jsstring) : option Z :=
  if is_iso8601 s then
    match s with
    | [y1; y2; y3; y4; _; m1; m2; _; d1; d2; _; h1; h2; _; n1; n2; _; s1; s2; _; f1; f2; f3; _] =>
        let y := digits_value 0 [y1; y2; y3; y4] in
        let m := digits_value 0 [m1; m2] in
        let d := digits_value 0 [d1; d2] in
        let h := digits_value 0 [h1; h2] in
        let n := digits_value 0 [n1; n2] in
        let sec := digits_value 0 [s1; s2] in
        let ms := digits_value 0 [f1; f2; f3] in
        if (1 <=? m) && (m <=? 12) && (1 <=? d) && (d <=? 31)
           && (h <=? 23) && (n <=? 59) && (sec <=? 59)
        then Some (days_from_civil y m d * msPerDay
                   + h * 3600000 + n * 60000 + sec * 1000 + ms)
        else None
    | _ => None
    end
  else None.

(** The rating of the record Append creates: the one of the body, or 5. *)
Definition rating_of (body_rating : JsValue) : JsValue :=
  match body_rating with
  | JUndefined | JNull => JNumber (Number_of_Z 5)
  | _ => body_rating
  end.

(** A record without a name, or with the empty one, as a test. *)
Definition namelessb (r : JsValue) : bool :=
  match name_of r with
  | Some None | Some (Some []) => true
  | _ => false
  end.

(** The records a query leaves in place, and those it removes. *)
Definition kept_by (host : Host) (query : jsstring) (rs : list JsValue) : list JsValue :=
  List.filter (fun r => negb (matches host query r)) rs.

Definition removed_by (host : Host) (query : jsstring) (rs : list JsValue) : list JsValue :=
  List.filter (matches host query) rs.

(** The headers of an answer made by [json]. *)
Definition json_headers : list (string * string) :=
  ("Content-Type", "application/json; charset=utf-8")%string :: cors.

(** The seed records as JSON, an apostrophe for each double quote: the one
    of Jennifer D., and the two without a name. *)
Definition jennifer_json : string :=
  "{'name':'Jennifer D.','text':'My 3 children went to Deebas Daycare over the past 16yrs. They are like family to us. They always took excellent care of my children and my children love them. They are wonderful people and an amazing Daycare. I highly recommend Deebas Daycare!','rating':5}".

Definition anonymous_json : string :=
  "{'name':'','text':'We are very grateful for the care and support provided to our son by Deeba’s daycare. He was there from the age of 4 months until he started kindergarten. They did a fantastic job of preparing him for school.','rating':5},{'name':'','text':'I highly recommend Deeba’s daycare. My son loves it there. They are loving and provide exceptional care!','rating':5}".

Definition seed_json : string :=
  String.append "[" (String.append jennifer_json (String.append "," (String.append anonymous_json "]"))).

(** An Append with a date of its own and no rating. *)
Definition backdated_request : Request :=
  POST_reviews (json_bytes "{'name':'A','text':'hi','date':'1999-01-01'}").

Definition backdated_body : JsValue :=
  JObject [(k_name, JString (lit "A")); (k_text, JString (lit "hi"));
           (k_date, JString (lit "1999-01-01"))].

(** An Append whose name is the number 0, and one without a body. *)
Definition zero_request : Request := POST_reviews (json_bytes "{'name':0,'text':'hi'}").

Definition bodiless_request : Request := POST_reviews [].

(** A namespace whose collection holds a record named by the number 7,
    before the record of Jennifer D. *)
Definition seven_env : Env :=
  env_with (json_bytes (String.append "[{'name':7,'text':'hi','rating':5},"
                          (String.append jennifer_json "]"))).

(** A property of a body that is missing or empty: it is not there, it is
    [null], or it is the empty string. *)
Definition missing (v : JsValue) : Prop :=
  v = JUndefined \/ v = JNull \/ v = JString [].

(** A request with the name of a seed record and a text, for Append and
    for Delete. *)
Definition jennifer_request : Request :=
  POST_reviews (json_bytes "{'name':'Jennifer D.','text':'hi'}").

Definition jennifer_body : JsValue :=
  JObject [(k_name, JString (lit "Jennifer D.")); (k_text, JString (lit "hi"))].

(* ===================================================================== *)
(** * Properties *)
(* ===================================================================== *)

(** ** The store *)

Lemma jsstring_eqb_eq (s t : jsstring) : jsstring_eqb s t = true <-> s = t.
Proof. unfold jsstring_eqb. apply bool_decide_eq_true. Qed.

Lemma jsstring_eqb_refl (s : jsstring) : jsstring_eqb s s = true.
Proof. now apply jsstring_eqb_eq. Qed.

Lemma putJsonUtf8_ok env v :
  kv_put_fault (REVIEWS_DB env) = None ->
  putJsonUtf8 "reviews" v env = (Normal tt, persist env v).
Proof. intros H. unfold putJsonUtf8, kv_put, persist, blob_of. rewrite H. reflexivity. Qed.

Lemma putJsonUtf8_fault env v t :
  kv_put_fault (REVIEWS_DB env) = Some t ->
  putJsonUtf8 "reviews" v env = (Throw t, env).
Proof. intros H. unfold putJsonUtf8, kv_put. rewrite H. reflexivity. Qed.

Lemma getJsonUtf8_fault env t :
  kv_get_fault (REVIEWS_DB env) = Some t ->
  getJsonUtf8 "reviews" env = (Throw t, env).
Proof. intros H. unfold getJsonUtf8, bind, kv_get. rewrite H. reflexivity. Qed.

Lemma getJsonUtf8_absent env :
  kv_get_fault (REVIEWS_DB env) = None -> stored_blob env = None -> holds env JNull.
Proof.
  unfold holds, stored_blob, getJsonUtf8, bind, kv_get. intros -> ->. reflexivity.
Qed.

Lemma getJsonUtf8_blob env b :
  kv_get_fault (REVIEWS_DB env) = None -> stored_blob env = Some b ->
  getJsonUtf8 "reviews" env = (JSON_parse (TextDecoder_decode b), env).
Proof.
  unfold stored_blob, getJsonUtf8, bind, kv_get, lift. intros -> ->. reflexivity.
Qed.

(** A read leaves the bindings as they are. *)
Lemma getJsonUtf8_reads env : snd (getJsonUtf8 "reviews" env) = env.
Proof.
  unfold getJsonUtf8, bind, kv_get, lift, ret.
  destruct (kv_get_fault (REVIEWS_DB env)); [reflexivity|].
  destruct (kv_data (REVIEWS_DB env) !! "reviews"%string); reflexivity.
Qed.

Lemma persist_blob env v : stored_blob (persist env v) = Some (blob_of v).
Proof. unfold stored_blob, persist. simpl. apply lookup_insert_eq. Qed.

Lemma persist_healthy env v : healthy env -> healthy (persist env v).
Proof. unfold healthy, persist. simpl. tauto. Qed.

Lemma persist_log env v :
  kv_log (REVIEWS_DB (persist env v))
  = ("reviews"%string, blob_of v) :: kv_log (REVIEWS_DB env).
Proof. reflexivity. Qed.

(** ** The monad of asynchronous functions *)

Lemma bind_normal {A B} (m : Async A) (k : A -> Async B) env a env' :
  m env = (Normal a, env') -> bind m k env = k a env'.
Proof. intros H. unfold bind. now rewrite H. Qed.

Lemma bind_throw {A B} (m : Async A) (k : A -> Async B) env t env' :
  m env = (Throw t, env') -> bind m k env = (Throw t, env').
Proof. intros H. unfold bind. now rewrite H. Qed.

Lemma bind_lift_normal {A B} (c : Completion A) (k : A -> Async B) env a :
  c = Normal a -> bind (lift c) k env = k a env.
Proof. intros ->. reflexivity. Qed.

Lemma bind_lift_throw {A B} (c : Completion A) (k : A -> Async B) env t :
  c = Throw t -> bind (lift c) k env = (Throw t, env).
Proof. intros ->. reflexivity. Qed.

Lemma try_catch_normal {A} (m : Async A) h env a env' :
  m env = (Normal a, env') -> try_catch m h env = (Normal a, env').
Proof. intros H. unfold try_catch. now rewrite H. Qed.

Lemma try_catch_throw {A} (m : Async A) h env t env' :
  m env = (Throw t, env') -> try_catch m h env = h t env'.
Proof. intros H. unfold try_catch. now rewrite H. Qed.

(** ** List *)

(** With nothing to show, [getReviews] writes its seed and returns it. *)
Lemma getReviews_seeds records env stored :
  holds env stored ->
  kv_put_fault (REVIEWS_DB env) = None ->
  ToBoolean stored = false \/ stored = JArray [] ->
  getReviews records env
  = (Normal (seed_response records), persist env (js_of_reviews records)).
Proof.
  intros Hget Hput Hempty. unfold getReviews.
  rewrite (bind_normal _ _ _ _ _ Hget).
  erewrite bind_normal.
  2: { destruct Hempty as [F | ->]; [rewrite F|]; reflexivity. }
  cbv iota. fold (js_of_reviews records).
  rewrite (bind_normal _ _ _ _ _ (putJsonUtf8_ok _ _ Hput)). reflexivity.
Qed.

(** A collection that holds records is returned as it is, without a
    write. *)
Lemma getReviews_returns records env elems :
  holds env (JArray elems) ->
  Number_equal (Number_of_Z (Z.of_nat (length elems))) (Number_of_Z 0) = false ->
  getReviews records env
  = (Normal (json (JObject [(k_ok, JBool true); (k_reviews, JArray elems)]) 200), env).
Proof.
  intros Hget Hlen. unfold getReviews.
  rewrite (bind_normal _ _ _ _ _ Hget).
  erewrite bind_normal.
  2: { cbn [ToBoolean negb Get]. rewrite jsstring_eqb_refl.
       rewrite bind_lift_normal with (a := JNumber (Number_of_Z (Z.of_nat (length elems))))
         by reflexivity.
       cbn [IsStrictlyEqual]. rewrite Hlen. reflexivity. }
  reflexivity.
Qed.

(** What was seeded reads back as it was written. *)
Lemma seed_reads_back :
  JSON_parse (TextDecoder_decode (blob_of (js_of_reviews seed))) = Normal (js_of_reviews seed).
Proof. vm_compute. reflexivity. Qed.

Lemma seed_short_reads_back :
  JSON_parse (TextDecoder_decode (blob_of (js_of_reviews seed_short)))
  = Normal (js_of_reviews seed_short).
Proof. vm_compute. reflexivity. Qed.

Lemma getReviews_twice records env stored :
  JSON_parse (TextDecoder_decode (blob_of (js_of_reviews records))) = Normal (js_of_reviews records) ->
  Number_equal (Number_of_Z (Z.of_nat (length records))) (Number_of_Z 0) = false ->
  healthy env ->
  holds env stored ->
  ToBoolean stored = false \/ stored = JArray [] ->
  let env1 := persist env (js_of_reviews records) in
  getReviews records env = (Normal (seed_response records), env1)
  /\ getReviews records env1 = (Normal (seed_response records), env1).
Proof.
  intros Hback Hlen [Hg Hp] Hget Hempty env1. split.
  - now apply getReviews_seeds with stored.
  - apply getReviews_returns.
    + unfold holds. rewrite (getJsonUtf8_blob env1 (blob_of (js_of_reviews records))).
      * now rewrite Hback.
      * exact Hg.
      * apply persist_blob.
    + now rewrite length_map.
Qed.

(** The same for the handler of [src/handlers/reviewsHandler.ts] and its
    seed. *)
Lemma list_seeds_once_reviewsHandler env stored :
  healthy env -> holds env stored ->
  ToBoolean stored = false \/ stored = JArray [] ->
  let env1 := persist env (js_of_reviews seed_short) in
  getReviews seed_short env = (Normal (seed_response seed_short), env1)
  /\ getReviews seed_short env1 = (Normal (seed_response seed_short), env1).
Proof. intros. now apply getReviews_twice with stored; [apply seed_short_reads_back | ..]. Qed.

(** A blob that does not decode makes [getReviews] throw before it
    writes. *)
Lemma getReviews_undecodable records env b t :
  kv_get_fault (REVIEWS_DB env) = None ->
  stored_blob env = Some b ->
  JSON_parse (TextDecoder_decode b) = Throw t ->
  getReviews records env = (Throw t, env).
Proof.
  intros Hg Hb Hparse. unfold getReviews.
  apply bind_throw. rewrite (getJsonUtf8_blob env b Hg Hb). now rewrite Hparse.
Qed.

(** C1, as the specification words it, fails: a stored blob that is not
    JSON, here the single byte of an opening brace, is not reseeded. *)
Lemma undecodable_blob_is_not_reseeded :
  ~ (forall env b,
        healthy env -> stored_blob env = Some b ->
        (exists t, JSON_parse (TextDecoder_decode b) = Throw t) ->
        exists env', handleGetReviews env = (Normal (seed_response seed), env')).
Proof.
  intros claim.
  destruct (claim (env_with (json_bytes "{")) (json_bytes "{")) as [env' E].
  - split; reflexivity.
  - reflexivity.
  - eexists. vm_compute. reflexivity.
  - unfold handleGetReviews in E.
    rewrite getReviews_undecodable
      with (b := json_bytes "{")
           (t := ErrorObject SyntaxError (lit "Unexpected token in JSON")) in E;
      [discriminate | reflexivity | reflexivity | vm_compute; reflexivity].
Qed.

(** C1, amended. A stored blob that decodes to [null], to another falsy
    value or to the empty array is treated as an absent collection:
    [handleGetReviews] writes the three seed records and returns them. A
    blob that does not decode is not treated so: nothing is written and the
    seed is not returned. *)
Theorem list_reseeds_when_empty env b :
  healthy env ->
  stored_blob env = Some b ->
  (forall v, JSON_parse (TextDecoder_decode b) = Normal v ->
             ToBoolean v = false \/ v = JArray [] ->
             handleGetReviews env
             = (Normal (seed_response seed), persist env (js_of_reviews seed)))
  /\ (forall t, JSON_parse (TextDecoder_decode b) = Throw t ->
                snd (handleGetReviews env) = env
                /\ fst (handleGetReviews env) <> Normal (seed_response seed)).
Proof.
  intros [Hg Hp] Hb. split.
  - intros v Hparse Hempty. apply getReviews_seeds with v; [|assumption..].
    unfold holds. rewrite (getJsonUtf8_blob env b Hg Hb). now rewrite Hparse.
  - intros t Hparse. unfold handleGetReviews.
    rewrite (getReviews_undecodable seed env b t Hg Hb Hparse). now split.
Qed.

Lemma list_reseeds_when_empty_witness :
  handleGetReviews (env_with (json_bytes " [ ] "))
  = (Normal (seed_response seed), persist (env_with (json_bytes " [ ] ")) (js_of_reviews seed)).
Proof.
  destruct (list_reseeds_when_empty (env_with (json_bytes " [ ] ")) (json_bytes " [ ] "))
    as [H _].
  - split; reflexivity.
  - reflexivity.
  - apply (H (JArray [])).
    + vm_compute. reflexivity.
    + right. reflexivity.
Defined.

(** ** The entry point *)

Lemma fetch_GET_reviews host env : fetch host GET_reviews env = handleGetReviews env.
Proof. reflexivity. Qed.

(** C2 fails on the List path. [handleGetReviews] has no [try]: a read the
    namespace rejects leaves [fetch] as the rejection it was, with no
    response. *)
Theorem list_failure_escapes host env t :
  kv_get_fault (REVIEWS_DB env) = Some t ->
  fetch host GET_reviews env = (Throw t, env).
Proof.
  intros H. rewrite fetch_GET_reviews. unfold handleGetReviews, getReviews.
  apply bind_throw. now apply getJsonUtf8_fault.
Qed.

Lemma list_failure_escapes_witness :
  fetch example_host GET_reviews offline_env
  = (Throw (ErrorObject OtherError (lit "KV GET failed")), offline_env).
Proof. apply (list_failure_escapes example_host offline_env). reflexivity. Defined.

(** So does a write the namespace rejects while seeding, and a blob that
    does not decode. *)
Lemma list_write_failure_escapes host env t :
  kv_get_fault (REVIEWS_DB env) = None -> stored_blob env = None ->
  kv_put_fault (REVIEWS_DB env) = Some t ->
  fetch host GET_reviews env = (Throw t, env).
Proof.
  intros Hg Hb Hp. rewrite fetch_GET_reviews. unfold handleGetReviews, getReviews.
  rewrite (bind_normal _ _ _ _ _ (getJsonUtf8_absent env Hg Hb)).
  cbn [ToBoolean negb]. rewrite bind_normal with (a := true) (env' := env) by reflexivity.
  cbv iota. apply bind_throw. now apply putJsonUtf8_fault.
Qed.

Lemma list_decode_failure_escapes host env b t :
  kv_get_fault (REVIEWS_DB env) = None -> stored_blob env = Some b ->
  JSON_parse (TextDecoder_decode b) = Throw t ->
  fetch host GET_reviews env = (Throw t, env).
Proof. intros. rewrite fetch_GET_reviews. now apply getReviews_undecodable with b. Qed.

(** The other two handlers catch what is thrown inside them: they always
    answer, and a failure is answered with status 500 and the envelope. *)
Lemma handlePostReview_answers host req env :
  exists resp env', handlePostReview host req env = (Normal resp, env').
Proof.
  unfold handlePostReview, try_catch.
  match goal with |- context [match ?m env with _ => _ end] => destruct (m env) as [[r | t] env'] end.
  - eauto.
  - unfold ret. eauto.
Qed.

Lemma handleDeleteReview_answers host req env :
  exists resp env', handleDeleteReview host req env = (Normal resp, env').
Proof.
  unfold handleDeleteReview, try_catch.
  match goal with |- context [match ?m env with _ => _ end] => destruct (m env) as [[r | t] env'] end.
  - eauto.
  - unfold ret. eauto.
Qed.

(** ** Append *)

Lemma is_digit_digit_char n : is_digit (digit_char n) = true.
Proof.
  unfold is_digit, digit_char. pose proof (Z.mod_pos_bound n 10 eq_refl).
  apply andb_true_intro. split; apply Z.leb_le; lia.
Qed.

Lemma digit_char_not_sign n :
  (digit_char n =? ch "+") || (digit_char n =? ch "-") = false.
Proof.
  unfold digit_char. pose proof (Z.mod_pos_bound n 10 eq_refl).
  apply orb_false_intro; apply Z.eqb_neq; unfold ch; simpl; lia.
Qed.

(** [toISOString] gives the shape of ISO 8601 at every time value. *)
Lemma Date_toISOString_iso8601 t : is_iso8601 (Date_toISOString t) = true.
Proof.
  unfold Date_toISOString. destruct (civil_from_days (t / msPerDay)) as [[y m] d].
  unfold year_string.
  destruct ((0 <=? y) && (y <=? 9999)).
  - unfold pad4, pad3, pad2. cbv beta iota delta [List.app].
    cbv beta iota delta [is_iso8601].
    rewrite digit_char_not_sign. cbv beta iota delta [forallb iso8601_tail].
    rewrite !is_digit_digit_char. reflexivity.
  - assert (E : forall a b : Z, ((if y <? 0 then a else b) =? b) || ((if y <? 0 then a else b) =? a) = true).
    { intros a b. destruct (y <? 0); rewrite Z.eqb_refl; [apply orb_true_r | reflexivity]. }
    unfold pad6, pad4, pad3, pad2. cbv beta iota delta [List.app].
    cbv beta iota delta [is_iso8601].
    rewrite E. cbv beta iota delta [forallb iso8601_tail].
    rewrite !is_digit_digit_char. reflexivity.
Qed.

(** Validation: a body whose [name] or [text] is falsy is answered 400
    before the namespace is touched. *)
Lemma post_missing host req env body nv :
  body_is req body ->
  Get body k_name = Normal nv ->
  (ToBoolean nv = false
   \/ exists tv, Get body k_text = Normal tv /\ ToBoolean tv = false) ->
  handlePostReview host req env
  = (Normal (json (error_envelope (lit "Missing name or text")) 400), env).
Proof.
  intros Hbody Hn Hmiss. unfold handlePostReview.
  apply try_catch_normal. unfold Request_json.
  rewrite (bind_lift_normal _ _ _ _ Hbody).
  erewrite bind_normal with (a := true) (env' := env); [reflexivity|].
  rewrite (bind_lift_normal _ _ _ _ Hn).
  destruct (ToBoolean nv) eqn:T; [|reflexivity].
  destruct Hmiss as [F | (tv & Ht & F)]; [discriminate|].
  cbn [negb]. rewrite (bind_lift_normal _ _ _ _ Ht). now rewrite F.
Qed.

(** Past validation, the body of [handlePostReview] up to its [catch]. *)
Lemma post_accepted host req env body nv tv rt :
  body_is req body ->
  Get body k_name = Normal nv -> ToBoolean nv = true ->
  Get body k_text = Normal tv -> ToBoolean tv = true ->
  Get body k_rating = Normal rt ->
  handlePostReview host req env
  = try_catch
      (bind (getJsonUtf8 "reviews") (fun stored =>
       bind (lift (Array_unshift (or_else stored (JArray [])) (newReview_of host nv tv rt)))
         (fun stored' =>
       bind (putJsonUtf8 "reviews" stored') (fun _ =>
       ret (json (JObject [(k_ok, JBool true);
                           (k_review, newReview_of host nv tv rt)]) 200)))))
      (fun _ => ret (json (error_envelope (lit "Server error")) 500)) env.
Proof.
  intros Hbody Hn Tn Ht Tt Hr. unfold handlePostReview, try_catch.
  unfold Request_json.
  rewrite (bind_lift_normal _ _ _ _ Hbody).
  erewrite bind_normal with (a := false) (env' := env).
  2: { rewrite (bind_lift_normal _ _ _ _ Hn). rewrite Tn. cbn [negb].
       rewrite (bind_lift_normal _ _ _ _ Ht). now rewrite Tt. }
  cbv iota.
  rewrite (bind_lift_normal _ _ _ _ Hn), (bind_lift_normal _ _ _ _ Ht),
    (bind_lift_normal _ _ _ _ Hr).
  reflexivity.
Qed.

(** With a collection to prepend to and a namespace that takes the write,
    the record is created. *)
Lemma post_creates host req env body nv tv rt stored old :
  body_is req body ->
  Get body k_name = Normal nv -> ToBoolean nv = true ->
  Get body k_text = Normal tv -> ToBoolean tv = true ->
  Get body k_rating = Normal rt ->
  holds env stored -> or_else stored (JArray []) = JArray old ->
  kv_put_fault (REVIEWS_DB env) = None ->
  handlePostReview host req env
  = (Normal (json (JObject [(k_ok, JBool true); (k_review, newReview_of host nv tv rt)]) 200),
     persist env (JArray (newReview_of host nv tv rt :: old))).
Proof.
  intros Hbody Hn Tn Ht Tt Hr Hget Hold Hput.
  rewrite (post_accepted host req env body nv tv rt) by assumption.
  apply try_catch_normal.
  rewrite (bind_normal _ _ _ _ _ Hget). rewrite Hold. cbn [Array_unshift].
  rewrite bind_lift_normal with (a := JArray (newReview_of host nv tv rt :: old)) by reflexivity.
  rewrite (bind_normal _ _ _ _ _ (putJsonUtf8_ok _ _ Hput)). reflexivity.
Qed.

(** Past validation the answer is 200 or 500, never 400. *)
Lemma post_accepted_status host req env body nv tv rt :
  body_is req body ->
  Get body k_name = Normal nv -> ToBoolean nv = true ->
  Get body k_text = Normal tv -> ToBoolean tv = true ->
  Get body k_rating = Normal rt ->
  exists resp env', handlePostReview host req env = (Normal resp, env')
                    /\ (status resp = 200 \/ status resp = 500).
Proof.
  intros Hbody Hn Tn Ht Tt Hr.
  rewrite (post_accepted host req env body nv tv rt) by assumption.
  unfold try_catch, bind.
  destruct (getJsonUtf8 "reviews" env) as [[stored | t] env1]; [|unfold ret; eauto].
  unfold lift. destruct (Array_unshift _ _) as [stored' | t]; [|unfold ret; eauto].
  destruct (putJsonUtf8 "reviews" stored' env1) as [[[] | t] env2]; unfold ret; eauto.
Qed.

Lemma Get_defined body k v k' :
  Get body k = Normal v -> exists v', Get body k' = Normal v'.
Proof.
  destruct body; cbn [Get]; try discriminate; intros _; eauto.
  - destruct (jsstring_eqb k' length_key); [eauto|]. destruct (array_index k'); eauto.
  - destruct (jsstring_eqb k' length_key); [eauto|]. destruct (array_index k'); eauto.
Qed.

Lemma collection_or_else stored old :
  collection_of stored = Some old -> or_else stored (JArray []) = JArray old.
Proof. destruct stored; cbn; intros H; inversion H; reflexivity. Qed.


(** ** DeleteByName *)

(** On a record with a readable name and a query that is a string, the
    test of the filter keeps the record exactly when it does not match. *)
Lemma name_differs_matches host q r :
  well_named r -> name_differs host (JString q) r = Normal (negb (matches host q r)).
Proof.
  unfold well_named, matches, name_of, name_differs.
  destruct (Get r k_name) as [v | t]; [|congruence].
  destruct v; try congruence; intros _; reflexivity.
Qed.

Lemma filter_elems_survivors host q rs :
  Forall well_named rs ->
  filter_elems (name_differs host (JString q)) rs = Normal (survivors host q rs).
Proof.
  induction 1 as [| r rs Hr _ IH]; [reflexivity|].
  cbn [filter_elems]. rewrite (name_differs_matches host q r Hr), IH.
  unfold survivors. cbn [List.filter]. now destruct (matches host q r).
Qed.

Lemma survivors_length host q rs : (length (survivors host q rs) <= length rs)%nat.
Proof. apply List.filter_length_le. Qed.

(** Nothing is filtered out exactly when no record matches. *)
Lemma survivors_all host q rs :
  length (survivors host q rs) = length rs <-> Forall (fun r => matches host q r = false) rs.
Proof.
  unfold survivors. induction rs as [| r rs IH]; cbn [List.filter length].
  - split; [constructor | reflexivity].
  - pose proof (List.filter_length_le (fun r => negb (matches host q r)) rs) as Hle.
    destruct (matches host q r) eqn:M; cbn [negb length].
    + split; [lia | intros H; inversion H; congruence].
    + split.
      * intros H. constructor; [exact M | apply IH; lia].
      * intros H. inversion H; subst. f_equal. now apply IH.
Qed.

Lemma survivors_sublist host q rs : sublist (survivors host q rs) rs.
Proof.
  unfold survivors. induction rs as [| r rs IH]; cbn [List.filter]; [constructor|].
  destruct (negb (matches host q r)); now constructor.
Qed.

Lemma survivors_In host q rs r :
  In r (survivors host q rs) <-> In r rs /\ matches host q r = false.
Proof.
  unfold survivors. rewrite List.filter_In. now rewrite negb_true_iff.
Qed.

(** An empty or missing name is refused before the namespace is read. *)
Lemma delete_missing host req env body nv :
  body_is req body -> Get body k_name = Normal nv -> ToBoolean nv = false ->
  handleDeleteReview host req env
  = (Normal (json (error_envelope (lit "Missing name field")) 400), env).
Proof.
  intros Hbody Hn F. unfold handleDeleteReview. apply try_catch_normal.
  unfold Request_json. rewrite (bind_lift_normal _ _ _ _ Hbody).
  rewrite (bind_lift_normal _ _ _ _ Hn). now rewrite F.
Qed.

(** The two outcomes of a query that is a non-empty string on a collection
    of records with readable names. *)
Lemma delete_outcome host req env body q stored rs :
  body_is req body -> Get body k_name = Normal (JString q) -> q <> [] ->
  holds env stored -> collection_of stored = Some rs -> Forall well_named rs ->
  let kept := survivors host q rs in
  (length kept = length rs ->
   handleDeleteReview host req env = (Normal (not_found_response q), env))
  /\ (length kept <> length rs -> kv_put_fault (REVIEWS_DB env) = None ->
      handleDeleteReview host req env
      = (Normal (deleted_response (length rs - length kept) q), persist env (JArray kept)))
  /\ (forall t, length kept <> length rs -> kv_put_fault (REVIEWS_DB env) = Some t ->
      handleDeleteReview host req env
      = (Normal (json (error_envelope (message_of t)) 500), env)).
Proof.
  intros Hbody Hn Nq Hget Hcoll Hnames kept.
  assert (Tq : ToBoolean (JString q) = true) by (destruct q; [contradiction | reflexivity]).
  assert (Hfilter : Array_filter (or_else stored (JArray [])) (name_differs host (JString q))
                    = Normal (rs, kept)).
  { rewrite (collection_or_else stored rs Hcoll). cbn [Array_filter].
    now rewrite (filter_elems_survivors host q rs Hnames). }
  split; [|split].
  - intros Hlen. unfold handleDeleteReview. apply try_catch_normal.
    unfold Request_json. rewrite (bind_lift_normal _ _ _ _ Hbody).
    rewrite (bind_lift_normal _ _ _ _ Hn). rewrite Tq. cbn [negb].
    rewrite (bind_normal _ _ _ _ _ Hget).
    rewrite (bind_lift_normal _ _ _ _ Hfilter). cbv iota beta.
    fold kept. rewrite Hlen, Nat.eqb_refl. reflexivity.
  - intros Hlen Hput. unfold handleDeleteReview. apply try_catch_normal.
    unfold Request_json. rewrite (bind_lift_normal _ _ _ _ Hbody).
    rewrite (bind_lift_normal _ _ _ _ Hn). rewrite Tq. cbn [negb].
    rewrite (bind_normal _ _ _ _ _ Hget).
    rewrite (bind_lift_normal _ _ _ _ Hfilter). cbv iota beta.
    apply Nat.eqb_neq in Hlen. rewrite Hlen.
    rewrite (bind_normal _ _ _ _ _ (putJsonUtf8_ok _ _ Hput)).
    cbn [template ToString]. rewrite bind_lift_normal with (a := q) by reflexivity.
    unfold deleted_response.
    pose proof (survivors_length host q rs). fold kept in H.
    now rewrite Nat2Z.inj_sub by exact H.
  - intros t Hlen Hput. unfold handleDeleteReview.
    erewrite try_catch_throw; [reflexivity|].
    unfold Request_json. rewrite (bind_lift_normal _ _ _ _ Hbody).
    rewrite (bind_lift_normal _ _ _ _ Hn). rewrite Tq. cbn [negb].
    rewrite (bind_normal _ _ _ _ _ Hget).
    rewrite (bind_lift_normal _ _ _ _ Hfilter). cbv iota beta.
    apply Nat.eqb_neq in Hlen. rewrite Hlen.
    apply bind_throw. now apply putJsonUtf8_fault.
Qed.

Lemma seeded_holds : holds seeded_env (js_of_reviews seed).
Proof.
  unfold holds. rewrite (getJsonUtf8_blob seeded_env (blob_of (js_of_reviews seed))).
  - now rewrite seed_reads_back.
  - reflexivity.
  - apply persist_blob.
Qed.

Lemma seed_well_named : Forall well_named (map js_of_Review seed).
Proof. repeat constructor; discriminate. Qed.


(** A query that is not a string cannot be lowercased: the filter throws at
    the first record, and keeps nothing of an empty collection. *)
Lemma filter_elems_not_a_string host nv rs :
  (forall q, nv <> JString q) -> Forall well_named rs ->
  (rs = [] /\ filter_elems (name_differs host nv) rs = Normal [])
  \/ exists t, filter_elems (name_differs host nv) rs = Throw t.
Proof.
  intros Hnv Hnames. destruct Hnames as [| r rs Hr _]; [left; now split|].
  right. cbn [filter_elems]. unfold name_differs.
  unfold well_named, name_of in Hr.
  destruct (Get r k_name) as [v | t]; [|congruence].
  assert (Hcall : exists t, call_toLowerCase host nv = Throw t).
  { destruct nv; cbn; eauto. now destruct (Hnv s). }
  destruct Hcall as [t Ht].
  destruct v; try congruence; cbn [optional_toLowerCase call_toLowerCase];
    rewrite Ht; eauto.
Qed.

(** Whatever the request, [handleDeleteReview] answers, and it leaves the
    namespace as it was or writes what a non-empty query leaves of the
    collection. *)
Lemma delete_effect host req env stored rs :
  holds env stored -> collection_of stored = Some rs -> Forall well_named rs ->
  exists resp env',
    handleDeleteReview host req env = (Normal resp, env')
    /\ (env' = env
        \/ exists body q,
             body_is req body /\ Get body k_name = Normal (JString q) /\ q <> []
             /\ kv_put_fault (REVIEWS_DB env) = None
             /\ env' = persist env (JArray (survivors host q rs))).
Proof.
  intros Hget Hcoll Hnames.
  destruct (JSON_parse (TextDecoder_decode (req_body req))) as [body | t] eqn:Hbody.
  2: { exists (json (error_envelope (message_of t)) 500), env. split; [|now left].
       unfold handleDeleteReview. erewrite try_catch_throw; [reflexivity|].
       unfold Request_json. now apply bind_lift_throw. }
  destruct (Get body k_name) as [nv | t] eqn:Hn.
  2: { exists (json (error_envelope (message_of t)) 500), env. split; [|now left].
       unfold handleDeleteReview. erewrite try_catch_throw; [reflexivity|].
       unfold Request_json. rewrite (bind_lift_normal _ _ _ _ Hbody).
       now apply bind_lift_throw. }
  destruct (ToBoolean nv) eqn:Tn.
  2: { eexists _, env. split; [|now left]. now apply delete_missing with body nv. }
  assert (Hcases : (exists q, nv = JString q /\ q <> []) \/ (forall q, nv <> JString q)).
  { destruct nv; try (right; discriminate). left. exists s. split; [reflexivity|].
    destruct s; [discriminate | discriminate]. }
  destruct Hcases as [(q & -> & Nq) | Hnv].
  - destruct (delete_outcome host req env body q stored rs) as (Hsame & Hput & Hfault);
      try assumption.
    destruct (Nat.eq_dec (length (survivors host q rs)) (length rs)) as [E | E].
    + eexists _, env. split; [now apply Hsame | now left].
    + destruct (kv_put_fault (REVIEWS_DB env)) as [t |] eqn:Hp.
      * eexists _, env. split; [now apply (Hfault t) | now left].
      * eexists _, _. split; [now apply Hput|]. right. now exists body, q.
  - assert (Hstart : forall k,
               try_catch
                 (bind (Request_json req) (fun body =>
                  bind (lift (Get body k_name)) (fun body_name =>
                  if negb (ToBoolean body_name)
                  then ret (json (error_envelope (lit "Missing name field")) 400)
                  else bind (getJsonUtf8 "reviews") (fun stored =>
                       bind (lift (Array_filter (or_else stored (JArray []))
                                     (name_differs host body_name)))
                         (k body_name)))))
                 (fun err => ret (json (error_envelope (message_of err)) 500)) env
               = try_catch
                   (bind (lift (Array_filter (JArray rs) (name_differs host nv))) (k nv))
                   (fun err => ret (json (error_envelope (message_of err)) 500)) env).
    { intros k. unfold try_catch at 1 2. unfold Request_json.
      rewrite (bind_lift_normal _ _ _ _ Hbody). rewrite (bind_lift_normal _ _ _ _ Hn).
      rewrite Tn. cbn [negb]. rewrite (bind_normal _ _ _ _ _ Hget).
      now rewrite (collection_or_else stored rs Hcoll). }
    unfold handleDeleteReview. rewrite Hstart. clear Hstart.
    cbn [Array_filter].
    destruct (filter_elems_not_a_string host nv rs Hnv Hnames) as [[-> E] | [t E]];
      rewrite E; cbv iota beta.
    + destruct (template nv) as [shown | t] eqn:Ts.
      * eexists _, env. split; [|now left]. apply try_catch_normal.
        rewrite bind_lift_normal with (a := ([], [])) by reflexivity.
        cbv iota beta. cbn [length Nat.eqb].
        now rewrite bind_lift_normal with (a := shown) by reflexivity.
      * eexists _, env. split; [|now left].
        erewrite try_catch_throw; [reflexivity|].
        rewrite bind_lift_normal with (a := ([], [])) by reflexivity.
        cbv iota beta. cbn [length Nat.eqb].
        now apply bind_lift_throw.
    + eexists _, env. split; [|now left].
      erewrite try_catch_throw; [reflexivity|]. now apply bind_lift_throw.
Qed.

(** A record without a name matches no query; one with the empty name
    matches no non-empty query, as lowercasing does not empty a string. *)
Lemma nameless_never_match host q r :
  (forall s, s <> [] -> toLowerCase host s <> toLowerCase host []) ->
  q <> [] -> nameless r -> matches host q r = false.
Proof.
  intros Hlower Nq [H | H]; unfold matches; rewrite H; [reflexivity|].
  unfold jsstring_eqb. apply bool_decide_eq_false. intros E. now apply (Hlower q).
Qed.


Lemma ascii_lower_keeps_nonempty s : s <> [] -> ascii_lower s <> ascii_lower [].
Proof. destruct s; [congruence | discriminate]. Qed.

Lemma removed_count host q rs :
  (length rs - length (survivors host q rs))%nat = length (List.filter (matches host q) rs).
Proof.
  unfold survivors. induction rs as [| r rs IH]; [reflexivity|].
  pose proof (List.filter_length_le (fun r => negb (matches host q r)) rs).
  cbn [List.filter length]. destruct (matches host q r); cbn [negb length]; lia.
Qed.


(* ===================================================================== *)
(** * The codec: what is written reads back *)
(* ===================================================================== *)

(** ** Bits as arithmetic *)

(** From here on [lia] reads a quotient and a remainder through their
    defining equations. *)
Ltac Zify.zify_post_hook ::= Z.div_mod_to_equations.

Lemma shiftr_div (a n : Z) : 0 <= n -> Z.shiftr a n = a / 2 ^ n.
Proof. apply Z.shiftr_div_pow2. Qed.

Lemma land_mod (a n : Z) : 0 <= n -> Z.land a (Z.ones n) = a mod 2 ^ n.
Proof. apply Z.land_ones. Qed.

Lemma lor_shiftl_low (a x n : Z) :
  0 <= n -> 0 <= x < 2 ^ n -> Z.lor (Z.shiftl a n) x = a * 2 ^ n + x.
Proof.
  intros Hn Hx. rewrite Z.shiftl_mul_pow2 by exact Hn. symmetry.
  apply Z.add_nocarry_lor. apply Z.bits_inj'. intros i Hi.
  rewrite Z.land_spec, Z.bits_0.
  destruct (Z.lt_ge_cases i n) as [Hlt | Hge].
  - now rewrite Z.mul_pow2_bits_low.
  - assert (E : Z.testbit x i = false).
    { destruct (Z.eq_dec x 0) as [-> | Hx0]; [apply Z.bits_0|].
      apply Z.bits_above_log2; [lia|].
      apply Z.lt_le_trans with n; [|exact Hge].
      apply Z.log2_lt_pow2; lia. }
    rewrite E. apply andb_false_r.
Qed.

Lemma Z_of_byte_of_Z (z : Z) : 0 <= z < 256 -> Z_of_byte (byte_of_Z z) = z.
Proof.
  intros Hz. unfold Z_of_byte, byte_of_Z.
  destruct (Byte.of_N (Z.to_N z)) as [b |] eqn:E.
  - apply Byte.to_of_N in E. rewrite E. lia.
  - apply Byte.of_N_None_iff in E. lia.
Qed.

Lemma Z_of_byte_range (b : byte) : 0 <= Z_of_byte b < 256.
Proof. unfold Z_of_byte. pose proof (Byte.to_N_bounded b). lia. Qed.

(** A boolean built of comparisons, settled by arithmetic. *)
Ltac bool_lia :=
  repeat first
    [ rewrite andb_true_iff | rewrite andb_false_iff
    | rewrite orb_true_iff | rewrite orb_false_iff
    | rewrite negb_true_iff | rewrite negb_false_iff
    | rewrite Z.leb_le | rewrite Z.leb_gt | rewrite Z.ltb_lt | rewrite Z.ltb_ge
    | rewrite Z.eqb_eq | rewrite Z.eqb_neq ];
  lia.

Ltac decide_if :=
  match goal with
  | |- context [if ?b then _ else _] =>
      first [ replace b with true by (symmetry; bool_lia)
            | replace b with false by (symmetry; bool_lia) ];
      cbv iota
  end.

(** ** UTF-16 *)

Lemma pair_code_point_range hi lo :
  0xD800 <= hi <= 0xDBFF -> 0xDC00 <= lo <= 0xDFFF ->
  0x10000 <= pair_code_point hi lo < 0x110000.
Proof.
  intros Hhi Hlo. unfold pair_code_point. rewrite Z.shiftl_mul_pow2 by lia.
  change (2 ^ 10) with 1024. lia.
Qed.

Lemma utf16_encode_pair hi lo :
  0xD800 <= hi <= 0xDBFF -> 0xDC00 <= lo <= 0xDFFF ->
  utf16_encode (pair_code_point hi lo) = [hi; lo].
Proof.
  intros Hhi Hlo. pose proof (pair_code_point_range hi lo Hhi Hlo) as Hr.
  unfold utf16_encode. replace (pair_code_point hi lo <? 0x10000) with false
    by (symmetry; apply Z.ltb_ge; lia).
  unfold pair_code_point. rewrite Z.shiftl_mul_pow2 by lia.
  rewrite shiftr_div by lia. change 0x3FF with (Z.ones 10). rewrite land_mod by lia.
  change (2 ^ 10) with 1024.
  replace ((hi - 0xD800) * 1024 + (lo - 0xDC00) + 0x10000 - 0x10000)
    with ((lo - 0xDC00) + (hi - 0xD800) * 1024) by lia.
  rewrite Z.div_add by lia. rewrite Z.mod_add by lia.
  rewrite Z.div_small by lia. rewrite Z.mod_small by lia.
  f_equal; [lia | f_equal; lia].
Qed.

(** ** UTF-8 *)

Lemma utf8_run_step st b bs :
  utf8_run st (b :: bs) = fst (utf8_step st b) ++ utf8_run (snd (utf8_step st b)) bs.
Proof. cbn [utf8_run]. now destruct (utf8_step st b). Qed.

Ltac to_arithmetic :=
  rewrite ?shiftr_div by lia;
  change 0x3F with (Z.ones 6); change 0x1F with (Z.ones 5);
  change 0xF with (Z.ones 4); change 0x7 with (Z.ones 3);
  rewrite ?land_mod by lia;
  change 0x80 with (Z.shiftl 1 7);
  change (2 ^ 3) with 8; change (2 ^ 4) with 16; change (2 ^ 5) with 32;
  change (2 ^ 6) with 64; change (2 ^ 7) with 128;
  change (2 ^ 12) with 4096; change (2 ^ 18) with 262144;
  rewrite ?lor_shiftl_low by (change (2 ^ 6) with 64; change (2 ^ 7) with 128; lia);
  change (2 ^ 6) with 64; change (2 ^ 7) with 128;
  change (Z.shiftl 1 7) with 128; change (Z.ones 6) with 63; change (Z.ones 5) with 31;
  change (Z.ones 4) with 15; change (Z.ones 3) with 7.

Ltac utf8_byte :=
  rewrite utf8_run_step; unfold utf8_step;
  rewrite Z_of_byte_of_Z by lia;
  cbn [u8_needed u8_lower u8_upper u8_code_point utf8_initial];
  try unfold utf8_start;
  repeat decide_if; cbn [fst snd List.app].

(** The decoder reads the encoding of a scalar value as that value and is
    ready for the next one. *)
Lemma utf8_run_encoded cp bs :
  is_scalar cp ->
  utf8_run utf8_initial (utf8_encode_code_point cp ++ bs) = cp :: utf8_run utf8_initial bs.
Proof.
  intros [Hr Hs]. unfold utf8_encode_code_point.
  destruct (cp <=? 0x7F) eqn:E1; [|destruct (cp <=? 0x7FF) eqn:E2; [|destruct (cp <=? 0xFFFF) eqn:E3]].
  - apply Z.leb_le in E1. cbn [List.app]. utf8_byte. reflexivity.
  - apply Z.leb_gt in E1. apply Z.leb_le in E2. cbn [List.app].
    to_arithmetic. utf8_byte. utf8_byte. f_equal.
    to_arithmetic. lia.
  - apply Z.leb_gt in E2. apply Z.leb_le in E3. cbn [List.app].
    to_arithmetic.
    destruct (Z.lt_ge_cases cp 0x1000); destruct (Z.lt_ge_cases cp 0xD000);
      destruct (Z.lt_ge_cases cp 0xE000);
      try (exfalso; lia);
      utf8_byte; to_arithmetic; utf8_byte; to_arithmetic; utf8_byte; f_equal;
      to_arithmetic; lia.
  - apply Z.leb_gt in E3. cbn [List.app].
    to_arithmetic.
    destruct (Z.lt_ge_cases cp 0x40000); destruct (Z.lt_ge_cases cp 0x100000);
      try (exfalso; lia);
      utf8_byte; to_arithmetic; utf8_byte; to_arithmetic; utf8_byte; to_arithmetic;
      utf8_byte; f_equal; to_arithmetic; lia.
Qed.

Lemma not_surrogate_tests c :
  ~ (0xD800 <= c <= 0xDFFF) ->
  is_high_surrogate c = false /\ is_low_surrogate c = false /\ is_surrogate c = false.
Proof.
  intros H. unfold is_high_surrogate, is_low_surrogate, is_surrogate.
  repeat split; bool_lia.
Qed.

Lemma StringToCodePoints_unit c s :
  ~ (0xD800 <= c <= 0xDFFF) -> StringToCodePoints (c :: s) = c :: StringToCodePoints s.
Proof.
  intros H. destruct (not_surrogate_tests c H) as (Hh & _). cbn [StringToCodePoints].
  now rewrite Hh.
Qed.

Lemma StringToCodePoints_pair hi lo s :
  0xD800 <= hi <= 0xDBFF -> 0xDC00 <= lo <= 0xDFFF ->
  StringToCodePoints (hi :: lo :: s) = pair_code_point hi lo :: StringToCodePoints s.
Proof.
  intros Hhi Hlo. cbn [StringToCodePoints].
  replace (is_high_surrogate hi) with true by (symmetry; unfold is_high_surrogate; bool_lia).
  replace (is_low_surrogate lo) with true by (symmetry; unfold is_low_surrogate; bool_lia).
  reflexivity.
Qed.

Lemma to_scalar_scalar cp : ~ (0xD800 <= cp <= 0xDFFF) -> to_scalar cp = cp.
Proof.
  intros H. unfold to_scalar. destruct (not_surrogate_tests cp H) as (_ & _ & Hs).
  now rewrite Hs.
Qed.

Lemma TextEncoder_encode_unit c s :
  ~ (0xD800 <= c <= 0xDFFF) ->
  TextEncoder_encode (c :: s) = utf8_encode_code_point c ++ TextEncoder_encode s.
Proof.
  intros H. unfold TextEncoder_encode. rewrite (StringToCodePoints_unit c s H).
  cbn [flat_map]. now rewrite (to_scalar_scalar c H).
Qed.

Lemma TextEncoder_encode_pair hi lo s :
  0xD800 <= hi <= 0xDBFF -> 0xDC00 <= lo <= 0xDFFF ->
  TextEncoder_encode (hi :: lo :: s)
  = utf8_encode_code_point (pair_code_point hi lo) ++ TextEncoder_encode s.
Proof.
  intros Hhi Hlo. unfold TextEncoder_encode. rewrite (StringToCodePoints_pair hi lo s Hhi Hlo).
  cbn [flat_map]. pose proof (pair_code_point_range hi lo Hhi Hlo).
  rewrite to_scalar_scalar by lia. reflexivity.
Qed.

(** Decoding the encoding of a string without lone surrogates gives the
    string back, unit for unit. *)
Lemma utf8_reads_back t :
  well_formed t ->
  CodePointsToString (utf8_run utf8_initial (TextEncoder_encode t)) = t.
Proof.
  induction 1 as [| c s Hc Hs _ IH | hi lo s Hhi Hlo _ IH].
  - reflexivity.
  - rewrite (TextEncoder_encode_unit c s Hs).
    rewrite utf8_run_encoded by (split; lia).
    unfold CodePointsToString in *. cbn [flat_map]. rewrite IH.
    unfold utf16_encode. replace (c <? 0x10000) with true by (symmetry; bool_lia).
    reflexivity.
  - rewrite (TextEncoder_encode_pair hi lo s Hhi Hlo).
    pose proof (pair_code_point_range hi lo Hhi Hlo).
    rewrite utf8_run_encoded by (split; lia).
    unfold CodePointsToString in *. cbn [flat_map]. rewrite IH.
    now rewrite (utf16_encode_pair hi lo Hhi Hlo).
Qed.

Lemma strip_bom_other b bs : b <> xef -> strip_bom (b :: bs) = b :: bs.
Proof. intros H. destruct b; try reflexivity. congruence. Qed.

(** A text that begins with an ASCII character has no byte order mark to
    lose. *)
Theorem TextDecoder_TextEncoder c t :
  0 <= c < 128 -> well_formed (c :: t) ->
  TextDecoder_decode (TextEncoder_encode (c :: t)) = c :: t.
Proof.
  intros Hc Hwf. unfold TextDecoder_decode.
  rewrite <- (utf8_reads_back (c :: t) Hwf) at 2. f_equal. f_equal.
  rewrite TextEncoder_encode_unit by lia.
  unfold utf8_encode_code_point. replace (c <=? 0x7F) with true by (symmetry; bool_lia).
  cbn [List.app]. apply strip_bom_other.
  intros E. apply (f_equal Z_of_byte) in E. rewrite Z_of_byte_of_Z in E by lia.
  cbv in E. lia.
Qed.

(** ** Well-formed strings *)

Lemma well_formed_app s t : well_formed s -> well_formed t -> well_formed (s ++ t).
Proof.
  induction 1 as [| c s Hc Hs Hwf IH | hi lo s Hhi Hlo Hwf IH]; intros Ht.
  - exact Ht.
  - rewrite <- app_comm_cons. apply wf_unit; auto.
  - rewrite <- !app_comm_cons. apply wf_pair; auto.
Qed.

Lemma well_formed_ascii s : Forall (fun c => 0 <= c < 128) s -> well_formed s.
Proof. induction 1; constructor; auto; lia. Qed.

Lemma well_formed_concat parts : Forall well_formed parts -> well_formed (concat parts).
Proof. induction 1; cbn [concat]; [constructor | now apply well_formed_app]. Qed.

(** ** Strings of JSON *)

Lemma hex_value_hex_digit n : 0 <= n < 16 -> hex_value (hex_digit n) = Some n.
Proof.
  intros Hn. unfold hex_digit, hex_value.
  destruct (n <? 10) eqn:E.
  - apply Z.ltb_lt in E. replace ((48 <=? 48 + n) && (48 + n <=? 57)) with true
      by (symmetry; bool_lia). f_equal. lia.
  - apply Z.ltb_ge in E. replace ((48 <=? 87 + n) && (87 + n <=? 57)) with false
      by (symmetry; bool_lia).
    replace ((97 <=? 87 + n) && (87 + n <=? 102)) with true by (symmetry; bool_lia).
    f_equal. lia.
Qed.

Lemma hex_digit_ascii n : 0 <= n < 16 -> 0 <= hex_digit n < 128.
Proof. intros Hn. unfold hex_digit. destruct (n <? 10); lia. Qed.

Lemma nibble_range c k : 0 <= Z.land (Z.shiftr c k) 0xF < 16.
Proof. change 0xF with (Z.ones 4). rewrite land_mod by lia. change (2 ^ 4) with 16. lia. Qed.

Lemma nibble_range0 c : 0 <= Z.land c 0xF < 16.
Proof. change 0xF with (Z.ones 4). rewrite land_mod by lia. change (2 ^ 4) with 16. lia. Qed.

Lemma hex4_nibbles c :
  0 <= c < 65536 ->
  hex4 (hex_digit (Z.land (Z.shiftr c 12) 0xF)) (hex_digit (Z.land (Z.shiftr c 8) 0xF))
       (hex_digit (Z.land (Z.shiftr c 4) 0xF)) (hex_digit (Z.land c 0xF)) = Some c.
Proof.
  intros Hc. unfold hex4.
  rewrite !hex_value_hex_digit by (apply nibble_range || apply nibble_range0).
  f_equal. change 0xF with (Z.ones 4). rewrite !land_mod, !shiftr_div by lia.
  change (2 ^ 4) with 16. change (2 ^ 8) with 256. change (2 ^ 12) with 4096. lia.
Qed.

Lemma UnicodeEscape_ascii c : Forall (fun x => 0 <= x < 128) (UnicodeEscape c).
Proof.
  unfold UnicodeEscape.
  repeat constructor;
    try (apply hex_digit_ascii; apply nibble_range || apply nibble_range0);
    cbv; congruence.
Qed.

Lemma parse_escaped_unit c more :
  0 <= c < 65536 ->
  (c <? 0x20) || is_surrogate c = true ->
  parse_string_chars (UnicodeEscape c ++ more) = after [c] (parse_string_chars more).
Proof.
  intros Hc _. unfold UnicodeEscape. cbn [List.app parse_string_chars].
  change (ch "\" =? 0x22) with false. change (ch "\" =? 0x5C) with true.
  change (ch "u" =? ch "u") with true. cbv iota.
  rewrite (hex4_nibbles c Hc). unfold after.
  destruct (parse_string_chars more) as [[t r] |]; reflexivity.
Qed.

Lemma parse_raw_unit c more :
  c <> 0x22 -> c <> 0x5C -> 0x20 <= c ->
  parse_string_chars (c :: more) = after [c] (parse_string_chars more).
Proof.
  intros H1 H2 H3. cbn [parse_string_chars].
  replace (c =? 0x22) with false by (symmetry; bool_lia).
  replace (c =? 0x5C) with false by (symmetry; bool_lia).
  replace (c <? 0x20) with false by (symmetry; bool_lia).
  unfold after. destruct (parse_string_chars more) as [[t r] |]; reflexivity.
Qed.

(** A unit that is a code point of its own is read back from what
    [QuoteJSONString] writes for it. *)
Lemma parse_quoted_unit c more :
  0 <= c < 65536 ->
  parse_string_chars (quote_code_point c ++ more) = after [c] (parse_string_chars more).
Proof.
  intros Hc. unfold quote_code_point.
  destruct (c =? 0x08) eqn:E1; [apply Z.eqb_eq in E1; subst c;
    cbn; unfold after; destruct (parse_string_chars more) as [[t r] |]; reflexivity|].
  destruct (c =? 0x09) eqn:E2; [apply Z.eqb_eq in E2; subst c;
    cbn; unfold after; destruct (parse_string_chars more) as [[t r] |]; reflexivity|].
  destruct (c =? 0x0A) eqn:E3; [apply Z.eqb_eq in E3; subst c;
    cbn; unfold after; destruct (parse_string_chars more) as [[t r] |]; reflexivity|].
  destruct (c =? 0x0C) eqn:E4; [apply Z.eqb_eq in E4; subst c;
    cbn; unfold after; destruct (parse_string_chars more) as [[t r] |]; reflexivity|].
  destruct (c =? 0x0D) eqn:E5; [apply Z.eqb_eq in E5; subst c;
    cbn; unfold after; destruct (parse_string_chars more) as [[t r] |]; reflexivity|].
  destruct (c =? 0x22) eqn:E6; [apply Z.eqb_eq in E6; subst c;
    cbn; unfold after; destruct (parse_string_chars more) as [[t r] |]; reflexivity|].
  destruct (c =? 0x5C) eqn:E7; [apply Z.eqb_eq in E7; subst c;
    cbn; unfold after; destruct (parse_string_chars more) as [[t r] |]; reflexivity|].
  destruct ((c <? 0x20) || is_surrogate c) eqn:E8.
  - now apply parse_escaped_unit.
  - apply orb_false_elim in E8. destruct E8 as [E8 E9].
    apply Z.ltb_ge in E8. apply Z.eqb_neq in E6, E7.
    unfold utf16_encode. replace (c <? 0x10000) with true by (symmetry; bool_lia).
    cbn [List.app]. now apply parse_raw_unit.
Qed.

Lemma quote_code_point_pair hi lo :
  0xD800 <= hi <= 0xDBFF -> 0xDC00 <= lo <= 0xDFFF ->
  quote_code_point (pair_code_point hi lo) = [hi; lo].
Proof.
  intros Hhi Hlo. pose proof (pair_code_point_range hi lo Hhi Hlo) as Hr.
  unfold quote_code_point, is_surrogate.
  repeat decide_if. now apply utf16_encode_pair.
Qed.

Lemma parse_quoted_pair hi lo more :
  0xD800 <= hi <= 0xDBFF -> 0xDC00 <= lo <= 0xDFFF ->
  parse_string_chars (quote_code_point (pair_code_point hi lo) ++ more)
  = after [hi; lo] (parse_string_chars more).
Proof.
  intros Hhi Hlo. rewrite (quote_code_point_pair hi lo Hhi Hlo). cbn [List.app].
  rewrite (parse_raw_unit hi) by lia. rewrite (parse_raw_unit lo) by lia.
  unfold after. destruct (parse_string_chars more) as [[t r] |]; reflexivity.
Qed.

(** The code points of a string: its first unit alone, or its first two
    units as a pair. *)
Lemma StringToCodePoints_cons c s :
  StringToCodePoints (c :: s) = c :: StringToCodePoints s
  \/ exists lo s', s = lo :: s' /\ 0xD800 <= c <= 0xDBFF /\ 0xDC00 <= lo <= 0xDFFF
                   /\ StringToCodePoints (c :: s)
                      = pair_code_point c lo :: StringToCodePoints s'.
Proof.
  cbn [StringToCodePoints]. destruct (is_high_surrogate c) eqn:Eh; [|now left].
  destruct s as [| lo s']; [now left|].
  destruct (is_low_surrogate lo) eqn:El; [|now left].
  right. exists lo, s'. unfold is_high_surrogate in Eh. unfold is_low_surrogate in El.
  apply andb_true_iff in Eh, El. rewrite !Z.leb_le in Eh, El. repeat split; tauto || lia.
Qed.

(** The characters [QuoteJSONString] writes for a string, closed by the
    quote, are read back as the string. *)
Lemma parse_string_chars_quoted s rest :
  is_jsstring s ->
  parse_string_chars (flat_map quote_code_point (StringToCodePoints s) ++ 0x22 :: rest)
  = Some (s, rest).
Proof.
  remember (length s) as n eqn:Hn. revert s Hn.
  induction n as [n IH] using lt_wf_ind. intros s Hn Hs.
  destruct s as [| c s]; [reflexivity|].
  inversion Hs as [| c' s' Hc Hs']; subst c' s'. unfold is_code_unit in Hc.
  destruct (StringToCodePoints_cons c s) as [E | (lo & s' & -> & Hhi & Hlo & E)]; rewrite E.
  - cbn [flat_map]. rewrite <- app_assoc. rewrite (parse_quoted_unit c _ Hc).
    rewrite (IH (length s)) by (subst n; cbn [length]; lia || auto). reflexivity.
  - inversion Hs' as [| lo' s'' Hlo' Hs'']; subst lo' s''.
    cbn [flat_map]. rewrite <- app_assoc. rewrite (parse_quoted_pair c lo _ Hhi Hlo).
    rewrite (IH (length s')) by (subst n; cbn [length]; lia || auto). reflexivity.
Qed.

Lemma quote_code_point_unit_well_formed c :
  0 <= c < 65536 -> well_formed (quote_code_point c).
Proof.
  intros Hc. unfold quote_code_point.
  repeat match goal with
         | |- well_formed (if ?b then _ else _) => destruct b eqn:?
         end;
    try (apply well_formed_ascii; repeat constructor; cbv; congruence).
  - apply well_formed_ascii, UnicodeEscape_ascii.
  - match goal with H : _ || _ = false |- _ => apply orb_false_elim in H; destruct H as [_ H] end.
    unfold is_surrogate in *. unfold utf16_encode.
    replace (c <? 0x10000) with true by (symmetry; bool_lia).
    apply wf_unit; [lia | | constructor].
    intros Hsur. match goal with H : _ && _ = false |- _ => revert H end.
    replace ((0xD800 <=? c) && (c <=? 0xDFFF)) with true by (symmetry; bool_lia).
    discriminate.
Qed.

Lemma quoted_well_formed s :
  is_jsstring s -> well_formed (flat_map quote_code_point (StringToCodePoints s)).
Proof.
  remember (length s) as n eqn:Hn. revert s Hn.
  induction n as [n IH] using lt_wf_ind. intros s Hn Hs.
  destruct s as [| c s]; [constructor|].
  inversion Hs as [| c' s' Hc Hs']; subst c' s'. unfold is_code_unit in Hc.
  destruct (StringToCodePoints_cons c s) as [E | (lo & s' & -> & Hhi & Hlo & E)]; rewrite E.
  - cbn [flat_map]. apply well_formed_app; [now apply quote_code_point_unit_well_formed|].
    apply (IH (length s)); subst n; cbn [length]; lia || auto.
  - inversion Hs' as [| lo' s'' Hlo' Hs'']; subst lo' s''.
    cbn [flat_map]. rewrite (quote_code_point_pair c lo Hhi Hlo).
    apply (wf_pair c lo _ Hhi Hlo).
    apply (IH (length s')); subst n; cbn [length]; lia || auto.
Qed.

Lemma QuoteJSONString_well_formed s : is_jsstring s -> well_formed (QuoteJSONString s).
Proof.
  intros Hs. unfold QuoteJSONString.
  apply well_formed_app; [apply well_formed_ascii; repeat constructor; lia|].
  apply well_formed_app; [now apply quoted_well_formed|].
  apply well_formed_ascii; repeat constructor; lia.
Qed.

(** ** Numbers of JSON *)

Lemma uint_chars_digits u : all_digits (uint_chars u).
Proof. induction u; cbn [uint_chars]; constructor; auto. Qed.

Lemma to_uint_normal p : Pos.to_uint p = nzhead (Pos.to_uint p).
Proof.
  pose proof (DecimalPos.Unsigned.to_of (Pos.to_uint p)) as H.
  rewrite DecimalPos.Unsigned.of_to in H. cbn [N.to_uint] in H.
  unfold unorm in H. destruct (nzhead (Pos.to_uint p)) eqn:E; try exact H.
  exfalso. now apply (DecimalPos.Unsigned.to_uint_nonzero p).
Qed.

(** The digits of a positive number: at least one, the first not a zero. *)
Lemma digits_of_pos_shape p :
  exists d ds, digits_of_pos p = d :: ds /\ is_digit d = true /\ d <> 48 /\ all_digits ds.
Proof.
  unfold digits_of_pos. pose proof (uint_chars_digits (Pos.to_uint p)) as Hall.
  pose proof (to_uint_normal p) as Hn.
  pose proof (DecimalPos.Unsigned.to_uint_nonnil p) as Hnil.
  destruct (Pos.to_uint p) as [| u | u | u | u | u | u | u | u | u | u] eqn:E;
    try congruence.
  1: { exfalso. symmetry in Hn. now apply DecimalFacts.nzhead_nonzero in Hn. }
  all: cbn [uint_chars] in *; inversion Hall as [| ? ? Hd Hds]; subst;
    eexists _, _; (split; [reflexivity | split; [exact Hd | split; [lia | exact Hds]]]).
Qed.

Lemma digits_of_pos_digits p : all_digits (digits_of_pos p).
Proof. apply uint_chars_digits. Qed.

Lemma digits_of_pos_nonempty p : digits_of_pos p <> [].
Proof. destruct (digits_of_pos_shape p) as (d & ds & -> & _). discriminate. Qed.

Lemma zeros_digits n : all_digits (zeros n).
Proof. unfold zeros. apply Forall_forall. intros c Hc. apply repeat_spec in Hc. now subst. Qed.

Lemma delimited_no_digit rest :
  delimited rest -> match rest with [] => True | c :: _ => is_digit c = false end.
Proof. destruct rest; [auto | now intros []]. Qed.

Lemma span_digits_app ds rest :
  all_digits ds -> match rest with [] => True | c :: _ => is_digit c = false end ->
  span_digits (ds ++ rest) = (ds, rest).
Proof.
  intros Hds Hrest. induction Hds as [| d ds Hd _ IH].
  - destruct rest as [| c rest]; [reflexivity|]. cbn [List.app span_digits]. now rewrite Hrest.
  - rewrite <- app_comm_cons. cbn [span_digits]. now rewrite Hd, IH.
Qed.

Lemma parse_int_part_app i rest :
  integer_part i -> match rest with [] => True | c :: _ => is_digit c = false end ->
  parse_int_part (i ++ rest) = Some (i, rest).
Proof.
  intros [-> | (d & i' & -> & Hd & Hd0 & Hi')] Hrest.
  - reflexivity.
  - rewrite <- app_comm_cons. unfold parse_int_part.
    replace (d =? 48) with false by (symmetry; bool_lia). rewrite Hd.
    rewrite app_comm_cons. rewrite span_digits_app; [reflexivity | now constructor | exact Hrest].
Qed.

Lemma parse_frac_part_app f rest :
  all_digits f ->
  match rest with [] => True | c :: _ => is_digit c = false /\ c <> ch "." end ->
  parse_frac_part (frac_text f ++ rest) = Some (f, rest).
Proof.
  intros Hf Hrest. destruct f as [| d f].
  - cbn [frac_text List.app]. destruct rest as [| c rest]; [reflexivity|].
    destruct Hrest as (_ & Hdot). unfold parse_frac_part.
    now replace (c =? ch ".") with false by (symmetry; bool_lia).
  - cbn [frac_text]. rewrite <- app_comm_cons. unfold parse_frac_part.
    change (ch "." =? ch ".") with true. cbv iota.
    rewrite span_digits_app; [reflexivity | exact Hf |].
    destruct rest; [exact I | tauto].
Qed.

Lemma parse_exp_part_app e rest :
  exponent_part e -> delimited rest ->
  parse_exp_part (exp_text e ++ rest) = Some (exp_value e, rest).
Proof.
  intros He Hrest. destruct e as [[neg x] |].
  - destruct He as [Hx Hdig]. cbn [exp_text exp_value]. rewrite <- !app_comm_cons.
    unfold parse_exp_part. change ((ch "e" =? ch "e") || (ch "e" =? ch "E")) with true.
    cbv iota. unfold parse_exp_digits.
    destruct neg.
    + change (ch "-" =? ch "+") with false. change (ch "-" =? ch "-") with true. cbv iota.
      rewrite span_digits_app; [| exact Hdig | now apply delimited_no_digit].
      destruct x; [congruence | reflexivity].
    + change (ch "+" =? ch "+") with true. cbv iota.
      rewrite span_digits_app; [| exact Hdig | now apply delimited_no_digit].
      destruct x; [congruence | reflexivity].
  - cbn [exp_text exp_value List.app]. destruct rest as [| c rest]; [reflexivity|].
    destruct Hrest as (_ & _ & He1 & He2). unfold parse_exp_part.
    now replace ((c =? ch "e") || (c =? ch "E")) with false by (symmetry; bool_lia).
Qed.

Lemma exp_text_no_dot e rest :
  delimited rest ->
  match exp_text e ++ rest with [] => True | c :: _ => is_digit c = false /\ c <> ch "." end.
Proof.
  intros Hrest. destruct e as [[neg x] |].
  - cbn [exp_text]. rewrite <- !app_comm_cons. split; [reflexivity | cbv; congruence].
  - cbn [exp_text List.app]. destruct rest; [exact I | cbn [delimited] in Hrest; tauto].
Qed.

Lemma frac_text_no_digit f rest :
  match rest with [] => True | c :: _ => is_digit c = false /\ c <> ch "." end ->
  match frac_text f ++ rest with [] => True | c :: _ => is_digit c = false end.
Proof.
  intros Hrest. destruct f; cbn [frac_text List.app]; [|reflexivity].
  destruct rest; [exact I | tauto].
Qed.

(** A token in three parts is read as the number its parts denote, up to
    what delimits it. *)
Lemma parse_unsigned_parts neg i f e rest :
  integer_part i -> all_digits f -> exponent_part e -> delimited rest ->
  parse_unsigned neg (i ++ frac_text f ++ exp_text e ++ rest)
  = Some (of_decimal neg (Z.to_N (digits_value 0 (i ++ f)))
            (exp_value e - Z.of_nat (length f)), rest).
Proof.
  intros Hi Hf He Hrest. unfold parse_unsigned.
  rewrite parse_int_part_app;
    [| exact Hi | apply frac_text_no_digit; now apply exp_text_no_dot].
  rewrite parse_frac_part_app; [| exact Hf | now apply exp_text_no_dot].
  rewrite parse_exp_part_app by assumption. reflexivity.
Qed.

Lemma all_digits_app a b : all_digits a -> all_digits b -> all_digits (a ++ b).
Proof. unfold all_digits. intros. now apply Forall_app. Qed.

Lemma all_digits_firstn n ds : all_digits ds -> all_digits (firstn n ds).
Proof.
  intros H. rewrite <- (firstn_skipn n ds) in H. now apply Forall_app in H.
Qed.

Lemma all_digits_skipn n ds : all_digits ds -> all_digits (skipn n ds).
Proof.
  intros H. rewrite <- (firstn_skipn n ds) in H. now apply Forall_app in H.
Qed.

Lemma frac_text_nonempty f : f <> [] -> frac_text f = ch "." :: f.
Proof. destruct f; [congruence | reflexivity]. Qed.

(** [layout] writes a number of JSON: its parts are an integer part,
    fraction digits and an exponent. *)
Lemma layout_parts_spec d ds n :
  is_digit d = true -> d <> 48 -> all_digits ds ->
  let '(i, f, e) := layout_parts (d :: ds) n in
  layout (d :: ds) n = i ++ frac_text f ++ exp_text e
  /\ integer_part i /\ all_digits f /\ exponent_part e.
Proof.
  intros Hd Hd0 Hds. unfold layout_parts, layout.
  set (k := Z.of_nat (length (d :: ds))).
  assert (Hk : k = Z.of_nat (length ds) + 1) by (unfold k; cbn [length]; lia).
  assert (Hall : all_digits (d :: ds)) by now constructor.
  destruct ((k <=? n) && (n <=? 21)) eqn:EA.
  { split; [now rewrite !app_nil_r|]. split; [|split; [constructor | exact I]].
    right. exists d, (ds ++ zeros (n - k)). split; [reflexivity|].
    split; [exact Hd|]. split; [exact Hd0|]. apply all_digits_app; [exact Hds | apply zeros_digits]. }
  destruct ((0 <? n) && (n <=? 21)) eqn:EB.
  { apply andb_true_iff in EB. destruct EB as [EB1 EB2].
    apply Z.ltb_lt in EB1. apply Z.leb_le in EB2.
    apply andb_false_iff in EA. rewrite Z.leb_gt in EA. rewrite Z.leb_gt in EA.
    assert (Hn : n < k) by lia.
    assert (Hskip : skipn (Z.to_nat n) (d :: ds) <> []).
    { intros E. apply (f_equal (@length Z)) in E. rewrite length_skipn in E.
      cbn [length] in E. lia. }
    split; [|split; [|split; [now apply all_digits_skipn | exact I]]].
    - rewrite (frac_text_nonempty _ Hskip). cbn [exp_text]. now rewrite app_nil_r.
    - right. destruct (Z.to_nat n) as [| n'] eqn:En; [lia|]. cbn [firstn].
      exists d, (firstn n' ds). repeat split; auto. now apply all_digits_firstn. }
  destruct ((-6 <? n) && (n <=? 0)) eqn:EC.
  { split; [|split; [now left | split; [|exact I]]].
    - rewrite frac_text_nonempty by (destruct (zeros (- n)); discriminate).
      cbn [exp_text]. rewrite app_nil_r. reflexivity.
    - apply all_digits_app; [apply zeros_digits | exact Hall]. }
  cbn [firstn skipn]. split; [|split; [|split; [exact Hds|]]].
  - destruct ds as [| d' ds']; [reflexivity|].
    cbn [frac_text exp_text List.app]. reflexivity.
  - right. exists d, []. repeat split; auto. constructor.
  - cbn [exponent_part]. split; [apply digits_of_pos_nonempty | apply digits_of_pos_digits].
Qed.

Lemma integer_part_head i :
  integer_part i -> exists c t, i = c :: t /\ is_digit c = true.
Proof. intros [-> | (d & i' & -> & Hd & _)]; eauto. Qed.

Lemma digit_not_minus c : is_digit c = true -> (c =? ch "-") = false.
Proof.
  unfold is_digit. intros H. apply andb_true_iff in H. rewrite !Z.leb_le in H.
  apply Z.eqb_neq. cbv. lia.
Qed.

(** What [Number::toString] writes for a finite Number is a number of
    JSON: it begins with a digit or the minus sign, and [parse_number]
    reads it whole, to the same Number whatever delimits it. *)
Lemma Number_toString_token x :
  is_finite x = true ->
  exists v c t,
    Number_toString x = c :: t
    /\ (c = ch "-" \/ is_digit c = true)
    /\ forall rest, delimited rest ->
                    parse_number (Number_toString x ++ rest) = Some (v, rest).
Proof.
  destruct x as [s | s | | neg m e]; try discriminate; intros _.
  - eexists _, 48, []. split; [reflexivity|]. split; [now right|].
    intros rest Hrest. cbn [Number_toString].
    change (parse_number ([ch "0"] ++ rest)) with (parse_unsigned false ([48] ++ rest)).
    apply (parse_unsigned_parts false [48] [] None rest); [now left | constructor | exact I | exact Hrest].
  - cbn [Number_toString]. destruct (shortest_digits m e) as [s n].
    destruct (digits_of_pos_shape s) as (d & ds & -> & Hd & Hd0 & Hds).
    pose proof (layout_parts_spec d ds n Hd Hd0 Hds) as Hparts.
    destruct (layout_parts (d :: ds) n) as [[i f] ex].
    destruct Hparts as (-> & Hi & Hf & He).
    destruct (integer_part_head i Hi) as (c & t & -> & Hc).
    destruct neg.
    + eexists _, (ch "-"), _. split; [reflexivity|]. split; [now left|].
      intros rest Hrest. cbn [List.app]. unfold parse_number.
      change (ch "-" =? ch "-") with true. cbv iota.
      rewrite <- !app_assoc. rewrite !app_comm_cons.
      now apply parse_unsigned_parts.
    + eexists _, c, _. split; [reflexivity|]. split; [now right|].
      intros rest Hrest. cbn [List.app]. unfold parse_number.
      rewrite (digit_not_minus c Hc).
      rewrite <- !app_assoc. rewrite !app_comm_cons.
      now apply parse_unsigned_parts.
Qed.

(** Hence what is read from a Number that was written is [reread_number]
    of it. *)
Lemma parse_number_written x rest :
  is_finite x = true -> delimited rest ->
  exists v, reread_number x = JNumber v
            /\ parse_number (Number_toString x ++ rest) = Some (v, rest).
Proof.
  intros Hx Hrest. destruct (Number_toString_token x Hx) as (v & c & t & _ & _ & H).
  exists v. split; [|now apply H].
  unfold reread_number. rewrite Hx.
  specialize (H [] I). rewrite app_nil_r in H. now rewrite H.
Qed.

(** ** The text of a collection *)

Lemma stringify_Review r : SerializeJSONProperty (js_of_Review r) = Some (review_text r).
Proof. unfold js_of_Review, review_text. destruct (date r); reflexivity. Qed.

Lemma stringify_collection rs :
  JSON_stringify (js_of_reviews rs) = Some (collection_text rs).
Proof.
  unfold JSON_stringify, js_of_reviews, collection_text. cbn [SerializeJSONProperty].
  do 2 f_equal. rewrite map_map. f_equal. f_equal. apply map_ext.
  intros r. now rewrite stringify_Review.
Qed.

(** ** Reading values *)

Lemma parse_value_S f s :
  parse_value (S f) s
  = match skip_ws s with
    | [] => SyntaxErr
    | c :: r =>
        if c =? ch "{" then
          match skip_ws r with
          | [] => SyntaxErr
          | c1 :: r1 =>
              if c1 =? ch "}" then Parsed (JObject []) r1
              else match parse_members f (c1 :: r1) with
                   | Parsed ms r2 => Parsed (object_of_members ms) r2
                   | SyntaxErr => SyntaxErr
                   | OutOfFuel => OutOfFuel
                   end
          end
        else if c =? ch "[" then
          match skip_ws r with
          | [] => SyntaxErr
          | c1 :: r1 =>
              if c1 =? ch "]" then Parsed (JArray []) r1
              else match parse_elements f (c1 :: r1) with
                   | Parsed vs r2 => Parsed (JArray vs) r2
                   | SyntaxErr => SyntaxErr
                   | OutOfFuel => OutOfFuel
                   end
          end
        else if c =? 0x22 then
          match parse_string_chars r with
          | Some (t, r1) => Parsed (JString t) r1
          | None => SyntaxErr
          end
        else if c =? ch "t" then parse_literal (lit "true") (JBool true) (c :: r)
        else if c =? ch "f" then parse_literal (lit "false") (JBool false) (c :: r)
        else if c =? ch "n" then parse_literal (lit "null") JNull (c :: r)
        else
          match parse_number (c :: r) with
          | Some (n, r1) => Parsed (JNumber n) r1
          | None => SyntaxErr
          end
    end.
Proof. reflexivity. Qed.

Lemma parse_elements_S f s :
  parse_elements (S f) s
  = match parse_value f s with
    | Parsed v r =>
        match skip_ws r with
        | [] => SyntaxErr
        | c :: r1 =>
            if c =? ch "," then
              match parse_elements f r1 with
              | Parsed vs r2 => Parsed (v :: vs) r2
              | SyntaxErr => SyntaxErr
              | OutOfFuel => OutOfFuel
              end
            else if c =? ch "]" then Parsed [v] r1
            else SyntaxErr
        end
    | SyntaxErr => SyntaxErr
    | OutOfFuel => OutOfFuel
    end.
Proof. reflexivity. Qed.

Lemma parse_members_S f s :
  parse_members (S f) s
  = match skip_ws s with
    | [] => SyntaxErr
    | q :: r =>
        if q =? 0x22 then
          match parse_string_chars r with
          | None => SyntaxErr
          | Some (k, r1) =>
              match skip_ws r1 with
              | [] => SyntaxErr
              | c :: r2 =>
                  if c =? ch ":" then
                    match parse_value f r2 with
                    | Parsed v r3 =>
                        match skip_ws r3 with
                        | [] => SyntaxErr
                        | c' :: r4 =>
                            if c' =? ch "," then
                              match parse_members f r4 with
                              | Parsed ms r5 => Parsed ((k, v) :: ms) r5
                              | SyntaxErr => SyntaxErr
                              | OutOfFuel => OutOfFuel
                              end
                            else if c' =? ch "}" then Parsed [(k, v)] r4
                            else SyntaxErr
                        end
                    | SyntaxErr => SyntaxErr
                    | OutOfFuel => OutOfFuel
                    end
                  else SyntaxErr
              end
          end
        else SyntaxErr
    end.
Proof. reflexivity. Qed.

Lemma skip_ws_other c s : is_ws c = false -> skip_ws (c :: s) = c :: s.
Proof. intros H. cbn [skip_ws]. now rewrite H. Qed.

Lemma parse_value_string f s rest :
  is_jsstring s ->
  parse_value (S f) (QuoteJSONString s ++ rest) = Parsed (JString s) rest.
Proof.
  intros Hs. rewrite parse_value_S. unfold QuoteJSONString.
  rewrite <- !app_assoc. cbn [List.app]. rewrite skip_ws_other by reflexivity.
  change (0x22 =? ch "{") with false. change (0x22 =? ch "[") with false.
  change (0x22 =? 0x22) with true. cbv iota.
  now rewrite parse_string_chars_quoted.
Qed.

Lemma is_digit_tests c :
  c = ch "-" \/ is_digit c = true ->
  is_ws c = false /\ (c =? ch "{") = false /\ (c =? ch "[") = false /\ (c =? 0x22) = false
  /\ (c =? ch "t") = false /\ (c =? ch "f") = false /\ (c =? ch "n") = false.
Proof.
  intros H.
  assert (Hc : 45 <= c <= 57).
  { destruct H as [-> | H]; [cbv; split; discriminate|].
    unfold is_digit in H. apply andb_true_iff in H. rewrite !Z.leb_le in H. lia. }
  unfold is_ws. change (ch "{") with 123. change (ch "[") with 91.
  change (ch "t") with 116. change (ch "f") with 102. change (ch "n") with 110.
  repeat split; bool_lia.
Qed.

Lemma parse_value_number f x rest :
  delimited rest ->
  parse_value (S f) (number_text x ++ rest) = Parsed (reread_number x) rest.
Proof.
  intros Hrest. unfold number_text. destruct (is_finite x) eqn:Hx.
  - destruct (Number_toString_token x Hx) as (v & c & t & E & Hc & Hparse).
    specialize (Hparse rest Hrest).
    assert (Hre : reread_number x = JNumber v).
    { destruct (parse_number_written x rest Hx Hrest) as (v' & Hv & Hp). congruence. }
    rewrite Hre. rewrite parse_value_S. rewrite E in Hparse |- *.
    rewrite <- app_comm_cons in Hparse |- *.
    destruct (is_digit_tests c Hc) as (W & T1 & T2 & T3 & T4 & T5 & T6).
    rewrite (skip_ws_other c _ W). rewrite T1, T2, T3, T4, T5, T6. now rewrite Hparse.
  - unfold reread_number. rewrite Hx. rewrite parse_value_S. reflexivity.
Qed.

Lemma member_text_head k value s :
  member_text k value ++ s
  = 0x22 :: (flat_map quote_code_point (StringToCodePoints k)
             ++ 0x22 :: ch ":" :: value ++ s).
Proof.
  unfold member_text, QuoteJSONString. rewrite <- !app_assoc. reflexivity.
Qed.

(** One member of an object, up to the comma or the brace after it. *)
Lemma parse_members_member f k value v c rest :
  is_jsstring k ->
  parse_value f (value ++ c :: rest) = Parsed v (c :: rest) ->
  is_ws c = false ->
  parse_members (S f) (member_text k value ++ c :: rest)
  = if c =? ch "," then
      match parse_members f rest with
      | Parsed ms r => Parsed ((k, v) :: ms) r
      | SyntaxErr => SyntaxErr
      | OutOfFuel => OutOfFuel
      end
    else if c =? ch "}" then Parsed [(k, v)] rest
    else SyntaxErr.
Proof.
  intros Hk Hv Hc. rewrite parse_members_S, member_text_head.
  rewrite skip_ws_other by reflexivity. change (0x22 =? 0x22) with true. cbv iota.
  rewrite (parse_string_chars_quoted k _ Hk).
  rewrite skip_ws_other by reflexivity. change (ch ":" =? ch ":") with true. cbv iota.
  rewrite Hv. now rewrite (skip_ws_other c rest Hc).
Qed.

Lemma parse_value_object f k value s :
  parse_value (S f) (ch "{" :: member_text k value ++ s)
  = match parse_members f (member_text k value ++ s) with
    | Parsed ms r => Parsed (object_of_members ms) r
    | SyntaxErr => SyntaxErr
    | OutOfFuel => OutOfFuel
    end.
Proof. rewrite parse_value_S, member_text_head. reflexivity. Qed.

Lemma object_of_three a b c :
  object_of_members [(k_name, a); (k_text, b); (k_rating, c)]
  = JObject [(k_name, a); (k_text, b); (k_rating, c)].
Proof. reflexivity. Qed.

Lemma object_of_four a b c d :
  object_of_members [(k_name, a); (k_text, b); (k_rating, c); (k_date, d)]
  = JObject [(k_name, a); (k_text, b); (k_rating, c); (k_date, d)].
Proof. reflexivity. Qed.

Lemma keys_are_strings :
  is_jsstring k_name /\ is_jsstring k_text /\ is_jsstring k_rating /\ is_jsstring k_date.
Proof. repeat split; repeat constructor; cbv; congruence. Qed.

Lemma delimited_comma rest : delimited (ch "," :: rest).
Proof. repeat split; cbv; congruence. Qed.

Lemma delimited_brace rest : delimited (ch "}" :: rest).
Proof. repeat split; cbv; congruence. Qed.

Ltac flatten := repeat (rewrite <- app_assoc || rewrite <- app_comm_cons).

(** A review that was written is read back, up to the Number of its
    rating. *)
Lemma parse_value_review f r rest :
  valid_review r ->
  parse_value (S (S (S (S (S (S f)))))) (review_text r ++ rest) = Parsed (reread r) rest.
Proof.
  intros (Hname & Htext & Hdate).
  destruct keys_are_strings as (Kn & Kt & Kr & Kd).
  unfold review_text, reread. destruct (date r) as [d |].
  - cbn [List.app join]. flatten.
    rewrite parse_value_object.
    rewrite (parse_members_member _ k_name _ (JString (name r)) (ch ","));
      [| exact Kn | now apply parse_value_string | reflexivity].
    change (ch "," =? ch ",") with true. cbv iota.
    rewrite (parse_members_member _ k_text _ (JString (text r)) (ch ","));
      [| exact Kt | now apply parse_value_string | reflexivity].
    change (ch "," =? ch ",") with true. cbv iota.
    rewrite (parse_members_member _ k_rating _ (reread_number (rating r)) (ch ","));
      [| exact Kr | apply parse_value_number, delimited_comma | reflexivity].
    change (ch "," =? ch ",") with true. cbv iota.
    rewrite (parse_members_member _ k_date _ (JString d) (ch "}"));
      [| exact Kd | now apply parse_value_string | reflexivity].
    change (ch "}" =? ch ",") with false. change (ch "}" =? ch "}") with true. cbv iota.
    now rewrite object_of_four.
  - cbn [List.app join]. flatten.
    rewrite parse_value_object.
    rewrite (parse_members_member _ k_name _ (JString (name r)) (ch ","));
      [| exact Kn | now apply parse_value_string | reflexivity].
    change (ch "," =? ch ",") with true. cbv iota.
    rewrite (parse_members_member _ k_text _ (JString (text r)) (ch ","));
      [| exact Kt | now apply parse_value_string | reflexivity].
    change (ch "," =? ch ",") with true. cbv iota.
    rewrite (parse_members_member _ k_rating _ (reread_number (rating r)) (ch "}"));
      [| exact Kr | apply parse_value_number, delimited_brace | reflexivity].
    change (ch "}" =? ch ",") with false. change (ch "}" =? ch "}") with true. cbv iota.
    now rewrite object_of_three.
Qed.

Lemma parse_value_review_fuel F r rest :
  (6 <= F)%nat -> valid_review r ->
  parse_value F (review_text r ++ rest) = Parsed (reread r) rest.
Proof.
  intros HF Hr. replace F with (S (S (S (S (S (S (F - 6))))))) by lia.
  now apply parse_value_review.
Qed.

(** The reviews of a collection, up to the closing bracket. *)
Lemma parse_elements_reviews F rs rest :
  rs <> [] -> Forall valid_review rs -> (length rs + 6 <= F)%nat ->
  parse_elements F (join [ch ","] (map review_text rs) ++ ch "]" :: rest)
  = Parsed (map reread rs) rest.
Proof.
  intros Hne Hvalid. revert F.
  induction Hvalid as [| r rs Hr Hrs IH]; [congruence|]. intros F HF.
  destruct F as [| F]; [cbn [length] in HF; lia|]. cbn [length] in HF.
  rewrite parse_elements_S.
  destruct rs as [| r' rs'].
  - cbn [map join]. rewrite (parse_value_review_fuel F r _) by (lia || exact Hr).
    reflexivity.
  - change (map review_text (r :: r' :: rs'))
      with (review_text r :: map review_text (r' :: rs')).
    change (join [ch ","] (review_text r :: map review_text (r' :: rs')))
      with (review_text r ++ [ch ","] ++ join [ch ","] (map review_text (r' :: rs'))).
    flatten.
    rewrite (parse_value_review_fuel F r _) by (cbn [length] in HF; lia || exact Hr).
    rewrite skip_ws_other by reflexivity. change (ch "," =? ch ",") with true. cbv iota.
    rewrite app_nil_l. rewrite IH by (discriminate || lia). reflexivity.
Qed.

Lemma length_review_text r : (2 <= length (review_text r))%nat.
Proof. unfold review_text. rewrite !length_app. cbn [length]. lia. Qed.

Lemma length_join_reviews rs :
  (2 * length rs <= length (join [ch ","] (map review_text rs)))%nat.
Proof.
  induction rs as [| r rs IH]; [cbn; lia|].
  destruct rs as [| r' rs'].
  - cbn [map join length]. pose proof (length_review_text r). lia.
  - change (join [ch ","] (map review_text (r :: r' :: rs')))
      with (review_text r ++ [ch ","] ++ join [ch ","] (map review_text (r' :: rs'))).
    rewrite !length_app. pose proof (length_review_text r).
    cbn [length] in IH |- *. lia.
Qed.

(** The text of a collection is read back by [JSON.parse]. *)
Lemma JSON_parse_collection rs :
  Forall valid_review rs ->
  JSON_parse (collection_text rs) = Normal (JArray (map reread rs)).
Proof.
  intros Hvalid. unfold JSON_parse, parse_text.
  assert (E : parse_value (parse_fuel (collection_text rs)) (collection_text rs)
              = Parsed (JArray (map reread rs)) []).
  { destruct rs as [| r rs]; [reflexivity|].
    pose proof (length_join_reviews (r :: rs)) as Hlen.
    assert (Hfuel : (length (r :: rs) + 6 <= S (2 * length (collection_text (r :: rs))))%nat).
    { unfold collection_text. rewrite !length_app. cbn [length] in *. lia. }
    clear Hlen.
    unfold parse_fuel. remember (2 * length (collection_text (r :: rs)))%nat as F eqn:HF.
    clear HF.
    assert (Hhead : exists t, join [ch ","] (map review_text (r :: rs)) = ch "{" :: t).
    { destruct rs; eexists; cbn [map join]; unfold review_text at 1; reflexivity. }
    destruct Hhead as [t Ht].
    pose proof (parse_elements_reviews (S F) (r :: rs) []) as Hp.
    unfold collection_text. rewrite parse_value_S.
    rewrite Ht in Hp |- *. cbn [List.app] in Hp |- *.
    rewrite skip_ws_other by reflexivity. change (ch "[" =? ch "{") with false.
    change (ch "[" =? ch "[") with true. cbv iota.
    rewrite skip_ws_other by reflexivity. change (ch "{" =? ch "]") with false. cbv iota.
    rewrite Hp; [reflexivity | discriminate | exact Hvalid | exact Hfuel]. }
  rewrite E. reflexivity.
Qed.

(** ** The text is well formed *)

Lemma all_digits_ascii ds : all_digits ds -> Forall (fun c => 0 <= c < 128) ds.
Proof.
  apply Forall_impl. intros c H. unfold is_digit in H.
  apply andb_true_iff in H. rewrite !Z.leb_le in H. lia.
Qed.

Lemma integer_part_digits i : integer_part i -> all_digits i.
Proof.
  intros [-> | (d & i' & -> & Hd & _ & Hi')]; [repeat constructor | now constructor].
Qed.

Lemma frac_text_ascii f : all_digits f -> Forall (fun c => 0 <= c < 128) (frac_text f).
Proof.
  intros Hf. destruct f; [constructor|]. cbn [frac_text].
  constructor; [cbv; split; congruence | now apply all_digits_ascii].
Qed.

Lemma exp_text_ascii e : exponent_part e -> Forall (fun c => 0 <= c < 128) (exp_text e).
Proof.
  destruct e as [[neg x] |]; [|constructor]. intros [_ Hx]. cbn [exp_text].
  constructor; [cbv; split; congruence|].
  constructor; [destruct neg; cbv; split; congruence | now apply all_digits_ascii].
Qed.

Lemma number_text_ascii x : Forall (fun c => 0 <= c < 128) (number_text x).
Proof.
  unfold number_text. destruct (is_finite x) eqn:Hx.
  2: { repeat constructor; cbv; congruence. }
  destruct x as [s | s | | neg m e]; try discriminate.
  - repeat constructor; cbv; congruence.
  - cbn [Number_toString]. destruct (shortest_digits m e) as [s n].
    destruct (digits_of_pos_shape s) as (d & ds & -> & Hd & Hd0 & Hds).
    pose proof (layout_parts_spec d ds n Hd Hd0 Hds) as Hparts.
    destruct (layout_parts (d :: ds) n) as [[i f] ex].
    destruct Hparts as (-> & Hi & Hf & He).
    apply Forall_app. split; [destruct neg; repeat constructor; cbv; congruence|].
    apply Forall_app. split; [now apply all_digits_ascii, integer_part_digits|].
    apply Forall_app. split; [now apply frac_text_ascii | now apply exp_text_ascii].
Qed.

Lemma member_text_well_formed k value :
  is_jsstring k -> well_formed value -> well_formed (member_text k value).
Proof.
  intros Hk Hv. unfold member_text.
  apply well_formed_app; [now apply QuoteJSONString_well_formed|].
  apply well_formed_app; [apply well_formed_ascii; repeat constructor; cbv; congruence|].
  exact Hv.
Qed.

Lemma join_well_formed sep parts :
  well_formed sep -> Forall well_formed parts -> well_formed (join sep parts).
Proof.
  intros Hsep Hparts. induction Hparts as [| p parts Hp _ IH]; [constructor|].
  destruct parts as [| q parts]; [exact Hp|].
  change (join sep (p :: q :: parts)) with (p ++ sep ++ join sep (q :: parts)).
  apply well_formed_app; [exact Hp|]. now apply well_formed_app.
Qed.

Lemma comma_well_formed : well_formed [ch ","].
Proof. apply well_formed_ascii. repeat constructor; cbv; congruence. Qed.

Lemma review_text_well_formed r : valid_review r -> well_formed (review_text r).
Proof.
  intros (Hname & Htext & Hdate). destruct keys_are_strings as (Kn & Kt & Kr & Kd).
  unfold review_text.
  apply well_formed_app; [apply well_formed_ascii; repeat constructor; cbv; congruence|].
  apply well_formed_app; [|apply well_formed_ascii; repeat constructor; cbv; congruence].
  apply join_well_formed; [apply comma_well_formed|].
  apply Forall_app. split.
  - apply Forall_cons; [|apply Forall_cons; [|apply Forall_cons; [|apply Forall_nil]]];
      apply member_text_well_formed;
      auto using QuoteJSONString_well_formed, well_formed_ascii, number_text_ascii.
  - destruct (date r); [|apply Forall_nil].
    apply Forall_cons; [|apply Forall_nil].
    apply member_text_well_formed; auto using QuoteJSONString_well_formed.
Qed.

Lemma collection_text_well_formed rs :
  Forall valid_review rs -> well_formed (collection_text rs).
Proof.
  intros Hvalid. unfold collection_text.
  apply well_formed_app; [apply well_formed_ascii; repeat constructor; cbv; congruence|].
  apply well_formed_app; [|apply well_formed_ascii; repeat constructor; cbv; congruence].
  apply join_well_formed; [apply comma_well_formed|].
  apply Forall_map. eapply Forall_impl; [|exact Hvalid].
  intros r Hr. now apply review_text_well_formed.
Qed.

(** The bytes written for a collection decode and parse to the collection
    read back. *)
Lemma blob_reads_back rs :
  Forall valid_review rs ->
  JSON_parse (TextDecoder_decode (blob_of (js_of_reviews rs)))
  = Normal (JArray (map reread rs)).
Proof.
  intros Hvalid. unfold blob_of. rewrite stringify_collection.
  cbv [default from_option id].
  pose proof (collection_text_well_formed rs Hvalid) as Hwf.
  pose proof (JSON_parse_collection rs Hvalid) as Hparse.
  change (collection_text rs)
    with (ch "[" :: (join [ch ","] (map review_text rs) ++ [ch "]"])) in *.
  rewrite TextDecoder_TextEncoder; [exact Hparse | cbv; split; congruence | exact Hwf].
Qed.

(** C8. A collection written by [putJsonUtf8] is read by [getJsonUtf8] as
    the same sequence of records with the same strings, code unit for code
    unit, whatever Unicode they hold, lone surrogates included; a rating is
    read as the Number its printed digits denote. *)
Theorem collection_round_trip rs env :
  Forall valid_review rs -> healthy env ->
  exists env',
    putJsonUtf8 "reviews" (js_of_reviews rs) env = (Normal tt, env')
    /\ getJsonUtf8 "reviews" env' = (Normal (JArray (map reread rs)), env')
    /\ Forall2 (fun r v =>
                  Get v k_name = Normal (JString (name r))
                  /\ Get v k_text = Normal (JString (text r))
                  /\ Get v k_date = Normal (match date r with
                                            | Some d => JString d
                                            | None => JUndefined
                                            end))
         rs (map reread rs).
Proof.
  intros Hvalid [Hg Hp]. exists (persist env (js_of_reviews rs)).
  split; [now apply putJsonUtf8_ok|]. split.
  - rewrite (getJsonUtf8_blob _ (blob_of (js_of_reviews rs))).
    + now rewrite (blob_reads_back rs Hvalid).
    + exact Hg.
    + apply persist_blob.
  - clear. induction rs as [| r rs IH]; constructor; [|exact IH].
    unfold reread. destruct (date r); repeat split; reflexivity.
Qed.

Lemma is_jsstringb_spec s : is_jsstringb s = true -> is_jsstring s.
Proof.
  unfold is_jsstringb, is_jsstring. rewrite forallb_forall, Forall_forall.
  intros H c Hc. specialize (H c Hc). apply andb_true_iff in H.
  rewrite Z.leb_le, Z.ltb_lt in H. exact H.
Qed.

Lemma collection_round_trip_witness :
  exists env',
    putJsonUtf8 "reviews" (js_of_reviews (emoji_review :: seed)) empty_env = (Normal tt, env')
    /\ getJsonUtf8 "reviews" env'
       = (Normal (JArray (map reread (emoji_review :: seed))), env').
Proof.
  destruct (collection_round_trip (emoji_review :: seed) empty_env) as (env' & H1 & H2 & _).
  - repeat (apply Forall_cons || apply Forall_nil);
      (split; [|split]); try exact I; apply is_jsstringb_spec; reflexivity.
  - split; reflexivity.
  - exists env'. split; assumption.
Defined.

(** A rating of 5, or 4, is read back as it was. *)
Example reread_five : reread_number five = JNumber five.
Proof. vm_compute. reflexivity. Qed.

Example reread_seed : map reread seed = map js_of_Review seed.
Proof. vm_compute. reflexivity. Qed.

(* ===================================================================== *)
(** * JSON.parse always answers *)
(* ===================================================================== *)

(** The fuel [parse_fuel] gives is never used up: [JSON_parse] returns a
    value or throws a [SyntaxError]. *)

Lemma skip_ws_length s : (length (skip_ws s) <= length s)%nat.
Proof.
  induction s as [| c s IH]; [reflexivity|]. cbn [skip_ws].
  destruct (is_ws c); cbn [length]; lia.
Qed.

Lemma parse_string_chars_length s t r :
  parse_string_chars s = Some (t, r) -> (length r < length s)%nat.
Proof.
  remember (length s) as n eqn:Hn. revert s t r Hn.
  induction n as [n IH] using lt_wf_ind. intros s t r Hn H.
  destruct s as [| c s]; [discriminate|]. cbn [parse_string_chars] in H.
  cbn [length] in Hn.
  destruct (c =? 0x22); [inversion H; subst; cbn [length]; lia|].
  destruct (c =? 0x5C).
  - destruct s as [| e s1]; [discriminate|].
    destruct (e =? ch "u").
    + destruct s1 as [| a [| b [| c' [| d s2]]]]; try discriminate.
      destruct (hex4 a b c' d); [|discriminate].
      destruct (parse_string_chars s2) as [[t' r'] |] eqn:E; [|discriminate].
      inversion H; subst. apply (IH (length s2)) in E; cbn [length] in *; lia.
    + destruct (simple_escape e); [|discriminate].
      destruct (parse_string_chars s1) as [[t' r'] |] eqn:E; [|discriminate].
      inversion H; subst. apply (IH (length s1)) in E; cbn [length] in *; lia.
  - destruct (c <? 0x20); [discriminate|].
    destruct (parse_string_chars s) as [[t' r'] |] eqn:E; [|discriminate].
    inversion H; subst. apply (IH (length s)) in E; cbn [length] in *; lia.
Qed.

Lemma span_digits_length s ds r :
  span_digits s = (ds, r) -> (length r <= length s)%nat.
Proof.
  revert ds r. induction s as [| c s IH]; intros ds r H; cbn [span_digits] in H.
  - inversion H. reflexivity.
  - destruct (is_digit c).
    + destruct (span_digits s) as [ds' r'] eqn:E. inversion H; subst.
      specialize (IH ds' r eq_refl). cbn [length]. lia.
    + inversion H; subst. reflexivity.
Qed.

Lemma parse_unsigned_length neg s x r :
  parse_unsigned neg s = Some (x, r) -> (length r < length s)%nat.
Proof.
  unfold parse_unsigned. intros H.
  destruct (parse_int_part s) as [[i r1] |] eqn:E1; [|discriminate].
  destruct (parse_frac_part r1) as [[f r2] |] eqn:E2; [|discriminate].
  destruct (parse_exp_part r2) as [[e r3] |] eqn:E3; [|discriminate].
  inversion H; subst. clear H.
  assert (H1 : (length r1 < length s)%nat).
  { unfold parse_int_part in E1. destruct s as [| c s]; [discriminate|].
    destruct (c =? 48); [inversion E1; subst; cbn [length]; lia|].
    destruct (is_digit c) eqn:D; [|discriminate].
    inversion E1 as [E]. cbn [span_digits] in E. rewrite D in E.
    destruct (span_digits s) as [ds r'] eqn:Es. inversion E; subst.
    apply span_digits_length in Es. cbn [length]. lia. }
  assert (H2 : (length r2 <= length r1)%nat).
  { unfold parse_frac_part in E2. destruct r1 as [| c r1]; [inversion E2; reflexivity|].
    destruct (c =? ch ".").
    - destruct (span_digits r1) as [ds r'] eqn:Es. destruct ds; [discriminate|].
      inversion E2; subst. apply span_digits_length in Es. cbn [length]. lia.
    - inversion E2; subst. reflexivity. }
  assert (H3 : (length r <= length r2)%nat).
  { unfold parse_exp_part, parse_exp_digits in E3.
    destruct r2 as [| c r2]; [inversion E3; reflexivity|].
    destruct ((c =? ch "e") || (c =? ch "E")); [|inversion E3; subst; reflexivity].
    destruct r2 as [| sg r2]; [discriminate|].
    destruct (sg =? ch "+"); [|destruct (sg =? ch "-")].
    - destruct (span_digits r2) as [ds r'] eqn:Es. destruct ds; [discriminate|].
      inversion E3; subst. apply span_digits_length in Es. cbn [length]. lia.
    - destruct (span_digits r2) as [ds r'] eqn:Es. destruct ds; [discriminate|].
      inversion E3; subst. apply span_digits_length in Es. cbn [length]. lia.
    - destruct (span_digits (sg :: r2)) as [ds r'] eqn:Es. destruct ds; [discriminate|].
      inversion E3; subst. apply span_digits_length in Es. cbn [length] in *. lia. }
  lia.
Qed.

Lemma parse_number_length s x r :
  parse_number s = Some (x, r) -> (length r < length s)%nat.
Proof.
  unfold parse_number. destruct s as [| c s]; [discriminate|].
  destruct (c =? ch "-"); intros H; apply parse_unsigned_length in H; cbn [length] in *; lia.
Qed.

Lemma match_prefix_length p s r :
  match_prefix p s = Some r -> length s = (length p + length r)%nat.
Proof.
  revert s. induction p as [| a p IH]; intros s H; cbn [match_prefix] in H.
  - inversion H. reflexivity.
  - destruct s as [| b s]; [discriminate|]. destruct (a =? b); [|discriminate].
    apply IH in H. cbn [length]. lia.
Qed.

Lemma parse_literal_length word v s v' r :
  word <> [] -> parse_literal word v s = Parsed v' r -> (length r < length s)%nat.
Proof.
  intros Hw. unfold parse_literal.
  destruct (match_prefix word s) as [r' |] eqn:E; [|discriminate].
  intros H. inversion H; subst. apply match_prefix_length in E.
  destruct word; [congruence|]. cbn [length] in E. lia.
Qed.

(** A value, the elements of an array and the members of an object each
    take at least one character. *)
Lemma parse_consumes f :
  (forall s v r, parse_value f s = Parsed v r -> (length r < length s)%nat)
  /\ (forall s vs r, parse_elements f s = Parsed vs r -> (length r < length s)%nat)
  /\ (forall s ms r, parse_members f s = Parsed ms r -> (length r < length s)%nat).
Proof.
  induction f as [| f (IHv & IHe & IHm)]; [repeat split; intros; discriminate|].
  repeat split; intros s x r H.
  - rewrite parse_value_S in H. pose proof (skip_ws_length s) as Hs.
    destruct (skip_ws s) as [| c r0]; [discriminate|]. cbn [length] in Hs.
    destruct (c =? ch "{").
    { pose proof (skip_ws_length r0) as Hr0.
      destruct (skip_ws r0) as [| c1 r1]; [discriminate|]. cbn [length] in Hr0.
      destruct (c1 =? ch "}"); [inversion H; subst; lia|].
      destruct (parse_members f (c1 :: r1)) as [ms r2 | |] eqn:Em; try discriminate.
      inversion H; subst. apply IHm in Em. cbn [length] in Em. lia. }
    destruct (c =? ch "[").
    { pose proof (skip_ws_length r0) as Hr0.
      destruct (skip_ws r0) as [| c1 r1]; [discriminate|]. cbn [length] in Hr0.
      destruct (c1 =? ch "]"); [inversion H; subst; lia|].
      destruct (parse_elements f (c1 :: r1)) as [vs r2 | |] eqn:Ee; try discriminate.
      inversion H; subst. apply IHe in Ee. cbn [length] in Ee. lia. }
    destruct (c =? 0x22).
    { destruct (parse_string_chars r0) as [[t r1] |] eqn:Ec; [|discriminate].
      inversion H; subst. apply parse_string_chars_length in Ec. lia. }
    destruct (c =? ch "t");
      [apply parse_literal_length in H; [cbn [length] in H; lia | discriminate]|].
    destruct (c =? ch "f");
      [apply parse_literal_length in H; [cbn [length] in H; lia | discriminate]|].
    destruct (c =? ch "n");
      [apply parse_literal_length in H; [cbn [length] in H; lia | discriminate]|].
    destruct (parse_number (c :: r0)) as [[n r1] |] eqn:En; [|discriminate].
    inversion H; subst. apply parse_number_length in En. cbn [length] in En. lia.
  - rewrite parse_elements_S in H.
    destruct (parse_value f s) as [v r0 | |] eqn:Ev; try discriminate.
    apply IHv in Ev. pose proof (skip_ws_length r0) as Hr0.
    destruct (skip_ws r0) as [| c r1]; [discriminate|]. cbn [length] in Hr0.
    destruct (c =? ch ",").
    { destruct (parse_elements f r1) as [vs r2 | |] eqn:Ee; try discriminate.
      inversion H; subst. apply IHe in Ee. lia. }
    destruct (c =? ch "]"); [|discriminate]. inversion H; subst. lia.
  - rewrite parse_members_S in H. pose proof (skip_ws_length s) as Hs.
    destruct (skip_ws s) as [| q r0]; [discriminate|]. cbn [length] in Hs.
    destruct (q =? 0x22); [|discriminate].
    destruct (parse_string_chars r0) as [[k r1] |] eqn:Ek; [|discriminate].
    apply parse_string_chars_length in Ek. pose proof (skip_ws_length r1) as Hr1.
    destruct (skip_ws r1) as [| c r2]; [discriminate|]. cbn [length] in Hr1.
    destruct (c =? ch ":"); [|discriminate].
    destruct (parse_value f r2) as [v r3 | |] eqn:Ev; try discriminate.
    apply IHv in Ev. pose proof (skip_ws_length r3) as Hr3.
    destruct (skip_ws r3) as [| c' r4]; [discriminate|]. cbn [length] in Hr3.
    destruct (c' =? ch ",").
    { destruct (parse_members f r4) as [ms r5 | |] eqn:Em; try discriminate.
      inversion H; subst. apply IHm in Em. lia. }
    destruct (c' =? ch "}"); [|discriminate]. inversion H; subst. lia.
Qed.

(** Fuel in proportion to the length of the text is enough. *)
Lemma parse_fuel_suffices f :
  (forall s, (2 * length s + 1 <= f)%nat -> parse_value f s <> OutOfFuel)
  /\ (forall s, (2 * length s + 2 <= f)%nat -> parse_elements f s <> OutOfFuel)
  /\ (forall s, (2 * length s + 1 <= f)%nat -> parse_members f s <> OutOfFuel).
Proof.
  induction f as [| f (IHv & IHe & IHm)]; [repeat split; intros; lia|].
  destruct (parse_consumes f) as (Cv & Ce & Cm).
  repeat split; intros s Hf.
  - rewrite parse_value_S. pose proof (skip_ws_length s) as Hs.
    destruct (skip_ws s) as [| c r0]; [discriminate|]. cbn [length] in Hs.
    destruct (c =? ch "{").
    { pose proof (skip_ws_length r0) as Hr0.
      destruct (skip_ws r0) as [| c1 r1]; [discriminate|]. cbn [length] in Hr0.
      destruct (c1 =? ch "}"); [discriminate|].
      destruct (parse_members f (c1 :: r1)) as [ms r2 | |] eqn:Em; try discriminate.
      exfalso. apply (IHm (c1 :: r1)); [cbn [length]; lia | exact Em]. }
    destruct (c =? ch "[").
    { pose proof (skip_ws_length r0) as Hr0.
      destruct (skip_ws r0) as [| c1 r1]; [discriminate|]. cbn [length] in Hr0.
      destruct (c1 =? ch "]"); [discriminate|].
      destruct (parse_elements f (c1 :: r1)) as [vs r2 | |] eqn:Ee; try discriminate.
      exfalso. apply (IHe (c1 :: r1)); [cbn [length]; lia | exact Ee]. }
    destruct (c =? 0x22); [destruct (parse_string_chars r0) as [[t r1] |]; discriminate|].
    unfold parse_literal.
    destruct (c =? ch "t"); [destruct (match_prefix _ _); discriminate|].
    destruct (c =? ch "f"); [destruct (match_prefix _ _); discriminate|].
    destruct (c =? ch "n"); [destruct (match_prefix _ _); discriminate|].
    destruct (parse_number (c :: r0)) as [[n r1] |]; discriminate.
  - rewrite parse_elements_S.
    destruct (parse_value f s) as [v r0 | |] eqn:Ev; try discriminate.
    2: { exfalso. apply (IHv s); [lia | exact Ev]. }
    apply Cv in Ev. pose proof (skip_ws_length r0) as Hr0.
    destruct (skip_ws r0) as [| c r1]; [discriminate|]. cbn [length] in Hr0.
    destruct (c =? ch ",").
    { destruct (parse_elements f r1) as [vs r2 | |] eqn:Ee; try discriminate.
      exfalso. apply (IHe r1); [lia | exact Ee]. }
    destruct (c =? ch "]"); discriminate.
  - rewrite parse_members_S. pose proof (skip_ws_length s) as Hs.
    destruct (skip_ws s) as [| q r0]; [discriminate|]. cbn [length] in Hs.
    destruct (q =? 0x22); [|discriminate].
    destruct (parse_string_chars r0) as [[k r1] |] eqn:Ek; [|discriminate].
    apply parse_string_chars_length in Ek. pose proof (skip_ws_length r1) as Hr1.
    destruct (skip_ws r1) as [| c r2]; [discriminate|]. cbn [length] in Hr1.
    destruct (c =? ch ":"); [|discriminate].
    destruct (parse_value f r2) as [v r3 | |] eqn:Ev; try discriminate.
    2: { exfalso. apply (IHv r2); [lia | exact Ev]. }
    apply Cv in Ev. pose proof (skip_ws_length r3) as Hr3.
    destruct (skip_ws r3) as [| c' r4]; [discriminate|]. cbn [length] in Hr3.
    destruct (c' =? ch ",").
    { destruct (parse_members f r4) as [ms r5 | |] eqn:Em; try discriminate.
      exfalso. apply (IHm r4); [lia | exact Em]. }
    destruct (c' =? ch "}"); discriminate.
Qed.

(** [JSON.parse] returns a value or throws a [SyntaxError]. *)
Theorem JSON_parse_answers text :
  (exists v, JSON_parse text = Normal v)
  \/ exists message, JSON_parse text = Throw (ErrorObject SyntaxError message).
Proof.
  unfold JSON_parse, parse_text.
  destruct (parse_fuel_suffices (parse_fuel text)) as (Hv & _ & _).
  specialize (Hv text). unfold parse_fuel in Hv at 1.
  destruct (parse_value (parse_fuel text) text) as [v r | |].
  - destruct (skip_ws r); eauto.
  - eauto.
  - exfalso. apply Hv; [lia | reflexivity].
Qed.

(* ===================================================================== *)
(** * The length of an array is 0 for the empty array only *)
(* ===================================================================== *)

(** A positive integer does not round to zero: the Number of the length of
    an array that holds something is not [0]. *)

Lemma digits2_pos_size p : digits2_pos p = Pos.size p.
Proof. induction p; cbn [digits2_pos Pos.size]; congruence. Qed.

Lemma Zdigits2_log2 m : 0 < m -> Zdigits2 m = Z.log2 m + 1.
Proof.
  destruct m as [| p | p]; try lia. intros _. cbn [Zdigits2].
  rewrite digits2_pos_size. destruct p; cbn [Pos.size Z.log2]; lia.
Qed.

Lemma shr_1_m mrs : 0 <= shr_m mrs -> shr_m (shr_1 mrs) = shr_m mrs / 2.
Proof.
  destruct mrs as [m r s]. cbn [shr_m shr_1]. intros Hm.
  destruct m as [| [p | p |] | p]; try lia; cbn [shr_m]; try reflexivity.
  - rewrite Pos2Z.inj_xI. lia.
  - rewrite Pos2Z.inj_xO. lia.
Qed.

Lemma iter_shr_1_m p mrs :
  0 <= shr_m mrs -> shr_m (iter_pos shr_1 p mrs) = shr_m mrs / 2 ^ Z.pos p.
Proof.
  revert mrs. induction p as [p IH | p IH |]; intros mrs Hm; cbn [iter_pos].
  - assert (H1 : 0 <= shr_m (shr_1 mrs)) by (rewrite shr_1_m by lia; apply Z.div_pos; lia).
    assert (H2 : 0 <= shr_m (iter_pos shr_1 p (shr_1 mrs)))
      by (rewrite IH by lia; apply Z.div_pos; lia).
    rewrite IH by lia. rewrite IH by lia. rewrite shr_1_m by lia.
    rewrite !Z.div_div by lia. f_equal.
    rewrite Pos2Z.inj_xI. rewrite <- !Z.pow_add_r by lia. rewrite <- Z.pow_succ_r by lia.
    f_equal. lia.
  - assert (H2 : 0 <= shr_m (iter_pos shr_1 p mrs))
      by (rewrite IH by lia; apply Z.div_pos; lia).
    rewrite IH by lia. rewrite IH by lia.
    rewrite !Z.div_div by lia. f_equal.
    rewrite Pos2Z.inj_xO. rewrite <- !Z.pow_add_r by lia. f_equal. lia.
  - now rewrite shr_1_m.
Qed.

(** Shifting by [fexp] leaves a positive mantissa positive when the value
    is above the least exponent, and keeps its order of magnitude. *)
Lemma shr_fexp_positive m e l :
  0 < m -> emin prec emax < Zdigits2 m + e ->
  let '(mrs, e') := shr_fexp prec emax m e l in
  0 < shr_m mrs /\ Zdigits2 m + e = Zdigits2 (shr_m mrs) + e'.
Proof.
  intros Hm He. unfold shr_fexp, shr.
  assert (Hrec : shr_m (shr_record_of_loc m l) = m) by (destruct l as [| []]; reflexivity).
  rewrite (Zdigits2_log2 m Hm) in *.
  set (n := fexp prec emax (Z.log2 m + 1 + e) - e).
  assert (Hn : n <= Z.log2 m).
  { unfold n, fexp. unfold prec in *. lia. }
  destruct n as [| p | p] eqn:En.
  - rewrite Hrec. rewrite (Zdigits2_log2 m Hm). lia.
  - rewrite iter_shr_1_m by lia. rewrite Hrec.
    rewrite <- Z.shiftr_div_pow2 by lia.
    assert (Hpos : 0 < Z.shiftr m (Z.pos p)).
    { rewrite Z.shiftr_div_pow2 by lia. apply Z.div_str_pos. split; [lia|].
      apply Z.le_trans with (2 ^ Z.log2 m); [apply Z.pow_le_mono_r; lia|].
      apply Z.log2_spec. lia. }
    split; [exact Hpos|]. rewrite (Zdigits2_log2 _ Hpos).
    rewrite Z.log2_shiftr by lia. lia.
  - rewrite Hrec. rewrite (Zdigits2_log2 m Hm). lia.
Qed.

Lemma round_nearest_even_positive m l :
  0 < m -> m <= round_nearest_even m l <= m + 1.
Proof. intros Hm. destruct l as [| []]; cbn [round_nearest_even]; try destruct (Z.even m); lia. Qed.

Lemma binary_round_aux_not_zero sx m e l :
  0 < m -> emin prec emax < Zdigits2 m + e ->
  forall s, binary_round_aux prec emax sx m e l <> S754_zero s.
Proof.
  intros Hm He s. unfold binary_round_aux.
  pose proof (shr_fexp_positive m e l Hm He) as H1.
  destruct (shr_fexp prec emax m e l) as [mrs' e'].
  destruct H1 as [Hpos1 Hmag1].
  pose proof (round_nearest_even_positive (shr_m mrs') (loc_of_shr_record mrs') Hpos1) as Hr.
  set (m1 := round_nearest_even (shr_m mrs') (loc_of_shr_record mrs')) in *.
  assert (Hm1 : 0 < m1) by lia.
  assert (He1 : emin prec emax < Zdigits2 m1 + e').
  { rewrite (Zdigits2_log2 m1 Hm1). rewrite (Zdigits2_log2 _ Hpos1) in Hmag1.
    pose proof (Z.log2_le_mono (shr_m mrs') m1). lia. }
  pose proof (shr_fexp_positive m1 e' loc_Exact Hm1 He1) as H2.
  destruct (shr_fexp prec emax m1 e' loc_Exact) as [mrs'' e''].
  destruct H2 as [Hpos2 _].
  destruct (shr_m mrs'') as [| p | p]; try lia.
  destruct (e'' <=? emax - prec); discriminate.
Qed.

Lemma digits2_pos_iter m d :
  Z.pos (digits2_pos (Pos.iter xO m d)) = Z.pos (digits2_pos m) + Z.pos d.
Proof.
  induction d as [| d IH] using Pos.peano_ind.
  - cbn [Pos.iter digits2_pos]. lia.
  - rewrite Pos.iter_succ. cbn [digits2_pos]. lia.
Qed.

Lemma shl_align_value mx ex ex' :
  Z.pos (digits2_pos (fst (shl_align mx ex ex'))) + snd (shl_align mx ex ex')
  = Z.pos (digits2_pos mx) + ex.
Proof.
  unfold shl_align. destruct (ex' - ex) as [| d | d] eqn:E; try reflexivity.
  cbn [fst snd]. rewrite digits2_pos_iter. lia.
Qed.

Lemma binary_round_not_zero sx mx :
  forall s, binary_round prec emax sx mx 0 <> S754_zero s.
Proof.
  intros s. unfold binary_round.
  pose proof (shl_align_value mx 0 (fexp prec emax (Z.pos (digits2_pos mx) + 0))) as H.
  destruct (shl_align mx 0 (fexp prec emax (Z.pos (digits2_pos mx) + 0))) as [mz ez].
  cbn [fst snd] in H. apply binary_round_aux_not_zero; [lia|].
  cbn [Zdigits2]. unfold emin, emax, prec in *. lia.
Qed.

Lemma SFeqb_zero x :
  (forall s, x <> S754_zero s) -> SFeqb x (S754_zero false) = false.
Proof.
  intros H. destruct x as [s | [] | | [] m e]; try reflexivity.
  now destruct (H s).
Qed.

(** The length of an array is the Number [0] only when the array is empty. *)
Lemma length_not_zero (n : nat) :
  (0 < n)%nat -> Number_equal (Number_of_Z (Z.of_nat n)) (Number_of_Z 0) = false.
Proof.
  intros Hn. unfold Number_equal, Number_of_Z at 2. cbn [binary_normalize].
  apply SFeqb_zero. intros s. unfold Number_of_Z, binary_normalize.
  destruct (Z.of_nat n) as [| p | p] eqn:E; try lia.
  apply binary_round_not_zero.
Qed.

(* ===================================================================== *)
(** * List after a write *)
(* ===================================================================== *)

(** A collection that holds a record is returned as it is: the namespace
    is not written. *)
Lemma list_returns_stored env v vs :
  holds env (JArray (v :: vs)) ->
  handleGetReviews env
  = (Normal (json (JObject [(k_ok, JBool true); (k_reviews, JArray (v :: vs))]) 200), env).
Proof.
  intros H. apply getReviews_returns; [exact H|].
  apply length_not_zero. cbn [length]. lia.
Qed.

(** What was written for reviews is what the next read holds. *)
Lemma persist_holds env rs :
  Forall valid_review rs -> healthy env ->
  holds (persist env (js_of_reviews rs)) (JArray (map reread rs)).
Proof.
  intros Hvalid [Hget _]. unfold holds.
  rewrite (getJsonUtf8_blob _ (blob_of (js_of_reviews rs))).
  - now rewrite blob_reads_back.
  - exact Hget.
  - apply persist_blob.
Qed.

Lemma list_after_write env r rs :
  Forall valid_review (r :: rs) -> healthy env ->
  handleGetReviews (persist env (js_of_reviews (r :: rs)))
  = (Normal (json (JObject [(k_ok, JBool true);
                            (k_reviews, JArray (reread r :: map reread rs))]) 200),
     persist env (js_of_reviews (r :: rs))).
Proof.
  intros Hvalid Hhealthy. apply list_returns_stored.
  apply (persist_holds env (r :: rs) Hvalid Hhealthy).
Qed.

Lemma digit_char_code_unit n : is_code_unit (digit_char n).
Proof.
  unfold is_code_unit, digit_char. pose proof (Z.mod_pos_bound n 10 eq_refl). lia.
Qed.

Lemma Date_toISOString_jsstring t : is_jsstring (Date_toISOString t).
Proof.
  unfold Date_toISOString. destruct (civil_from_days (t / msPerDay)) as [[y m] d].
  unfold year_string, pad6, pad4, pad3, pad2, is_jsstring.
  destruct ((0 <=? y) && (y <=? 9999)); [| destruct (y <? 0)];
    repeat (apply Forall_app; split);
    repeat apply Forall_cons; try apply Forall_nil;
    try apply digit_char_code_unit; cbv; split; congruence.
Qed.

(** Append on a collection of reviews, then List. *)
Lemma post_then_list host req env body n t rt x stored rs :
  body_is req body ->
  Get body k_name = Normal (JString n) -> n <> [] -> is_jsstring n ->
  Get body k_text = Normal (JString t) -> t <> [] -> is_jsstring t ->
  Get body k_rating = Normal rt -> nullish rt (JNumber five) = JNumber x ->
  holds env stored -> collection_of stored = Some (map js_of_Review rs) ->
  Forall valid_review rs -> healthy env ->
  let r := {| name := n; text := t; rating := x;
              date := Some (Date_toISOString (now host)) |} in
  let env' := persist env (js_of_reviews (r :: rs)) in
  handlePostReview host req env
  = (Normal (json (JObject [(k_ok, JBool true); (k_review, js_of_Review r)]) 200), env')
  /\ handleGetReviews env'
     = (Normal (json (JObject [(k_ok, JBool true);
                               (k_reviews, JArray (reread r :: map reread rs))]) 200), env').
Proof.
  intros Hbody Hn Nn Sn Ht Nt St Hr Hx Hget Hold Hvalid Hhealthy r env'.
  split.
  - rewrite (post_creates host req env body (JString n) (JString t) rt stored
               (map js_of_Review rs)); try assumption.
    + unfold newReview_of. rewrite Hx. reflexivity.
    + destruct n; [contradiction | reflexivity].
    + destruct t; [contradiction | reflexivity].
    + now apply collection_or_else.
    + apply Hhealthy.
  - apply list_after_write; [|exact Hhealthy].
    apply Forall_cons; [|exact Hvalid].
    repeat split; try assumption. apply Date_toISOString_jsstring.
Qed.

(** X22. Append, then List: the record created is the first of the
    collection the next List returns, before the reviews that were there,
    with the name, the text and the date it was created with, and nothing
    more is written. *)
Theorem append_then_list host req env body n t rt x stored rs :
  body_is req body ->
  Get body k_name = Normal (JString n) -> n <> [] -> is_jsstring n ->
  Get body k_text = Normal (JString t) -> t <> [] -> is_jsstring t ->
  Get body k_rating = Normal rt -> nullish rt (JNumber five) = JNumber x ->
  holds env stored -> collection_of stored = Some (map js_of_Review rs) ->
  Forall valid_review rs -> healthy env ->
  let r := {| name := n; text := t; rating := x;
              date := Some (Date_toISOString (now host)) |} in
  let env' := persist env (js_of_reviews (r :: rs)) in
  handlePostReview host req env
  = (Normal (json (JObject [(k_ok, JBool true); (k_review, js_of_Review r)]) 200), env')
  /\ handleGetReviews env'
     = (Normal (json (JObject [(k_ok, JBool true);
                               (k_reviews, JArray (reread r :: map reread rs))]) 200), env').
Proof. exact (post_then_list host req env body n t rt x stored rs). Qed.

(** The scenario of Append on the seeded store: the record is answered with
    200 and is the first of the next List, before the three seeds. *)
Lemma jane_then_list :
  let env' := persist seeded_env (js_of_reviews (jane_review :: seed)) in
  fetch example_host jane_request seeded_env
  = (Normal (json (JObject [(k_ok, JBool true); (k_review, js_of_Review jane_review)]) 200),
     env')
  /\ fetch example_host GET_reviews env'
     = (Normal (json (JObject [(k_ok, JBool true);
                               (k_reviews, JArray (js_of_Review jane_review
                                                     :: map js_of_Review seed))]) 200),
        env').
Proof.
  assert (Hjane : reread jane_review = js_of_Review jane_review) by (vm_compute; reflexivity).
  intros env'.
  replace (JArray (js_of_Review jane_review :: map js_of_Review seed))
    with (JArray (reread jane_review :: map reread seed))
    by (rewrite Hjane, reread_seed; reflexivity).
  change (fetch example_host jane_request seeded_env)
    with (handlePostReview example_host jane_request seeded_env).
  rewrite fetch_GET_reviews.
  apply (append_then_list example_host jane_request seeded_env jane_body
           (lit "Jane Doe") (lit "Loved it! 😊") (JNumber (Number_of_Z 4)) (Number_of_Z 4)
           (js_of_reviews seed) seed).
  - vm_compute. reflexivity.
  - reflexivity.
  - vm_compute. discriminate.
  - apply is_jsstringb_spec. vm_compute. reflexivity.
  - reflexivity.
  - vm_compute. discriminate.
  - apply is_jsstringb_spec. vm_compute. reflexivity.
  - reflexivity.
  - reflexivity.
  - apply seeded_holds.
  - reflexivity.
  - repeat apply Forall_cons; try apply Forall_nil;
      (repeat split; try exact I; apply is_jsstringb_spec; vm_compute; reflexivity).
  - split; reflexivity.
Defined.


(* ===================================================================== *)
(** * What a request does to the namespace *)
(* ===================================================================== *)

(** Case analysis on what the handlers test, from the outside in. *)
Ltac is_innermost scrutinee :=
  lazymatch scrutinee with
  | context [match _ with _ => _ end] => fail
  | _ => idtac
  end.

Ltac run_cases :=
  repeat match goal with
         | |- context [match ?scrutinee with _ => _ end] =>
             is_innermost scrutinee; destruct scrutinee eqn:?
         end.

Ltac run_handler :=
  unfold try_catch, bind, lift, ret, Request_json, Request_text, getJsonUtf8,
    putJsonUtf8, kv_put, kv_get, bind, lift, ret;
  run_cases.

(** The bindings after a write that the namespace took. *)
Lemma persist_written env v :
  kv_put_fault (REVIEWS_DB env) = None ->
  {| GITHUB_MODELS_TOKEN := GITHUB_MODELS_TOKEN env;
     REVIEWS_DB :=
       {| kv_data := <["reviews"%string := TextEncoder_encode (default [] (JSON_stringify v))]>
                       (kv_data (REVIEWS_DB env));
          kv_get_fault := kv_get_fault (REVIEWS_DB env);
          kv_put_fault := None;
          kv_log := ("reviews"%string, TextEncoder_encode (default [] (JSON_stringify v)))
                    :: kv_log (REVIEWS_DB env) |} |}
  = persist env v.
Proof. intros H. unfold persist, blob_of. now rewrite H. Qed.

(** What the namespace holds, from what [getJsonUtf8] went through. *)
Lemma holds_blob env l v :
  kv_get_fault (REVIEWS_DB env) = None ->
  kv_data (REVIEWS_DB env) !! "reviews"%string = Some l ->
  JSON_parse (TextDecoder_decode l) = Normal v -> holds env v.
Proof.
  intros Hg Hl Hv. unfold holds. rewrite (getJsonUtf8_blob env l Hg Hl). now rewrite Hv.
Qed.

Lemma holds_nothing env :
  kv_get_fault (REVIEWS_DB env) = None ->
  kv_data (REVIEWS_DB env) !! "reviews"%string = None -> holds env JNull.
Proof. intros Hg Hl. now apply getJsonUtf8_absent. Qed.

Lemma Array_unshift_shape stored x v :
  Array_unshift stored x = Normal v -> exists old, stored = JArray old /\ v = JArray (x :: old).
Proof. destruct stored; cbn; try discriminate. intros [= <-]. eauto. Qed.

(** The three outcomes of [handlePostReview]. *)
Lemma handlePostReview_outcome host req env :
  exists resp env',
    handlePostReview host req env = (Normal resp, env')
    /\ ((exists created stored old,
           holds env stored /\ or_else stored (JArray []) = JArray old
           /\ resp = json (JObject [(k_ok, JBool true); (k_review, created)]) 200
           /\ env' = persist env (JArray (created :: old)))
        \/ (resp = json (error_envelope (lit "Missing name or text")) 400 /\ env' = env)
        \/ (resp = json (error_envelope (lit "Server error")) 500 /\ env' = env)).
Proof.
  unfold handlePostReview. run_handler;
    try (do 2 eexists; split; [reflexivity|];
         first [ right; left; split; reflexivity | right; right; split; reflexivity ]).
  all: do 2 eexists; (split; [reflexivity|]); left.
  all: match goal with H : Array_unshift _ _ = Normal _ |- _ =>
         destruct (Array_unshift_shape _ _ _ H) as (old & Hold & ->) end.
  all: eexists _, _, old; split; [|split; [exact Hold|]];
    [ first [ eapply holds_blob; eassumption | now apply holds_nothing ]
    | split; [reflexivity | now apply persist_written] ].
Qed.

Lemma Array_filter_shape stored keep reviews filtered :
  Array_filter stored keep = Normal (reviews, filtered) ->
  stored = JArray reviews /\ filter_elems keep reviews = Normal filtered.
Proof.
  destruct stored; cbn; try discriminate.
  destruct (filter_elems keep elems) eqn:E; [|discriminate]. now intros [= <- <-].
Qed.

Lemma filter_elems_length keep elems kept :
  filter_elems keep elems = Normal kept -> (length kept <= length elems)%nat.
Proof.
  revert kept. induction elems as [| e rest IH]; intros kept; cbn [filter_elems].
  - intros [= <-]. reflexivity.
  - destruct (keep e) as [b | t]; [|discriminate].
    destruct (filter_elems keep rest) as [kept' | t]; [|discriminate].
    specialize (IH kept' eq_refl). intros [= <-]. destruct b; cbn [length]; lia.
Qed.

(** A filter that went through a record has lowercased the query: the query
    is a string. *)
Lemma filter_elems_query host nv elems kept :
  filter_elems (name_differs host nv) elems = Normal kept ->
  length kept <> length elems -> exists q, nv = JString q.
Proof.
  destruct elems as [| r rest]; cbn [filter_elems].
  - intros [= <-]. now intros [].
  - intros H _. unfold name_differs in H.
    destruct (Get r k_name) as [v | t]; [|discriminate].
    destruct (optional_toLowerCase host v); [|discriminate].
    destruct nv; cbn in H; try discriminate. eauto.
Qed.

Lemma filter_elems_sublist keep elems kept :
  filter_elems keep elems = Normal kept -> sublist kept elems.
Proof.
  revert kept. induction elems as [| e rest IH]; intros kept; cbn [filter_elems].
  - intros [= <-]. constructor.
  - destruct (keep e) as [b | t]; [|discriminate].
    destruct (filter_elems keep rest) as [kept' | t]; [|discriminate].
    specialize (IH kept' eq_refl). intros [= <-]. destruct b; now constructor.
Qed.

(** [stored || []] is a non-empty array when [stored] is that array. *)
Lemma or_else_array stored elems :
  or_else stored (JArray []) = JArray elems -> (0 < length elems)%nat ->
  stored = JArray elems.
Proof.
  unfold or_else. destruct (ToBoolean stored); [easy|].
  intros [= <-]. cbn. lia.
Qed.

(** The outcomes of [handleDeleteReview]. *)
Lemma handleDeleteReview_outcome host req env :
  exists resp env',
    handleDeleteReview host req env = (Normal resp, env')
    /\ ((status resp = 200
         /\ exists reviews filtered,
              holds env (JArray reviews)
              /\ sublist filtered reviews /\ (length filtered < length reviews)%nat
              /\ env' = persist env (JArray filtered))
        \/ ((status resp = 400 \/ status resp = 404 \/ status resp = 500) /\ env' = env)).
Proof.
  unfold handleDeleteReview. run_handler;
    try (do 2 eexists; split; [reflexivity|]; right; split; [cbn; tauto | reflexivity]).
  all: match goal with H : Array_filter _ _ = Normal _ |- _ =>
         destruct (Array_filter_shape _ _ _ _ H) as [Hstored Hkept] end.
  all: match goal with H : (_ =? _)%nat = false |- _ => apply Nat.eqb_neq in H end.
  all: try (destruct (filter_elems_query _ _ _ _ Hkept) as [q ->]; [assumption|];
            discriminate).
  all: do 2 eexists; (split; [reflexivity|]); left; (split; [reflexivity|]).
  all: pose proof (filter_elems_length _ _ _ Hkept) as Hlen.
  all: pose proof (filter_elems_sublist _ _ _ Hkept) as Hsub.
  all: match goal with H : (length ?k <= length ?r)%nat |- _ => exists r, k end.
  all: split; [|split; [exact Hsub | split; [lia | now apply persist_written]]].
  - eapply holds_blob; try eassumption.
    match goal with H : JSON_parse _ = Normal ?v |- _ = Normal ?w =>
      replace w with v; [exact H | apply or_else_array; [assumption | lia]] end.
  - exfalso. cbn in Hstored. injection Hstored as <-. cbn in *. lia.
Qed.

(** [handleGitHubProxy] never touches the namespace. *)
Lemma handleGitHubProxy_reads_only host req env :
  snd (handleGitHubProxy host req env) = env.
Proof. unfold handleGitHubProxy. run_handler; reflexivity. Qed.

Lemma getReviews_effect records env :
  snd (getReviews records env) = env
  \/ getReviews records env
     = (Normal (seed_response records), persist env (js_of_reviews records)).
Proof.
  unfold getReviews. run_handler; try (left; reflexivity).
  all: right; unfold seed_response, js_of_reviews; f_equal; now apply persist_written.
Qed.

(** Whatever the request, [fetch] leaves the bindings as they were or
    makes one write under the key of the collection. *)
Lemma fetch_effect host req env : one_write env (snd (fetch host req env)).
Proof.
  unfold fetch.
  repeat match goal with |- context [if ?b then _ else _] => destruct b end;
    try (left; reflexivity).
  - destruct (handleDeleteReview_outcome host req env) as (resp & env' & -> & [H | H]).
    + destruct H as (_ & _ & kept & _ & _ & _ & ->). right. eauto.
    + left. apply H.
  - destruct (getReviews_effect seed env) as [H | H]; unfold handleGetReviews.
    + now left.
    + rewrite H. right. eauto.
  - destruct (handlePostReview_outcome host req env) as (resp & env' & -> & [H | [H | H]]).
    + destruct H as (created & stored & old & _ & _ & _ & ->). right. eauto.
    + left. apply H.
    + left. apply H.
  - left. apply handleGitHubProxy_reads_only.
Qed.

(** X1. Whatever the request, [fetch] never changes the token, the faults
    of the namespace or what the namespace holds under another key than
    [reviews]; and it leaves the bindings as they were or makes one write,
    under [reviews], which the log of the writes shows in front of the
    writes before. *)
Theorem fetch_one_write host req env :
  let env' := snd (fetch host req env) in
  GITHUB_MODELS_TOKEN env' = GITHUB_MODELS_TOKEN env
  /\ kv_get_fault (REVIEWS_DB env') = kv_get_fault (REVIEWS_DB env)
  /\ kv_put_fault (REVIEWS_DB env') = kv_put_fault (REVIEWS_DB env)
  /\ (forall key, key <> "reviews"%string ->
                  kv_data (REVIEWS_DB env') !! key = kv_data (REVIEWS_DB env) !! key)
  /\ (env' = env
      \/ exists bytes,
           kv_data (REVIEWS_DB env') !! "reviews"%string = Some bytes
           /\ kv_log (REVIEWS_DB env') = ("reviews"%string, bytes) :: kv_log (REVIEWS_DB env)).
Proof.
  intros env'. destruct (fetch_effect host req env) as [E | [v E]]; fold env' in E; rewrite E.
  - repeat split; try reflexivity. now left.
  - unfold persist. cbn [GITHUB_MODELS_TOKEN REVIEWS_DB kv_get_fault kv_put_fault kv_data kv_log].
    repeat split; try reflexivity.
    + intros key Hkey. now apply lookup_insert_ne.
    + right. exists (blob_of v). split; [apply lookup_insert_eq | reflexivity].
Qed.

Ltac route :=
  unfold fetch;
  repeat match goal with
         | |- context [String.eqb ?a ?b] => destruct (String.eqb a b) eqn:?
         end;
  cbn [andb orb].

(** X2. A request that is not for the reviews leaves the bindings as they
    were: the preflight, the health check, the proxy and the answer 404
    neither read nor write the namespace. *)
Theorem fetch_leaves_bindings host req env :
  reviews_route req = false -> snd (fetch host req env) = env.
Proof.
  unfold reviews_route. route; intros H; try discriminate H; try reflexivity.
  all: apply handleGitHubProxy_reads_only.
Qed.

Lemma fetch_leaves_bindings_witness :
  snd (fetch example_host (POST "/v1/chat" (json_bytes "{'messages':[]}")) seeded_env)
  = seeded_env.
Proof. apply (fetch_leaves_bindings example_host). reflexivity. Defined.

(** Every answer a handler makes is made by [json], or relays the
    endpoint. *)
Lemma handlePostReview_shape host req env resp env' :
  handlePostReview host req env = (Normal resp, env') ->
  exists data code, resp = json data code.
Proof.
  unfold handlePostReview. run_handler; intros [= <- <-]; eauto.
Qed.

Lemma handleDeleteReview_shape host req env resp env' :
  handleDeleteReview host req env = (Normal resp, env') ->
  exists data code, resp = json data code.
Proof.
  unfold handleDeleteReview. run_handler; intros [= <- <-]; eauto.
Qed.

Lemma getReviews_shape records env resp env' :
  getReviews records env = (Normal resp, env') ->
  exists data code, resp = json data code.
Proof.
  unfold getReviews. run_handler; intros [= <- <-]; eauto.
Qed.

Lemma handleGitHubProxy_shape host req env resp env' :
  handleGitHubProxy host req env = (Normal resp, env') ->
  (exists data code, resp = json data code) \/ (exists gh, resp = relay gh).
Proof.
  unfold handleGitHubProxy. run_handler; intros [= <- <-];
    first [ left; eexists _, _; reflexivity
          | right;
            match goal with
            | H : up_content_type ?gh = _ |- _ => exists gh; unfold relay; now rewrite H
            end ].
Qed.

Lemma json_or_relay_headers resp :
  (exists data code, resp = json data code) \/ (exists gh, resp = relay gh) ->
  exists ct, headers resp = ("Content-Type"%string, ct) :: cors.
Proof. intros [(data & code & ->) | (gh & ->)]; cbn; eauto. Qed.

(** X3. Every response of [fetch] carries the three headers of [cors]. The
    preflight carries them alone. The answer 404 carries them before the
    [Content-Type] of plain text that its string body brings. An answer
    made by [json], and what the proxy relays of the endpoint, carry them
    after one [Content-Type]. *)
Theorem fetch_cors host req env resp env' :
  fetch host req env = (Normal resp, env') ->
  (forall h, In h cors -> In h (headers resp))
  /\ ((String.eqb (method req) "OPTIONS" = true /\ resp = preflight_response
       /\ headers resp = cors)
      \/ (resp = not_found
          /\ headers resp = cors ++ [("Content-Type", "text/plain;charset=UTF-8")%string])
      \/ (((exists data code, resp = json data code) \/ (exists gh, resp = relay gh))
          /\ exists ct, headers resp = ("Content-Type"%string, ct) :: cors)).
Proof.
  intros H.
  assert (Hkind : (String.eqb (method req) "OPTIONS" = true /\ resp = preflight_response)
                  \/ resp = not_found
                  \/ ((exists data code, resp = json data code)
                      \/ (exists gh, resp = relay gh))).
  { revert H. route; intros H;
      first [ injection H as <- <-;
              first [ left; split; reflexivity
                    | right; left; reflexivity
                    | right; right; left; eauto ]
            | right; right;
              first [ left; eapply handleDeleteReview_shape, H
                    | left; eapply getReviews_shape, H
                    | left; eapply handlePostReview_shape, H
                    | eapply handleGitHubProxy_shape, H ] ]. }
  destruct Hkind as [[Hm ->] | [-> | Hkind]].
  - split; [intros h Hh; exact Hh|]. left. repeat split. exact Hm.
  - split; [intros h Hh; cbn [headers not_found]; apply in_or_app; now left|].
    right. left. split; reflexivity.
  - destruct (json_or_relay_headers resp Hkind) as [ct Hct].
    split; [intros h Hh; rewrite Hct; now right|].
    right. right. split; [exact Hkind | eauto].
Qed.

Lemma fetch_cors_witness :
  (forall h, In h cors -> In h (headers not_found))
  /\ ((String.eqb "GET" "OPTIONS" = true /\ not_found = preflight_response
       /\ headers not_found = cors)
      \/ (not_found = not_found
          /\ headers not_found
             = cors ++ [("Content-Type", "text/plain;charset=UTF-8")%string])
      \/ (((exists data code, not_found = json data code)
           \/ (exists gh, not_found = relay gh))
          /\ exists ct, headers not_found = ("Content-Type"%string, ct) :: cors)).
Proof.
  apply (fetch_cors example_host (GET "/health") empty_env not_found empty_env).
  reflexivity.
Defined.

(** What reading or setting a property throws is a [TypeError]. *)
Lemma Get_throws v k t : Get v k = Throw t -> exists m, t = ErrorObject TypeError m.
Proof.
  destruct v; cbn; try discriminate; try (intros [= <-]; eauto).
  - destruct (jsstring_eqb k length_key); [discriminate|].
    destruct (array_index k); discriminate.
  - destruct (jsstring_eqb k length_key); [discriminate|].
    destruct (array_index k); discriminate.
Qed.

Lemma Get_throws_nullish v k t : Get v k = Throw t -> v = JUndefined \/ v = JNull.
Proof.
  destruct v; cbn; try discriminate; try tauto.
  - destruct (jsstring_eqb k length_key); [discriminate|].
    destruct (array_index k); discriminate.
  - destruct (jsstring_eqb k length_key); [discriminate|].
    destruct (array_index k); discriminate.
Qed.

Lemma Set_throws v k x t : Set_ v k x = Throw t -> exists m, t = ErrorObject TypeError m.
Proof. destruct v; cbn; try discriminate; intros [= <-]; eauto. Qed.

(** The proxy answers when what the endpoint rejects with can be read. *)
Lemma handleGitHubProxy_answers host req env :
  (forall token sent t, github host token sent = Throw t -> readable t) ->
  exists resp, handleGitHubProxy host req env = (Normal resp, env).
Proof.
  intros Hhost. unfold handleGitHubProxy. run_handler; eauto.
  all: exfalso.
  all: repeat match goal with
              | H : github _ _ _ = Throw _ |- _ => apply Hhost in H; destruct H
              | H : Set_ _ _ _ = Throw _ |- _ => apply Set_throws in H; destruct H
              | H : Get (JObject _) _ = Throw _ |- _ => discriminate H
              | H : Get ?v _ = Throw _, E : _ = ThrownValue ?v |- _ =>
                  apply Get_throws_nullish in H; destruct H; subst
              | H : Get _ _ = Throw _ |- _ => apply Get_throws in H; destruct H
              end.
  all: congruence.
Qed.

(** X4. Off the List route nothing escapes [fetch]: when what the endpoint
    rejects with is not [null] or [undefined], every request other than
    [GET /reviews] is answered with a response, whatever the namespace
    does. *)
Theorem fetch_answers_off_list host req env :
  (forall token sent t, github host token sent = Throw t -> readable t) ->
  String.eqb (pathname req) "/reviews" && String.eqb (method req) "GET" = false ->
  exists resp env', fetch host req env = (Normal resp, env').
Proof.
  intros Hhost. route; intros H; try discriminate H; unfold ret; eauto.
  all: first [ destruct (handleDeleteReview_outcome host req env) as (r & e & -> & _); eauto
             | destruct (handlePostReview_outcome host req env) as (r & e & -> & _); eauto
             | destruct (handleGitHubProxy_answers host req env Hhost) as [r ->]; eauto ].
Qed.

Lemma fetch_answers_off_list_witness :
  exists resp env',
    fetch example_host (POST "/reviews" (json_bytes "{'name':'A','text':'hi'}")) offline_env
    = (Normal resp, env').
Proof.
  apply (fetch_answers_off_list example_host).
  - intros token sent t [= <-]. split; discriminate.
  - reflexivity.
Defined.

(** X5. A request that no route takes is answered 404 with the text
    [Not Found], and the bindings are left as they were: the method is not
    [OPTIONS] or [POST], the request is not [GET /], and it is not [GET] or
    [DELETE] on [/reviews]. *)
Theorem fetch_not_found host req env :
  String.eqb (method req) "OPTIONS" = false ->
  String.eqb (method req) "POST" = false ->
  String.eqb (method req) "GET" && String.eqb (pathname req) "/" = false ->
  String.eqb (pathname req) "/reviews"
  && (String.eqb (method req) "GET" || String.eqb (method req) "DELETE") = false ->
  fetch host req env = (Normal not_found, env)
  /\ status not_found = 404
  /\ body not_found = Some (lit "Not Found").
Proof.
  intros H1 H2 H3 H4. split; [|split; reflexivity].
  revert H1 H2 H3 H4. route; intros H1 H2 H3 H4; try discriminate; reflexivity.
Qed.

Lemma fetch_not_found_witness :
  fetch example_host (GET "/health") seeded_env = (Normal not_found, seeded_env)
  /\ status not_found = 404
  /\ body not_found = Some (lit "Not Found").
Proof. apply (fetch_not_found example_host (GET "/health") seeded_env); reflexivity. Defined.

(** X8. [handlePostReview] answers every request, and writes exactly when
    it answers 200: what it then writes is an array with the record it
    created in front. With 400 and with 500 the namespace is as it was. *)
Theorem append_all_or_nothing host req env :
  exists resp env',
    handlePostReview host req env = (Normal resp, env')
    /\ ((exists created stored old,
           holds env stored /\ or_else stored (JArray []) = JArray old
           /\ resp = json (JObject [(k_ok, JBool true); (k_review, created)]) 200
           /\ env' = persist env (JArray (created :: old)))
        \/ (resp = json (error_envelope (lit "Missing name or text")) 400 /\ env' = env)
        \/ (resp = json (error_envelope (lit "Server error")) 500 /\ env' = env)).
Proof. apply handlePostReview_outcome. Qed.

(** X9. [handleDeleteReview] answers every request, and writes exactly
    when it answers 200: what it then writes is an array shorter than the
    one it read. With 400, 404 and 500 the namespace is as it was. *)
Theorem delete_all_or_nothing host req env :
  exists resp env',
    handleDeleteReview host req env = (Normal resp, env')
    /\ ((status resp = 200
         /\ exists reviews filtered,
              holds env (JArray reviews)
              /\ sublist filtered reviews /\ (length filtered < length reviews)%nat
              /\ env' = persist env (JArray filtered))
        \/ ((status resp = 400 \/ status resp = 404 \/ status resp = 500) /\ env' = env)).
Proof. apply handleDeleteReview_outcome. Qed.

(* ===================================================================== *)
(** * The health check and the two entry points *)
(* ===================================================================== *)

(** X6. [GET /] is answered 200 with the address of the endpoint, the
    default model and the version of the API, in that order, whatever the
    body of the request and the state of the namespace, which is not
    touched. *)
Theorem health_check host bytes env :
  fetch host {| method := "GET"; pathname := "/"; req_body := bytes |} env
  = (Normal
       {| status := 200;
          headers := ("Content-Type", "application/json; charset=utf-8")%string :: cors;
          body :=
            Some (json_text
                    "{'ok':true,'proxy':'github-models','to':'https://models.github.ai/inference/chat/completions','default_model':'microsoft/phi-4-mini-instruct','version':'2022-11-28'}") |},
     env).
Proof. vm_compute. reflexivity. Qed.

(** Two runs of [getReviews] with different seeds differ only when they
    seed. *)
Lemma getReviews_seeds_or_agrees records records' env :
  getReviews records env = getReviews records' env
  \/ (getReviews records env
      = (Normal (seed_response records), persist env (js_of_reviews records))
      /\ getReviews records' env
         = (Normal (seed_response records'), persist env (js_of_reviews records'))).
Proof.
  unfold getReviews. run_handler; try (left; reflexivity).
  all: right; unfold seed_response, js_of_reviews; split; f_equal; now apply persist_written.
Qed.

(** X7. The entry point that routes to the handlers of [src/handlers]
    answers every request as the entry point of [src/worker.ts] does, and
    leaves the same bindings, but when List seeds: there each writes and
    returns the seed of its own [handleGetReviews]. *)
Theorem modular_fetch_agrees host req env :
  Modular.fetch host req env = fetch host req env
  \/ (fetch host req env
      = (Normal (seed_response seed), persist env (js_of_reviews seed))
      /\ Modular.fetch host req env
         = (Normal (seed_response seed_short), persist env (js_of_reviews seed_short))).
Proof.
  unfold Modular.fetch, fetch.
  repeat match goal with
         | |- context [String.eqb ?a ?b] => destruct (String.eqb a b) eqn:?
         end;
    cbn [andb orb].
  all: try match goal with
           | H : String.eqb ?a _ = true, H' : String.eqb ?a _ = true |- _ =>
               apply String.eqb_eq in H; rewrite H in H'; discriminate H'
           end.
  all: lazymatch goal with
       | |- context [Modular.handleGetReviews] =>
           unfold Modular.handleGetReviews, handleGetReviews;
           destruct (getReviews_seeds_or_agrees seed_short seed env) as [H | [H1 H2]];
           [left; exact H | right; split; assumption]
       | |- _ => left; reflexivity
       end.
Qed.

(* ===================================================================== *)
(** * The proxy *)
(* ===================================================================== *)

Lemma jsstring_eqb_neq (s t : jsstring) : s <> t -> jsstring_eqb s t = false.
Proof. intros H. unfold jsstring_eqb. now apply bool_decide_eq_false. Qed.

Lemma lookup_replace_prop k x props :
  lookup_prop k props <> None -> lookup_prop k (replace_prop k x props) = Some x.
Proof.
  induction props as [| [k' v'] rest IH]; cbn [lookup_prop replace_prop]; [easy|].
  destruct (jsstring_eqb k k') eqn:E; cbn [lookup_prop]; rewrite E; [reflexivity | exact IH].
Qed.

Lemma lookup_replace_prop_other k k' x props :
  k' <> k -> lookup_prop k' (replace_prop k x props) = lookup_prop k' props.
Proof.
  intros Hk. induction props as [| [k0 v0] rest IH]; cbn [lookup_prop replace_prop]; [easy|].
  destruct (jsstring_eqb k k0) eqn:E; cbn [lookup_prop].
  - apply jsstring_eqb_eq in E. subst k0. now rewrite (jsstring_eqb_neq k' k Hk).
  - now rewrite IH.
Qed.

Lemma lookup_prop_app k props k0 x :
  lookup_prop k (props ++ [(k0, x)])
  = match lookup_prop k props with
    | Some v => Some v
    | None => if jsstring_eqb k k0 then Some x else None
    end.
Proof.
  induction props as [| [k' v'] rest IH]; cbn [lookup_prop List.app]; [reflexivity|].
  destruct (jsstring_eqb k k'); [reflexivity | exact IH].
Qed.

(** Setting a property that is not an array index: the property has the
    new value, the others have theirs. *)
Lemma Get_define_prop props k x :
  array_index k = None -> Get (JObject (define_prop props k x)) k = Normal x.
Proof.
  intros Hk. cbn [Get]. unfold define_prop.
  destruct (lookup_prop k props) eqn:E.
  - rewrite lookup_replace_prop; [reflexivity | congruence].
  - rewrite Hk, lookup_prop_app, E, jsstring_eqb_refl. reflexivity.
Qed.

Lemma Get_define_prop_other props k x k' :
  array_index k = None -> k' <> k ->
  Get (JObject (define_prop props k x)) k' = Get (JObject props) k'.
Proof.
  intros Hk Hk'. cbn [Get]. unfold define_prop.
  destruct (lookup_prop k props) eqn:E.
  - now rewrite lookup_replace_prop_other.
  - rewrite Hk, lookup_prop_app, jsstring_eqb_neq by exact Hk'.
    now destruct (lookup_prop k' props).
Qed.

(** The handler, once the body it sends is known and the endpoint has
    answered. *)
Lemma handleGitHubProxy_relays host req env data gh :
  (match JSON_parse (TextDecoder_decode (req_body req)) with
   | Normal v => v
   | Throw _ => JObject []
   end) = data ->
  forall model data',
    Get data k_model = Normal model ->
    (if negb (ToBoolean model)
     then Set_ data k_model (JString (lit DEFAULT_MODEL)) else Normal data) = Normal data' ->
    github host (GITHUB_MODELS_TOKEN env) (JSON_stringify data') = Normal gh ->
    handleGitHubProxy host req env = (Normal (relay gh), env).
Proof.
  intros Hdata model data' Hmodel Hset Hgh.
  unfold handleGitHubProxy. apply try_catch_normal.
  unfold Request_text, bind at 1, ret at 1. rewrite Hdata.
  rewrite (bind_lift_normal _ _ _ _ Hmodel).
  destruct (negb (ToBoolean model)).
  - rewrite (bind_lift_normal _ _ _ _ Hset). now rewrite Hgh.
  - injection Hset as <-. unfold bind, ret. now rewrite Hgh.
Qed.

(** X10. A body that is not JSON is treated as the empty object: the
    endpoint is sent the default model alone, and its answer is relayed
    with its status, its text and its content type, [application/json]
    when it names none, and the headers of [cors]. *)
Theorem proxy_unparsable_body host req env t gh :
  JSON_parse (TextDecoder_decode (req_body req)) = Throw t ->
  github host (GITHUB_MODELS_TOKEN env) (Some default_model_body) = Normal gh ->
  handleGitHubProxy host req env = (Normal (relay gh), env).
Proof.
  intros Hbody Hgh.
  apply (handleGitHubProxy_relays host req env (JObject []) gh) with
    (model := JUndefined) (data' := JObject [(k_model, JString (lit DEFAULT_MODEL))]).
  - now rewrite Hbody.
  - reflexivity.
  - reflexivity.
  - exact Hgh.
Qed.

Lemma proxy_unparsable_body_witness :
  handleGitHubProxy echo_host (POST "/" (json_bytes "hello")) empty_env
  = (Normal {| status := 200;
               headers := ("Content-Type", "application/json")%string :: cors;
               body := Some (json_text "{'model':'microsoft/phi-4-mini-instruct'}") |},
     empty_env).
Proof.
  apply (proxy_unparsable_body echo_host (POST "/" (json_bytes "hello")) empty_env
           (ErrorObject SyntaxError (lit "Unexpected token in JSON"))
           {| up_status := 200; up_content_type := None;
              up_text := json_text "{'model':'microsoft/phi-4-mini-instruct'}" |}).
  - vm_compute. reflexivity.
  - vm_compute. reflexivity.
Defined.

(** X11. A body that is a JSON object without a model, or with one that is
    falsy, is sent with [model] set to the default model: [model] keeps its
    place when the body had it and comes last when it had not, and every
    other property is sent as it was. *)
Theorem proxy_injects_model host req env props model gh :
  body_is req (JObject props) ->
  Get (JObject props) k_model = Normal model -> ToBoolean model = false ->
  let sent := JObject (define_prop props k_model (JString (lit DEFAULT_MODEL))) in
  github host (GITHUB_MODELS_TOKEN env) (JSON_stringify sent) = Normal gh ->
  handleGitHubProxy host req env = (Normal (relay gh), env)
  /\ Get sent k_model = Normal (JString (lit DEFAULT_MODEL))
  /\ forall k, k <> k_model -> Get sent k = Get (JObject props) k.
Proof.
  intros Hbody Hmodel Hfalsy sent Hgh. split; [|split].
  - apply (handleGitHubProxy_relays host req env (JObject props) gh) with
      (model := model) (data' := sent).
    + unfold body_is in Hbody. now rewrite Hbody.
    + exact Hmodel.
    + now rewrite Hfalsy.
    + exact Hgh.
  - now apply Get_define_prop.
  - intros k Hk. now apply Get_define_prop_other.
Qed.

Lemma proxy_injects_model_witness :
  handleGitHubProxy echo_host
    (POST "/" (json_bytes "{'messages':[],'model':'','stream':true}")) empty_env
  = (Normal {| status := 200;
               headers := ("Content-Type", "application/json")%string :: cors;
               body := Some (json_text
                               "{'messages':[],'model':'microsoft/phi-4-mini-instruct','stream':true}") |},
     empty_env).
Proof.
  destruct (proxy_injects_model echo_host
              (POST "/" (json_bytes "{'messages':[],'model':'','stream':true}")) empty_env
              [(lit "messages", JArray []); (k_model, JString []); (lit "stream", JBool true)]
              (JString [])
              {| up_status := 200; up_content_type := None;
                 up_text := json_text
                              "{'messages':[],'model':'microsoft/phi-4-mini-instruct','stream':true}" |})
    as [H _].
  - vm_compute. reflexivity.
  - vm_compute. reflexivity.
  - reflexivity.
  - vm_compute. reflexivity.
  - exact H.
Defined.

(** X12. A body that is a JSON array, or a JSON value with a truthy model,
    is sent as [JSON.stringify] writes what [JSON.parse] read: no model is
    added to an array, and a model that is there is not replaced. *)
Theorem proxy_forwards_unchanged host req env data gh :
  body_is req data ->
  ((exists elems, data = JArray elems)
   \/ exists model, Get data k_model = Normal model /\ ToBoolean model = true) ->
  github host (GITHUB_MODELS_TOKEN env) (JSON_stringify data) = Normal gh ->
  handleGitHubProxy host req env = (Normal (relay gh), env).
Proof.
  intros Hbody Hshape Hgh. unfold body_is in Hbody.
  destruct Hshape as [[elems ->] | (model & Hmodel & Htruthy)].
  - apply (handleGitHubProxy_relays host req env (JArray elems) gh) with
      (model := JUndefined) (data' := JArray elems).
    + now rewrite Hbody.
    + reflexivity.
    + reflexivity.
    + exact Hgh.
  - apply (handleGitHubProxy_relays host req env data gh) with
      (model := model) (data' := data).
    + now rewrite Hbody.
    + exact Hmodel.
    + now rewrite Htruthy.
    + exact Hgh.
Qed.

Lemma proxy_forwards_unchanged_witness :
  handleGitHubProxy echo_host (POST "/" (json_bytes " [ 1 , 'two' ] ")) empty_env
  = (Normal {| status := 200;
               headers := ("Content-Type", "application/json")%string :: cors;
               body := Some (json_text "[1,'two']") |},
     empty_env).
Proof.
  apply (proxy_forwards_unchanged echo_host (POST "/" (json_bytes " [ 1 , 'two' ] ")) empty_env
           (JArray [JNumber (Number_of_Z 1); JString (lit "two")])
           {| up_status := 200; up_content_type := None;
              up_text := json_text "[1,'two']" |}).
  - vm_compute. reflexivity.
  - left. eauto.
  - vm_compute. reflexivity.
Defined.

(** X13. A body that is JSON but neither an object nor an array ([null],
    a boolean, a number, a string) is not sent: reading or setting [model]
    on it throws, and the answer is 500 with the message of that error,
    whatever the endpoint would have answered. *)
Theorem proxy_refuses_primitives req env data :
  body_is req data ->
  match data with JArray _ | JObject _ => False | _ => True end ->
  exists message,
    message <> []
    /\ forall host,
         handleGitHubProxy host req env = (Normal (json (error_envelope message) 500), env).
Proof.
  intros Hbody Hshape. unfold body_is in Hbody.
  assert (Hrun : forall host (message : string),
             (exists model,
                 Get data k_model = Normal model /\ ToBoolean model = false
                 /\ Set_ data k_model (JString (lit DEFAULT_MODEL)) = TypeError_ message)
             \/ Get data k_model = TypeError_ message ->
             lit message <> [] ->
             handleGitHubProxy host req env
             = (Normal (json (error_envelope (lit message)) 500), env)).
  { intros host message Hthrows Hmessage.
    unfold handleGitHubProxy.
    erewrite try_catch_throw with (t := ErrorObject TypeError (lit message)).
    - cbn [Get lookup_prop]. rewrite bind_lift_normal with (a := JUndefined) by reflexivity.
      rewrite bind_lift_normal with (a := JString (lit message)) by reflexivity.
      unfold ret, or_else. cbn [ToBoolean]. destruct (lit message); [contradiction | reflexivity].
    - unfold Request_text, bind at 1, ret at 1. rewrite Hbody.
      destruct Hthrows as [(model & Hmodel & Hfalsy & Hset) | Hget].
      + rewrite (bind_lift_normal _ _ _ _ Hmodel). rewrite Hfalsy. cbn [negb].
        apply bind_throw. unfold lift. now rewrite Hset.
      + now apply bind_lift_throw. }
  destruct data; try contradiction.
  - exists (lit "Cannot read properties of undefined").
    split; [vm_compute; discriminate|]. intros host. apply Hrun; [now right | vm_compute; discriminate].
  - exists (lit "Cannot read properties of null").
    split; [vm_compute; discriminate|]. intros host. apply Hrun; [now right | vm_compute; discriminate].
  - exists (lit "Cannot create property").
    split; [vm_compute; discriminate|]. intros host.
    apply Hrun; [left; exists JUndefined; now repeat split | vm_compute; discriminate].
  - exists (lit "Cannot create property").
    split; [vm_compute; discriminate|]. intros host.
    apply Hrun; [left; exists JUndefined; now repeat split | vm_compute; discriminate].
  - exists (lit "Cannot create property").
    split; [vm_compute; discriminate|]. intros host.
    apply Hrun; [left; exists JUndefined; now repeat split | vm_compute; discriminate].
Qed.

Lemma proxy_refuses_primitives_witness :
  exists message,
    message <> []
    /\ forall host,
         handleGitHubProxy host (POST "/" (json_bytes "42")) empty_env
         = (Normal (json (error_envelope message) 500), empty_env).
Proof.
  apply (proxy_refuses_primitives (POST "/" (json_bytes "42")) empty_env
           (JNumber (Number_of_Z 42))).
  - vm_compute. reflexivity.
  - exact I.
Defined.

(** X14. When the endpoint cannot be reached, a request whose body is an
    object, an array or not JSON at all is answered 500 with the message
    the rejection carries, and with [Unknown error] when that message is
    empty. *)
Theorem proxy_upstream_failure host req env kind message :
  (forall sent,
     github host (GITHUB_MODELS_TOKEN env) sent = Throw (ErrorObject kind message)) ->
  match JSON_parse (TextDecoder_decode (req_body req)) with
  | Normal (JArray _) | Normal (JObject _) | Throw _ => True
  | Normal _ => False
  end ->
  handleGitHubProxy host req env
  = (Normal (json (error_envelope (match message with
                                   | [] => lit "Unknown error"
                                   | _ => message
                                   end)) 500), env).
Proof.
  intros Hdown Hshape. unfold handleGitHubProxy.
  erewrite try_catch_throw with (t := ErrorObject kind message).
  - cbn [Get lookup_prop]. rewrite bind_lift_normal with (a := JUndefined) by reflexivity.
    rewrite bind_lift_normal with (a := JString message) by reflexivity.
    unfold ret, or_else. cbn [ToBoolean]. now destruct message.
  - unfold Request_text, bind at 1, ret at 1.
    set (data := match JSON_parse (TextDecoder_decode (req_body req)) with
                 | Normal v => v
                 | Throw _ => JObject []
                 end).
    assert (Hdata : exists model data',
               Get data k_model = Normal model
               /\ (if negb (ToBoolean model)
                   then Set_ data k_model (JString (lit DEFAULT_MODEL))
                   else Normal data) = Normal data').
    { subst data. destruct (JSON_parse (TextDecoder_decode (req_body req))) as [v | t].
      - destruct v; try contradiction.
        + exists JUndefined. eexists. split; reflexivity.
        + exists (match lookup_prop k_model props with Some x => x | None => JUndefined end).
          destruct (negb (ToBoolean _)); eexists; split; reflexivity.
      - exists JUndefined. eexists. split; reflexivity. }
    destruct Hdata as (model & data' & Hmodel & Hset).
    rewrite (bind_lift_normal _ _ _ _ Hmodel).
    destruct (negb (ToBoolean model)).
    + rewrite (bind_lift_normal _ _ _ _ Hset). now rewrite Hdown.
    + unfold bind, ret. now rewrite Hdown.
Qed.

Lemma proxy_upstream_failure_witness :
  handleGitHubProxy example_host (POST "/" (json_bytes "{'messages':[]}")) empty_env
  = (Normal (json (error_envelope (lit "fetch failed")) 500), empty_env).
Proof.
  apply (proxy_upstream_failure example_host (POST "/" (json_bytes "{'messages':[]}"))
           empty_env OtherError (lit "fetch failed")).
  - reflexivity.
  - vm_compute. exact I.
Defined.

(** X15. The proxy makes no answer of its own but the envelope of status
    500: every other response is the answer of the endpoint to what was
    sent, relayed with its status, its text and its content type. *)
Theorem proxy_relays_or_500 host req env resp env' :
  handleGitHubProxy host req env = (Normal resp, env') ->
  (exists sent gh,
      github host (GITHUB_MODELS_TOKEN env) sent = Normal gh /\ resp = relay gh)
  \/ exists error, resp = json (JObject [(k_ok, JBool false); (k_error, error)]) 500.
Proof.
  unfold handleGitHubProxy. run_handler; intros H; try discriminate H.
  all: injection H as <- <-.
  all: first [ right; eexists; reflexivity
             | left; eexists _, _; split; [eassumption|];
               unfold relay;
               match goal with E : up_content_type _ = _ |- _ => now rewrite E end ].
Qed.

Lemma proxy_relays_or_500_witness :
  (exists sent gh,
      github echo_host (GITHUB_MODELS_TOKEN empty_env) sent = Normal gh
      /\ relay {| up_status := 200; up_content_type := None;
                  up_text := json_text "{'model':'microsoft/phi-4-mini-instruct'}" |}
         = relay gh)
  \/ exists error,
       relay {| up_status := 200; up_content_type := None;
                up_text := json_text "{'model':'microsoft/phi-4-mini-instruct'}" |}
       = json (JObject [(k_ok, JBool false); (k_error, error)]) 500.
Proof.
  apply (proxy_relays_or_500 echo_host (POST "/" (json_bytes "{}")) empty_env _ empty_env).
  vm_compute. reflexivity.
Defined.

(* ===================================================================== *)
(** * The handlers of the reviews at the edges *)
(* ===================================================================== *)

(** X16. List never shows an empty collection. A stored array that holds
    records is returned as it is and nothing is written. The empty array
    is replaced by the seed: the seed is written and returned. *)
Theorem list_never_empty env elems :
  holds env (JArray elems) -> kv_put_fault (REVIEWS_DB env) = None ->
  exists v vs env',
    handleGetReviews env
    = (Normal (json (JObject [(k_ok, JBool true); (k_reviews, JArray (v :: vs))]) 200), env')
    /\ (elems = [] ->
        JArray (v :: vs) = js_of_reviews seed /\ env' = persist env (js_of_reviews seed))
    /\ (elems <> [] -> v :: vs = elems /\ env' = env).
Proof.
  intros Hget Hput. destruct elems as [| v vs].
  - unfold handleGetReviews.
    rewrite (getReviews_seeds seed env (JArray []) Hget Hput) by now right.
    unfold seed_response, js_of_reviews, seed. cbn [map].
    eexists _, _, _. split; [reflexivity|]. split; [intros _; split; reflexivity | easy].
  - exists v, vs, env. split; [now apply list_returns_stored|].
    split; [discriminate | easy].
Qed.

Lemma list_never_empty_witness :
  exists v vs,
    handleGetReviews (env_with (json_bytes "[]"))
    = (Normal (json (JObject [(k_ok, JBool true); (k_reviews, JArray (v :: vs))]) 200),
       persist (env_with (json_bytes "[]")) (js_of_reviews seed))
    /\ JArray (v :: vs) = js_of_reviews seed.
Proof.
  destruct (list_never_empty (env_with (json_bytes "[]")) []) as (v & vs & env' & E & H & _).
  - vm_compute. reflexivity.
  - reflexivity.
  - destruct (H eq_refl) as [Hseed ->]. exists v, vs. split; [exact E | exact Hseed].
Defined.

(** X17. A body that is not JSON, the empty body included, is answered 500
    and not 400: Append says [Server error], Delete gives the message of
    the error of the parser. The namespace is not read. *)
Theorem unparsable_body_is_a_server_error host req env t :
  JSON_parse (TextDecoder_decode (req_body req)) = Throw t ->
  handlePostReview host req env
  = (Normal (json (error_envelope (lit "Server error")) 500), env)
  /\ handleDeleteReview host req env
     = (Normal (json (error_envelope (message_of t)) 500), env).
Proof.
  intros Hbody. split.
  - unfold handlePostReview. erewrite try_catch_throw with (t := t); [reflexivity|].
    unfold Request_json. apply bind_lift_throw. exact Hbody.
  - unfold handleDeleteReview. erewrite try_catch_throw with (t := t); [reflexivity|].
    unfold Request_json. apply bind_lift_throw. exact Hbody.
Qed.

Lemma unparsable_body_is_a_server_error_witness :
  handlePostReview example_host (POST "/reviews" []) offline_env
  = (Normal (json (error_envelope (lit "Server error")) 500), offline_env)
  /\ handleDeleteReview example_host (POST "/reviews" []) offline_env
     = (Normal (json (error_envelope (lit "Unexpected token in JSON")) 500), offline_env).
Proof.
  apply (unparsable_body_is_a_server_error example_host (POST "/reviews" []) offline_env
           (ErrorObject SyntaxError (lit "Unexpected token in JSON"))).
  vm_compute. reflexivity.
Defined.

(** X18. A stored value that is truthy and not an array, as a JSON object
    is, is never repaired: Append and Delete answer 500 for every request
    they would accept, and leave the value where it is. *)
Theorem non_array_store_blocks_mutations host req env body nv stored :
  body_is req body -> Get body k_name = Normal nv -> ToBoolean nv = true ->
  holds env stored -> ToBoolean stored = true -> (forall elems, stored <> JArray elems) ->
  (forall tv, Get body k_text = Normal tv -> ToBoolean tv = true ->
     handlePostReview host req env
     = (Normal (json (error_envelope (lit "Server error")) 500), env))
  /\ exists message,
       handleDeleteReview host req env
       = (Normal (json (error_envelope message) 500), env).
Proof.
  intros Hbody Hn Tn Hget Ts Hshape.
  assert (Hor : or_else stored (JArray []) = stored) by (unfold or_else; now rewrite Ts).
  split.
  - intros tv Ht Tt.
    destruct (Get_defined body k_name nv k_rating Hn) as [rt Hr].
    rewrite (post_accepted host req env body nv tv rt) by assumption.
    rewrite try_catch_throw
      with (t := ErrorObject TypeError (lit "stored.unshift is not a function")) (env' := env);
      [reflexivity|].
    rewrite (bind_normal _ _ _ _ _ Hget). rewrite Hor.
    apply bind_lift_throw. destruct stored; try reflexivity. now destruct (Hshape elems).
  - exists (lit "reviews.filter is not a function"). unfold handleDeleteReview.
    rewrite try_catch_throw
      with (t := ErrorObject TypeError (lit "reviews.filter is not a function")) (env' := env);
      [reflexivity|].
    unfold Request_json. rewrite (bind_lift_normal _ _ _ _ Hbody).
    rewrite (bind_lift_normal _ _ _ _ Hn). rewrite Tn. cbn [negb].
    rewrite (bind_normal _ _ _ _ _ Hget). rewrite Hor.
    apply bind_lift_throw. destruct stored; try reflexivity. now destruct (Hshape elems).
Qed.

Lemma non_array_store_blocks_mutations_witness :
  (forall tv, Get jane_body k_text = Normal tv -> ToBoolean tv = true ->
     handlePostReview example_host jane_request object_env
     = (Normal (json (error_envelope (lit "Server error")) 500), object_env))
  /\ exists message,
       handleDeleteReview example_host jane_request object_env
       = (Normal (json (error_envelope message) 500), object_env).
Proof.
  apply (non_array_store_blocks_mutations example_host jane_request object_env jane_body
           (JString (lit "Jane Doe")) (JObject [(k_reviews, JArray [])])).
  - vm_compute. reflexivity.
  - reflexivity.
  - reflexivity.
  - vm_compute. reflexivity.
  - reflexivity.
  - discriminate.
Defined.

(** A record whose name cannot be lowercased stops the filter, whatever
    the query. *)
Lemma filter_elems_unreadable host nv rs :
  Exists (fun r => name_of r = None) rs ->
  exists t, filter_elems (name_differs host nv) rs = Throw t.
Proof.
  induction 1 as [r rest Hr | r rest _ IH]; cbn [filter_elems].
  - assert (Hthrow : exists t, name_differs host nv r = Throw t).
    { unfold name_differs. unfold name_of in Hr.
      destruct (Get r k_name) as [v | t]; [|eauto].
      destruct v; try discriminate Hr; cbn; eauto. }
    destruct Hthrow as [t ->]. eauto.
  - destruct IH as [t ->]. destruct (name_differs host nv r); eauto.
Qed.

(** Delete of a collection with a name that cannot be lowercased. *)
Lemma delete_blocked host req env body nv rs :
  body_is req body -> Get body k_name = Normal nv -> ToBoolean nv = true ->
  holds env (JArray rs) -> Exists (fun r => name_of r = None) rs ->
  exists message,
    handleDeleteReview host req env = (Normal (json (error_envelope message) 500), env).
Proof.
  intros Hbody Hn Tn Hget Hbad.
  destruct (filter_elems_unreadable host nv rs Hbad) as [t Ht].
  exists (message_of t). unfold handleDeleteReview.
  rewrite try_catch_throw with (t := t) (env' := env); [reflexivity|].
  unfold Request_json. rewrite (bind_lift_normal _ _ _ _ Hbody).
  rewrite (bind_lift_normal _ _ _ _ Hn). rewrite Tn. cbn [negb].
  rewrite (bind_normal _ _ _ _ _ Hget).
  apply bind_lift_throw. cbn [or_else ToBoolean Array_filter]. now rewrite Ht.
Qed.

(** X19. One stored record whose name is neither a string nor missing, or
    that is [null], blocks Delete: every request with a name is answered
    500, whatever the name, and nothing is removed. *)
Theorem unreadable_name_blocks_delete host req env body nv rs :
  body_is req body -> Get body k_name = Normal nv -> ToBoolean nv = true ->
  holds env (JArray rs) -> Exists (fun r => name_of r = None) rs ->
  exists message,
    handleDeleteReview host req env = (Normal (json (error_envelope message) 500), env).
Proof. exact (delete_blocked host req env body nv rs). Qed.

Lemma unreadable_name_blocks_delete_witness :
  exists message,
    handleDeleteReview example_host (delete_request "Jane")
      (env_with (json_bytes "[{'name':'Jane','text':'a'},{'name':7,'text':'b'}]"))
    = (Normal (json (error_envelope message) 500),
       env_with (json_bytes "[{'name':'Jane','text':'a'},{'name':7,'text':'b'}]")).
Proof.
  apply (unreadable_name_blocks_delete example_host (delete_request "Jane") _
           (JObject [(k_name, JString (lit "Jane"))]) (JString (lit "Jane"))
           [JObject [(k_name, JString (lit "Jane")); (k_text, JString (lit "a"))];
            JObject [(k_name, JNumber (Number_of_Z 7)); (k_text, JString (lit "b"))]]).
  - vm_compute. reflexivity.
  - reflexivity.
  - reflexivity.
  - vm_compute. reflexivity.
  - apply Exists_cons_tl, Exists_cons_hd. reflexivity.
Defined.

(** ** Delete and Append on reviews, through the namespace *)

Lemma name_of_js_of_Review r : name_of (js_of_Review r) = Some (Some (name r)).
Proof. unfold name_of, js_of_Review. cbn [Get lookup_prop List.app]. now rewrite jsstring_eqb_refl. Qed.

Lemma name_of_reread r : name_of (reread r) = Some (Some (name r)).
Proof. unfold name_of, reread. cbn [Get lookup_prop List.app]. now rewrite jsstring_eqb_refl. Qed.

Lemma survivors_named host q (shape : Review -> JsValue) rs :
  (forall r, name_of (shape r) = Some (Some (name r))) ->
  survivors host q (map shape rs) = map shape (filter (keeps host q) rs).
Proof.
  intros Hshape. unfold survivors.
  induction rs as [| r rs IH]; cbn [map filter List.filter]; [reflexivity|].
  unfold matches at 1, keeps at 1. rewrite Hshape.
  destruct (jsstring_eqb _ _); cbn [negb map]; now rewrite IH.
Qed.

Lemma well_named_shape (shape : Review -> JsValue) rs :
  (forall r, name_of (shape r) = Some (Some (name r))) ->
  Forall well_named (map shape rs).
Proof.
  intros Hshape. apply Forall_forall. intros v Hv. apply in_map_iff in Hv.
  destruct Hv as (r & <- & _). unfold well_named. now rewrite Hshape.
Qed.

Lemma filter_keeps_length host q rs :
  Exists (fun r => keeps host q r = false) rs ->
  (length (filter (keeps host q) rs) < length rs)%nat.
Proof.
  induction 1 as [r rest Hr | r rest _ IH]; cbn [filter length].
  - rewrite Hr. pose proof (filter_length (keeps host q) rest) as H. cbn in H. lia.
  - destruct (keeps host q r); cbn [length]; [lia|].
    pose proof (filter_length (keeps host q) rest) as H. cbn in H. lia.
Qed.

Lemma filter_keeps_idempotent host q rs :
  filter (keeps host q) (filter (keeps host q) rs) = filter (keeps host q) rs.
Proof.
  induction rs as [| r rs IH]; cbn [filter]; [reflexivity|].
  destruct (keeps host q r) eqn:E; cbn [filter]; [rewrite E|]; now rewrite IH.
Qed.

Lemma Forall_valid_filter (keep : Review -> bool) rs :
  Forall valid_review rs -> Forall valid_review (filter keep rs).
Proof.
  intros H. apply Forall_forall. intros r Hr. apply filter_In in Hr.
  rewrite Forall_forall in H. now apply H.
Qed.

(** Delete on a collection of reviews that the namespace holds, as written
    ([js_of_Review]) or as read back ([reread]). *)
Lemma delete_reviews host req env body q (shape : Review -> JsValue) rs :
  (forall r, name_of (shape r) = Some (Some (name r))) ->
  body_is req body -> Get body k_name = Normal (JString q) -> q <> [] ->
  holds env (JArray (map shape rs)) -> kv_put_fault (REVIEWS_DB env) = None ->
  let kept := filter (keeps host q) rs in
  (length kept = length rs ->
   handleDeleteReview host req env = (Normal (not_found_response q), env))
  /\ (length kept <> length rs ->
      handleDeleteReview host req env
      = (Normal (deleted_response (length rs - length kept) q),
         persist env (JArray (map shape kept)))).
Proof.
  intros Hshape Hbody Hn Nq Hget Hput kept.
  destruct (delete_outcome host req env body q (JArray (map shape rs)) (map shape rs))
    as (Hsame & Hless & _); try assumption; try reflexivity.
  { now apply well_named_shape. }
  rewrite (survivors_named host q shape rs Hshape) in Hsame, Hless.
  rewrite !length_map in Hsame, Hless. fold kept in Hsame, Hless.
  split; [exact Hsame | intros H; now apply Hless].
Qed.

(** X20. Delete is not repeated: when a Delete has removed the reviews a
    name matches, the same request made again is answered 404 and writes
    nothing. *)
Theorem delete_twice host req env body q rs :
  body_is req body -> Get body k_name = Normal (JString q) -> q <> [] ->
  healthy env -> holds env (js_of_reviews rs) -> Forall valid_review rs ->
  Exists (fun r => keeps host q r = false) rs ->
  let kept := filter (keeps host q) rs in
  let env1 := persist env (js_of_reviews kept) in
  handleDeleteReview host req env
  = (Normal (deleted_response (length rs - length kept) q), env1)
  /\ handleDeleteReview host req env1 = (Normal (not_found_response q), env1).
Proof.
  intros Hbody Hn Nq Hhealthy Hget Hvalid Hmatch kept env1.
  pose proof (filter_keeps_length host q rs Hmatch) as Hless. fold kept in Hless.
  split.
  - destruct (delete_reviews host req env body q js_of_Review rs) as [_ H];
      try assumption; [apply name_of_js_of_Review | apply Hhealthy |].
    apply H. fold kept. lia.
  - destruct (delete_reviews host req env1 body q reread kept) as [H _];
      try assumption; [apply name_of_reread | | apply Hhealthy |].
    + apply persist_holds; [now apply Forall_valid_filter | exact Hhealthy].
    + apply H. unfold kept. now rewrite filter_keeps_idempotent.
Qed.

Lemma delete_twice_witness :
  let env1 := persist seeded_env (js_of_reviews (filter (keeps example_host (lit "jennifer d.")) seed)) in
  handleDeleteReview example_host (delete_request "jennifer d.") seeded_env
  = (Normal (deleted_response
               (length seed - length (filter (keeps example_host (lit "jennifer d.")) seed))
               (lit "jennifer d.")), env1)
  /\ handleDeleteReview example_host (delete_request "jennifer d.") env1
     = (Normal (not_found_response (lit "jennifer d.")), env1).
Proof.
  apply (delete_twice example_host (delete_request "jennifer d.") seeded_env
           (JObject [(k_name, JString (lit "jennifer d."))]) (lit "jennifer d.") seed).
  - vm_compute. reflexivity.
  - reflexivity.
  - vm_compute. discriminate.
  - split; reflexivity.
  - apply seeded_holds.
  - repeat apply Forall_cons; try apply Forall_nil;
      (repeat split; try exact I; apply is_jsstringb_spec; vm_compute; reflexivity).
  - apply Exists_cons_hd. vm_compute. reflexivity.
Defined.

(** X21. The collection cannot be emptied for good: when a Delete removes
    every review the namespace holds, it writes the empty array, and the
    next List writes the seed over it and returns the seed. *)
Theorem delete_all_then_list_reseeds host req env body q rs :
  body_is req body -> Get body k_name = Normal (JString q) -> q <> [] ->
  healthy env -> holds env (js_of_reviews rs) -> rs <> [] ->
  Forall (fun r => keeps host q r = false) rs ->
  let env1 := persist env (JArray []) in
  handleDeleteReview host req env = (Normal (deleted_response (length rs) q), env1)
  /\ handleGetReviews env1
     = (Normal (seed_response seed), persist env1 (js_of_reviews seed)).
Proof.
  intros Hbody Hn Nq Hhealthy Hget Hrs Hall env1.
  assert (Hkept : filter (keeps host q) rs = []).
  { clear - Hall. induction Hall as [| r rest Hr _ IH]; cbn [filter]; [reflexivity|].
    now rewrite Hr. }
  split.
  - destruct (delete_reviews host req env body q js_of_Review rs) as [_ H];
      try assumption; [apply name_of_js_of_Review | apply Hhealthy |].
    rewrite Hkept in H. cbn [length map] in H. rewrite Nat.sub_0_r in H.
    apply H. destruct rs; [contradiction | discriminate].
  - apply getReviews_seeds with (JArray []); [| apply Hhealthy | now right].
    apply (persist_holds env [] (Forall_nil _) Hhealthy).
Qed.

Lemma delete_all_then_list_reseeds_witness :
  let env0 := persist empty_env (js_of_reviews [jane_review]) in
  let env1 := persist env0 (JArray []) in
  handleDeleteReview example_host (delete_request "JANE DOE") env0
  = (Normal (deleted_response (length [jane_review]) (lit "JANE DOE")), env1)
  /\ handleGetReviews env1
     = (Normal (seed_response seed), persist env1 (js_of_reviews seed)).
Proof.
  apply (delete_all_then_list_reseeds example_host (delete_request "JANE DOE")
           (persist empty_env (js_of_reviews [jane_review]))
           (JObject [(k_name, JString (lit "JANE DOE"))]) (lit "JANE DOE") [jane_review]).
  - vm_compute. reflexivity.
  - reflexivity.
  - vm_compute. discriminate.
  - split; reflexivity.
  - vm_compute. reflexivity.
  - discriminate.
  - apply Forall_cons; [vm_compute; reflexivity | apply Forall_nil].
Defined.

(** X23. Append, then Delete by the name that was appended: the record
    that was created is removed, with every review of that name and no
    other, and the answer is 200 with their number. *)
Theorem append_then_delete host req del env body dbody n t rt x stored rs :
  body_is req body ->
  Get body k_name = Normal (JString n) -> n <> [] -> is_jsstring n ->
  Get body k_text = Normal (JString t) -> t <> [] -> is_jsstring t ->
  Get body k_rating = Normal rt -> nullish rt (JNumber five) = JNumber x ->
  holds env stored -> collection_of stored = Some (map js_of_Review rs) ->
  Forall valid_review rs -> healthy env ->
  body_is del dbody -> Get dbody k_name = Normal (JString n) ->
  let r := {| name := n; text := t; rating := x;
              date := Some (Date_toISOString (now host)) |} in
  let env1 := persist env (js_of_reviews (r :: rs)) in
  let kept := filter (keeps host n) rs in
  snd (handlePostReview host req env) = env1
  /\ handleDeleteReview host del env1
     = (Normal (deleted_response (S (length rs) - length kept) n),
        persist env1 (JArray (map reread kept))).
Proof.
  intros Hbody Hn Nn Sn Ht Nt St Hr Hx Hget Hold Hvalid Hhealthy Hdel Hdn r env1 kept.
  destruct (post_then_list host req env body n t rt x stored rs) as [Hpost _];
    try assumption.
  fold r env1 in Hpost. split; [now rewrite Hpost|].
  assert (Hr_valid : Forall valid_review (r :: rs)).
  { apply Forall_cons; [|exact Hvalid].
    repeat split; try assumption. apply Date_toISOString_jsstring. }
  assert (Hgone : filter (keeps host n) (r :: rs) = kept).
  { cbn [filter]. unfold keeps at 1. cbn [name r]. now rewrite jsstring_eqb_refl. }
  destruct (delete_reviews host del env1 dbody n reread (r :: rs)) as [_ H];
    try assumption; [apply name_of_reread | | apply Hhealthy |].
  - apply (persist_holds env (r :: rs) Hr_valid Hhealthy).
  - rewrite Hgone in H. apply H. cbn [length].
    pose proof (filter_length (keeps host n) rs) as Hle. fold kept in Hle. cbn in Hle. lia.
Qed.

Lemma append_then_delete_witness :
  let env1 := persist seeded_env (js_of_reviews (jane_review :: seed)) in
  snd (handlePostReview example_host jane_request seeded_env) = env1
  /\ handleDeleteReview example_host (delete_request "Jane Doe") env1
     = (Normal (deleted_response
                  (S (length seed) - length (filter (keeps example_host (lit "Jane Doe")) seed))
                  (lit "Jane Doe")),
        persist env1 (JArray (map reread (filter (keeps example_host (lit "Jane Doe")) seed)))).
Proof.
  apply (append_then_delete example_host jane_request (delete_request "Jane Doe") seeded_env
           jane_body (JObject [(k_name, JString (lit "Jane Doe"))])
           (lit "Jane Doe") (lit "Loved it! 😊") (JNumber (Number_of_Z 4)) (Number_of_Z 4)
           (js_of_reviews seed) seed).
  - vm_compute. reflexivity.
  - reflexivity.
  - vm_compute. discriminate.
  - apply is_jsstringb_spec. vm_compute. reflexivity.
  - reflexivity.
  - vm_compute. discriminate.
  - apply is_jsstringb_spec. vm_compute. reflexivity.
  - reflexivity.
  - reflexivity.
  - apply seeded_holds.
  - reflexivity.
  - repeat apply Forall_cons; try apply Forall_nil;
      (repeat split; try exact I; apply is_jsstringb_spec; vm_compute; reflexivity).
  - split; reflexivity.
  - vm_compute. reflexivity.
  - reflexivity.
Defined.

(** X24. The List of [src/handlers/reviewsHandler.ts] seeds as the one of
    [src/worker.ts] does, with its own three records: the same names and
    ratings, no date, and the texts cut short. An absent or empty
    collection is seeded once, and the next List returns the same and
    writes nothing. *)
Theorem modular_list_seeds_once env stored :
  healthy env -> holds env stored ->
  ToBoolean stored = false \/ stored = JArray [] ->
  let env1 := persist env (js_of_reviews seed_short) in
  Modular.handleGetReviews env = (Normal (seed_response seed_short), env1)
  /\ Modular.handleGetReviews env1 = (Normal (seed_response seed_short), env1)
  /\ map name seed_short = map name seed
  /\ map rating seed_short = map rating seed
  /\ map date seed_short = map date seed
  /\ Forall2 (fun short full =>
                exists cut, (cut < length full)%nat
                            /\ short = firstn cut full ++ lit "...")
       (map text seed_short) (map text seed).
Proof.
  intros Hhealthy Hget Hempty env1.
  destruct (getReviews_twice seed_short env stored seed_short_reads_back eq_refl
              Hhealthy Hget Hempty) as [H1 H2].
  split; [exact H1|]. split; [exact H2|].
  split; [vm_compute; reflexivity|].
  split; [vm_compute; reflexivity|]. split; [vm_compute; reflexivity|].
  repeat apply Forall2_cons; try apply Forall2_nil.
  - exists 56%nat. vm_compute. split; [lia | reflexivity].
  - exists 54%nat. vm_compute. split; [lia | reflexivity].
  - exists 57%nat. vm_compute. split; [lia | reflexivity].
Qed.

Lemma modular_list_seeds_once_witness :
  let env1 := persist empty_env (js_of_reviews seed_short) in
  Modular.handleGetReviews empty_env = (Normal (seed_response seed_short), env1)
  /\ Modular.handleGetReviews env1 = (Normal (seed_response seed_short), env1)
  /\ map name seed_short = map name seed
  /\ map rating seed_short = map rating seed
  /\ map date seed_short = map date seed
  /\ Forall2 (fun short full =>
                exists cut, (cut < length full)%nat
                            /\ short = firstn cut full ++ lit "...")
       (map text seed_short) (map text seed).
Proof.
  apply (modular_list_seeds_once empty_env JNull).
  - split; reflexivity.
  - vm_compute. reflexivity.
  - left. reflexivity.
Defined.

(* ===================================================================== *)
(** * What is written is read back: every value *)
(* ===================================================================== *)

(** Induction on a value with its elements and the values of its
    properties. *)
Lemma JsValue_nested_ind (P : JsValue -> Prop) :
  P JUndefined -> P JNull -> (forall b, P (JBool b)) -> (forall x, P (JNumber x)) ->
  (forall s, P (JString s)) ->
  (forall elems, Forall P elems -> P (JArray elems)) ->
  (forall props, Forall (fun kv => P (snd kv)) props -> P (JObject props)) ->
  forall v, P v.
Proof.
  intros Hu Hn Hb Hx Hs Ha Ho.
  fix IH 1. intros [| | b | x | s | elems | props].
  - exact Hu.
  - exact Hn.
  - apply Hb.
  - apply Hx.
  - apply Hs.
  - apply Ha. induction elems as [| e rest IHl]; constructor; [apply IH | exact IHl].
  - apply Ho. induction props as [| [k e] rest IHl]; constructor; [apply IH | exact IHl].
Qed.

(** More fuel does not change what the parser makes of a text, once it had
    enough. *)
Lemma parse_more_fuel f :
  (forall s f', (f <= f')%nat -> parse_value f s <> OutOfFuel ->
                parse_value f' s = parse_value f s)
  /\ (forall s f', (f <= f')%nat -> parse_elements f s <> OutOfFuel ->
                   parse_elements f' s = parse_elements f s)
  /\ (forall s f', (f <= f')%nat -> parse_members f s <> OutOfFuel ->
                   parse_members f' s = parse_members f s).
Proof.
  induction f as [| f (IHv & IHe & IHm)]; [repeat split; intros s f' _ H; now destruct H|].
  repeat split; intros s [| f'] Hle H; try lia; apply le_S_n in Hle.
  - rewrite (parse_value_S f) in H |- *. rewrite (parse_value_S f').
    destruct (skip_ws s) as [| c r0]; [reflexivity|].
    destruct (c =? ch "{").
    { destruct (skip_ws r0) as [| c1 r1]; [reflexivity|].
      destruct (c1 =? ch "}"); [reflexivity|].
      rewrite (IHm (c1 :: r1) f' Hle); [reflexivity|].
      intros E. rewrite E in H. now apply H. }
    destruct (c =? ch "[").
    { destruct (skip_ws r0) as [| c1 r1]; [reflexivity|].
      destruct (c1 =? ch "]"); [reflexivity|].
      rewrite (IHe (c1 :: r1) f' Hle); [reflexivity|].
      intros E. rewrite E in H. now apply H. }
    reflexivity.
  - rewrite (parse_elements_S f) in H |- *. rewrite (parse_elements_S f').
    assert (Hv : parse_value f s <> OutOfFuel).
    { intros E. rewrite E in H. now apply H. }
    rewrite (IHv s f' Hle Hv).
    destruct (parse_value f s) as [v r0 | |]; try reflexivity.
    destruct (skip_ws r0) as [| c r1]; [reflexivity|].
    destruct (c =? ch ","); [|reflexivity].
    rewrite (IHe r1 f' Hle); [reflexivity|].
    intros E. rewrite E in H. now apply H.
  - rewrite (parse_members_S f) in H |- *. rewrite (parse_members_S f').
    destruct (skip_ws s) as [| q r0]; [reflexivity|].
    destruct (q =? 0x22); [|reflexivity].
    destruct (parse_string_chars r0) as [[k r1] |]; [|reflexivity].
    destruct (skip_ws r1) as [| c r2]; [reflexivity|].
    destruct (c =? ch ":"); [|reflexivity].
    assert (Hv : parse_value f r2 <> OutOfFuel).
    { intros E. rewrite E in H. now apply H. }
    rewrite (IHv r2 f' Hle Hv).
    destruct (parse_value f r2) as [v r3 | |]; try reflexivity.
    destruct (skip_ws r3) as [| c' r4]; [reflexivity|].
    destruct (c' =? ch ","); [|reflexivity].
    rewrite (IHm r4 f' Hle); [reflexivity|].
    intros E. rewrite E in H. now apply H.
Qed.

(** ** The text of a value *)

Lemma written_array elems :
  written (JArray elems) = [ch "["] ++ join [ch ","] (map written elems) ++ [ch "]"].
Proof. reflexivity. Qed.

Lemma written_number x : written (JNumber x) = number_text x.
Proof. reflexivity. Qed.

Lemma written_string s : written (JString s) = QuoteJSONString s.
Proof. reflexivity. Qed.

Lemma serialize_written v :
  v <> JUndefined -> SerializeJSONProperty v = Some (written v).
Proof. unfold written. destruct v as [| | [] | | | |]; try reflexivity. now intros []. Qed.

(** The properties of an object that are written: those that are not
    [undefined]. *)
Lemma written_members props :
  exists ms,
    Forall (fun kv => In kv props /\ snd kv <> JUndefined) ms
    /\ written (JObject props)
       = [ch "{"]
         ++ join [ch ","] (map (fun kv => member_text (fst kv) (written (snd kv))) ms)
         ++ [ch "}"]
    /\ reread_value (JObject props)
       = object_of_members (map (fun kv => (fst kv, reread_value (snd kv))) ms).
Proof.
  unfold written at 1. cbn [SerializeJSONProperty reread_value].
  enough (H : exists ms,
             Forall (fun kv => In kv props /\ snd kv <> JUndefined) ms
             /\ flat_map (fun kv => match SerializeJSONProperty (snd kv) with
                                    | Some t => [QuoteJSONString (fst kv) ++ [ch ":"] ++ t]
                                    | None => []
                                    end) props
                = map (fun kv => member_text (fst kv) (written (snd kv))) ms
             /\ flat_map (fun kv => match snd kv with
                                    | JUndefined => []
                                    | _ => [(fst kv, reread_value (snd kv))]
                                    end) props
                = map (fun kv => (fst kv, reread_value (snd kv))) ms).
  { destruct H as (ms & Hms & -> & ->). exists ms. now repeat split. }
  induction props as [| [k v] rest (ms & Hms & E1 & E2)].
  - exists []. repeat split. constructor.
  - assert (Hrest : Forall (fun kv => In kv ((k, v) :: rest) /\ snd kv <> JUndefined) ms).
    { eapply Forall_impl; [|exact Hms]. intros kv [Hin Hv]. split; [now right | exact Hv]. }
    cbn [flat_map fst snd]. rewrite E1, E2.
    destruct v;
      try match goal with
          | |- context [(k, reread_value ?w)] =>
              exists ((k, w) :: ms); rewrite (serialize_written w) by discriminate;
              split; [constructor; [split; [now left | discriminate] | exact Hrest]
                     | split; reflexivity]
          end.
    exists ms. split; [exact Hrest | split; reflexivity].
Qed.

Lemma lit_null : lit "null" = [110; 117; 108; 108].
Proof. reflexivity. Qed.

Lemma lit_true : lit "true" = [116; 114; 117; 101].
Proof. reflexivity. Qed.

Lemma lit_false : lit "false" = [102; 97; 108; 115; 101].
Proof. reflexivity. Qed.

(** A text begins with an ASCII character that is not white space and
    closes nothing. *)
Lemma written_head v :
  exists c t,
    written v = c :: t /\ 0 <= c < 128 /\ is_ws c = false
    /\ (c =? ch "]") = false /\ (c =? ch "}") = false.
Proof.
  destruct v as [| | [] | x | s | elems | props].
  - exists 110, [117; 108; 108]. now repeat split.
  - exists 110, [117; 108; 108]. now repeat split.
  - exists 116, [114; 117; 101]. now repeat split.
  - exists 102, [97; 108; 115; 101]. now repeat split.
  - rewrite written_number. unfold number_text.
    destruct (is_finite x) eqn:Hx.
    + destruct (Number_toString_token x Hx) as (_ & c & t & -> & Hc & _).
      exists c, t. split; [reflexivity|].
      destruct Hc as [-> | Hc]; [now repeat split|].
      unfold is_digit in Hc. apply andb_true_iff in Hc. rewrite !Z.leb_le in Hc.
      unfold is_ws, ch. cbn. repeat split; try lia; bool_lia.
    + exists 110, [117; 108; 108]. now repeat split.
  - rewrite written_string. unfold QuoteJSONString. eexists _, _. now repeat split.
  - rewrite written_array. eexists _, _. now repeat split.
  - destruct (written_members props) as (ms & _ & -> & _). eexists _, _. now repeat split.
Qed.

Lemma delimited_bracket rest : delimited (ch "]" :: rest).
Proof. cbv. repeat split; congruence. Qed.

(** ** Reading the text of a value *)

Lemma parse_value_null f rest : parse_value (S f) (lit "null" ++ rest) = Parsed JNull rest.
Proof. rewrite parse_value_S, lit_null. reflexivity. Qed.

Lemma parse_value_true f rest :
  parse_value (S f) (lit "true" ++ rest) = Parsed (JBool true) rest.
Proof. rewrite parse_value_S, lit_true. reflexivity. Qed.

Lemma parse_value_false f rest :
  parse_value (S f) (lit "false" ++ rest) = Parsed (JBool false) rest.
Proof. rewrite parse_value_S, lit_false. reflexivity. Qed.

Lemma parse_value_array f c t :
  is_ws c = false -> (c =? ch "]") = false ->
  parse_value (S f) (ch "[" :: c :: t)
  = match parse_elements f (c :: t) with
    | Parsed vs r => Parsed (JArray vs) r
    | SyntaxErr => SyntaxErr
    | OutOfFuel => OutOfFuel
    end.
Proof.
  intros Hws Hc. rewrite parse_value_S.
  rewrite skip_ws_other by reflexivity.
  change (ch "[" =? ch "{") with false. change (ch "[" =? ch "[") with true. cbv iota.
  rewrite (skip_ws_other c t Hws). now rewrite Hc.
Qed.

Lemma parse_elements_written elems rest :
  elems <> [] -> Forall reads_back elems ->
  exists G0, forall G, (G0 <= G)%nat ->
    parse_elements G (join [ch ","] (map written elems) ++ ch "]" :: rest)
    = Parsed (map reread_value elems) rest.
Proof.
  intros Hne Hall. induction Hall as [| e es He _ IH]; [contradiction|]. clear Hne.
  destruct es as [| e' es].
  - destruct (He (ch "]" :: rest) (delimited_bracket rest)) as [F0 HF0].
    exists (S F0). intros [| G] HG; [lia|]. apply le_S_n in HG.
    cbn [map join]. rewrite parse_elements_S, (HF0 G HG).
    rewrite skip_ws_other by reflexivity. reflexivity.
  - destruct (IH ltac:(discriminate)) as [G0 HG0].
    set (tail := join [ch ","] (map written (e' :: es)) ++ ch "]" :: rest) in *.
    destruct (He (ch "," :: tail) (delimited_comma tail)) as [F0 HF0].
    exists (S (Nat.max F0 G0)). intros [| G] HG; [lia|]. apply le_S_n in HG.
    change (map written (e :: e' :: es)) with (written e :: map written (e' :: es)).
    assert (Etext : join [ch ","] (written e :: map written (e' :: es)) ++ ch "]" :: rest
                    = written e ++ ch "," :: tail).
    { unfold tail. cbn [map join]. now rewrite <- !app_assoc. }
    rewrite Etext, parse_elements_S, (HF0 G) by lia.
    rewrite skip_ws_other by reflexivity. change (ch "," =? ch ",") with true. cbv iota.
    rewrite (HG0 G) by lia. reflexivity.
Qed.

Lemma parse_members_written ms rest :
  ms <> [] -> Forall (fun kv => is_jsstring (fst kv) /\ reads_back (snd kv)) ms ->
  exists G0, forall G, (G0 <= G)%nat ->
    parse_members G
      (join [ch ","] (map (fun kv => member_text (fst kv) (written (snd kv))) ms)
       ++ ch "}" :: rest)
    = Parsed (map (fun kv => (fst kv, reread_value (snd kv))) ms) rest.
Proof.
  intros Hne Hall. induction Hall as [| [k v] ms [Hk Hv] _ IH]; [contradiction|]. clear Hne.
  cbn [fst snd] in Hk, Hv.
  destruct ms as [| kv' ms].
  - destruct (Hv (ch "}" :: rest) (delimited_brace rest)) as [F0 HF0].
    exists (S F0). intros [| G] HG; [lia|]. apply le_S_n in HG.
    cbn [map join fst snd].
    rewrite (parse_members_member G k (written v) (reread_value v) (ch "}") rest Hk
               (HF0 G HG) eq_refl).
    reflexivity.
  - destruct (IH ltac:(discriminate)) as [G0 HG0].
    set (texts := map (fun kv => member_text (fst kv) (written (snd kv))) (kv' :: ms)) in *.
    set (tail := join [ch ","] texts ++ ch "}" :: rest) in *.
    destruct (Hv (ch "," :: tail) (delimited_comma tail)) as [F0 HF0].
    exists (S (Nat.max F0 G0)). intros [| G] HG; [lia|]. apply le_S_n in HG.
    assert (Etext : join [ch ","]
                      (map (fun kv => member_text (fst kv) (written (snd kv)))
                         ((k, v) :: kv' :: ms)) ++ ch "}" :: rest
                    = member_text k (written v) ++ ch "," :: tail).
    { unfold tail, texts. cbn [map join fst snd]. now rewrite <- !app_assoc. }
    rewrite Etext.
    rewrite (parse_members_member G k (written v) (reread_value v) (ch ",") tail Hk)
      by (try reflexivity; apply HF0; lia).
    change (ch "," =? ch ",") with true. cbv iota.
    rewrite (HG0 G) by lia. reflexivity.
Qed.

Lemma storable_elems elems :
  forallb storable elems = true -> Forall (fun e => storable e = true) elems.
Proof. intros H. apply Forall_forall. intros e He. rewrite forallb_forall in H. now apply H. Qed.

(** Every value whose strings are strings of JavaScript is read back from
    the text it wrote. *)
Lemma parse_value_written v : storable v = true -> reads_back v.
Proof.
  induction v as [| | b | x | s | elems IH | props IH] using JsValue_nested_ind;
    intros Hv rest Hrest.
  - exists 1%nat. intros [| F] HF; [lia|]. apply parse_value_null.
  - exists 1%nat. intros [| F] HF; [lia|]. apply parse_value_null.
  - exists 1%nat. intros [| F] HF; [lia|].
    destruct b; [apply parse_value_true | apply parse_value_false].
  - exists 1%nat. intros [| F] HF; [lia|]. rewrite written_number.
    now apply parse_value_number.
  - exists 1%nat. intros [| F] HF; [lia|]. rewrite written_string.
    apply parse_value_string. apply is_jsstringb_spec. exact Hv.
  - cbn [storable] in Hv. apply storable_elems in Hv.
    assert (Hall : Forall reads_back elems).
    { clear rest Hrest. induction IH as [| e es He _ IHes]; constructor.
      - apply He. now inversion Hv.
      - apply IHes. now inversion Hv. }
    destruct elems as [| e es].
    + exists 1%nat. intros [| F] HF; [lia|]. rewrite parse_value_S. reflexivity.
    + destruct (parse_elements_written (e :: es) rest ltac:(discriminate) Hall) as [G0 HG0].
      exists (S G0). intros [| F] HF; [lia|]. apply le_S_n in HF.
      rewrite written_array. cbn [reread_value].
      destruct (written_head e) as (c & t & Hhead & _ & Hws & Hc & _).
      assert (Etext : ([ch "["] ++ join [ch ","] (map written (e :: es)) ++ [ch "]"]) ++ rest
                      = ch "[" :: (join [ch ","] (map written (e :: es)) ++ ch "]" :: rest)).
      { cbn [List.app]. now rewrite <- app_assoc. }
      rewrite Etext.
      assert (Ehead : exists t', join [ch ","] (map written (e :: es)) ++ ch "]" :: rest
                                 = c :: t').
      { cbn [map]. destruct (map written es); cbn [join]; rewrite Hhead; eexists; reflexivity. }
      destruct Ehead as [t' Et']. specialize (HG0 F HF). rewrite Et' in HG0 |- *.
      rewrite (parse_value_array F c t' Hws Hc), HG0. reflexivity.
  - destruct (written_members props) as (ms & Hms & Etext & Eread).
    assert (Hall : Forall (fun kv => is_jsstring (fst kv) /\ reads_back (snd kv)) ms).
    { cbn [storable] in Hv. rewrite forallb_forall in Hv. rewrite Forall_forall in IH, Hms.
      apply Forall_forall. intros kv Hkv. destruct (Hms kv Hkv) as [Hin _].
      specialize (Hv kv Hin). apply andb_true_iff in Hv. destruct Hv as [Hk Hs].
      split; [now apply is_jsstringb_spec | now apply IH]. }
    rewrite Eread. unfold reads_back in *. rewrite Etext.
    destruct ms as [| [k v] ms].
    + exists 1%nat. intros [| F] HF; [lia|]. rewrite parse_value_S. reflexivity.
    + destruct (parse_members_written ((k, v) :: ms) rest ltac:(discriminate) Hall)
        as [G0 HG0].
      exists (S G0). intros [| F] HF; [lia|]. apply le_S_n in HF.
      specialize (HG0 F HF).
      assert (Ehead : exists s,
                 join [ch ","] (map (fun kv => member_text (fst kv) (written (snd kv)))
                                  ((k, v) :: ms)) ++ ch "}" :: rest
                 = member_text k (written v) ++ s).
      { cbn [map fst snd]. destruct (map _ ms); cbn [join];
          rewrite <- ?app_assoc; eexists; reflexivity. }
      destruct Ehead as [s Es]. rewrite Es in HG0.
      assert (Eall : ([ch "{"] ++ join [ch ","]
                                   (map (fun kv => member_text (fst kv) (written (snd kv)))
                                      ((k, v) :: ms)) ++ [ch "}"]) ++ rest
                     = ch "{" :: member_text k (written v) ++ s).
      { rewrite <- Es. cbn [List.app]. now rewrite <- app_assoc. }
      rewrite Eall, parse_value_object, HG0. reflexivity.
Qed.

(** [JSON.parse] of what [JSON.stringify] wrote. *)
Lemma JSON_parse_written v text :
  storable v = true -> JSON_stringify v = Some text ->
  JSON_parse text = Normal (reread_value v).
Proof.
  intros Hv Htext.
  assert (Hw : written v = text) by (unfold written, JSON_stringify in *; now rewrite Htext).
  destruct (parse_value_written v Hv [] I) as [F0 HF0].
  rewrite Hw, app_nil_r in HF0.
  destruct (parse_fuel_suffices (parse_fuel text)) as (Hv1 & _ & _).
  specialize (Hv1 text ltac:(unfold parse_fuel; lia)).
  destruct (parse_more_fuel (parse_fuel text)) as (Hmore & _ & _).
  specialize (Hmore text (Nat.max F0 (parse_fuel text)) ltac:(lia) Hv1).
  rewrite HF0 in Hmore by lia.
  unfold JSON_parse, parse_text. now rewrite <- Hmore.
Qed.

Lemma well_formed_one c : 0 <= c < 128 -> well_formed [c].
Proof. intros H. apply wf_unit; [lia | lia | constructor]. Qed.

(** The text of a value has no lone surrogate. *)
Lemma written_well_formed v : storable v = true -> well_formed (written v).
Proof.
  induction v as [| | b | x | s | elems IH | props IH] using JsValue_nested_ind; intros Hv.
  - change (written JUndefined) with (lit "null"). rewrite lit_null.
    apply well_formed_ascii. repeat constructor; lia.
  - change (written JNull) with (lit "null"). rewrite lit_null.
    apply well_formed_ascii. repeat constructor; lia.
  - apply well_formed_ascii. destruct b.
    + change (written (JBool true)) with (lit "true"). rewrite lit_true.
      repeat constructor; lia.
    + change (written (JBool false)) with (lit "false"). rewrite lit_false.
      repeat constructor; lia.
  - rewrite written_number. apply well_formed_ascii, number_text_ascii.
  - rewrite written_string. apply QuoteJSONString_well_formed, is_jsstringb_spec, Hv.
  - rewrite written_array. cbn [storable] in Hv. apply storable_elems in Hv.
    apply well_formed_app; [apply well_formed_one; cbv; split; congruence|].
    apply well_formed_app; [|apply well_formed_one; cbv; split; congruence].
    apply join_well_formed; [apply comma_well_formed|].
    apply Forall_forall. intros t Ht. apply in_map_iff in Ht. destruct Ht as (e & <- & He).
    rewrite Forall_forall in IH, Hv. apply IH; [exact He | now apply Hv].
  - destruct (written_members props) as (ms & Hms & -> & _).
    apply well_formed_app; [apply well_formed_one; cbv; split; congruence|].
    apply well_formed_app; [|apply well_formed_one; cbv; split; congruence].
    apply join_well_formed; [apply comma_well_formed|].
    apply Forall_forall. intros t Ht. apply in_map_iff in Ht. destruct Ht as (kv & <- & Hkv).
    cbn [storable] in Hv. rewrite forallb_forall in Hv. rewrite Forall_forall in IH, Hms.
    destruct (Hms kv Hkv) as [Hin _]. specialize (Hv kv Hin).
    apply andb_true_iff in Hv. destruct Hv as [Hk Hs].
    apply member_text_well_formed; [now apply is_jsstringb_spec | now apply IH].
Qed.

(** The bytes that [TextEncoder] makes of the text of a value decode to
    that text. *)
Lemma written_decodes v :
  storable v = true ->
  TextDecoder_decode (TextEncoder_encode (written v)) = written v.
Proof.
  intros Hv. pose proof (written_well_formed v Hv) as Hwf.
  destruct (written_head v) as (c & t & Hhead & Hc & _).
  rewrite Hhead in Hwf |- *. now apply TextDecoder_TextEncoder.
Qed.

(** A write under any key, then a read under that key. *)
Lemma put_then_get key v text env :
  storable v = true -> JSON_stringify v = Some text ->
  kv_get_fault (REVIEWS_DB env) = None -> kv_put_fault (REVIEWS_DB env) = None ->
  exists env1,
    putJsonUtf8 key v env = (Normal tt, env1)
    /\ getJsonUtf8 key env1 = (Normal (reread_value v), env1).
Proof.
  intros Hv Htext Hg Hp.
  assert (Hw : written v = text) by (unfold written, JSON_stringify in *; now rewrite Htext).
  unfold putJsonUtf8, kv_put. rewrite Hp, Htext. cbv [default from_option id].
  eexists. split; [reflexivity|].
  unfold getJsonUtf8, bind, kv_get. cbn [REVIEWS_DB kv_get_fault kv_data].
  rewrite Hg, lookup_insert_eq. unfold lift.
  rewrite <- Hw, (written_decodes v Hv), Hw.
  now rewrite (JSON_parse_written v text Hv Htext).
Qed.

(** ** Values that are read back as they were written *)

Lemma same_number_eq x y : same_number x y = true -> x = y.
Proof.
  destruct x as [a | a | | a m e], y as [b | b | | b m' e']; cbn; try discriminate.
  - intros H. apply Bool.eqb_prop in H. now subst.
  - intros H. apply Bool.eqb_prop in H. now subst.
  - reflexivity.
  - intros H. apply andb_true_iff in H. destruct H as [H He].
    apply andb_true_iff in H. destruct H as [Ha Hm].
    apply Bool.eqb_prop in Ha. apply Pos.eqb_eq in Hm. apply Z.eqb_eq in He. now subst.
Qed.

Lemma lookup_prop_absent k props :
  existsb (jsstring_eqb k) (map fst props) = false -> lookup_prop k props = None.
Proof.
  induction props as [| [k' v] rest IH]; cbn [map fst existsb lookup_prop]; [reflexivity|].
  intros H. apply orb_false_iff in H. destruct H as [-> H]. now apply IH.
Qed.

(** Members with keys that differ and are not array indices become the
    properties of the object in their order. *)
Lemma define_props_plain ms acc :
  Forall (fun kv => array_index (fst kv) = None) ms ->
  distinct (map fst ms) = true ->
  Forall (fun kv => lookup_prop (fst kv) acc = None) ms ->
  fold_left (fun o kv => define_prop o (fst kv) (snd kv)) ms acc = acc ++ ms.
Proof.
  revert acc. induction ms as [| [k v] ms IH]; intros acc Hidx Hdist Hacc.
  - cbn. now rewrite app_nil_r.
  - cbn [fold_left fst snd]. inversion Hidx as [| ? ? Hk Hidx']; subst.
    inversion Hacc as [| ? ? Hka Hacc']; subst. cbn [fst] in Hk, Hka.
    cbn [map fst distinct] in Hdist. apply andb_true_iff in Hdist.
    destruct Hdist as [Hfresh Hdist]. apply negb_true_iff in Hfresh.
    unfold define_prop. rewrite Hka, Hk.
    rewrite IH; [now rewrite <- app_assoc | exact Hidx' | exact Hdist |].
    apply Forall_forall. intros [k' v'] Hin. cbn [fst].
    rewrite lookup_prop_app.
    rewrite Forall_forall in Hacc'. pose proof (Hacc' (k', v') Hin) as Hk'.
    cbn [fst] in Hk'. rewrite Hk'.
    destruct (jsstring_eqb k' k) eqn:E; [|reflexivity].
    apply jsstring_eqb_eq in E. subst k'. exfalso.
    assert (Hex : existsb (jsstring_eqb k) (map fst ms) = true).
    { apply existsb_exists. exists k. split; [|apply jsstring_eqb_refl].
      apply in_map_iff. now exists (k, v'). }
    congruence.
Qed.

Lemma plain_reread v : plain v = true -> reread_value v = v.
Proof.
  induction v as [| | b | x | s | elems IH | props IH] using JsValue_nested_ind;
    cbn [plain reread_value]; intros Hv; try reflexivity; try discriminate.
  - destruct (reread_number x) as [| | | y | | |]; try discriminate.
    now rewrite (same_number_eq x y Hv).
  - f_equal. rewrite forallb_forall in Hv. rewrite Forall_forall in IH.
    rewrite <- (map_id elems) at 2. apply map_ext_in. intros e He. now apply IH, Hv.
  - apply andb_true_iff in Hv. destruct Hv as [Hall Hdist].
    rewrite forallb_forall in Hall. rewrite Forall_forall in IH.
    assert (E : flat_map (fun kv => match snd kv with
                                    | JUndefined => []
                                    | _ => [(fst kv, reread_value (snd kv))]
                                    end) props = props).
    { clear Hdist. induction props as [| [k v] rest IHl]; [reflexivity|].
      cbn [flat_map fst snd]. rewrite IHl.
      - specialize (Hall (k, v) (or_introl eq_refl)). cbn [fst snd] in Hall.
        destruct (array_index k); [discriminate|].
        pose proof (IH (k, v) (or_introl eq_refl) Hall) as Hsame. cbn [snd] in Hsame.
        rewrite Hsame. destruct v; try reflexivity. discriminate Hall.
      - intros kv Hin Hp. apply IH; [now right | exact Hp].
      - intros kv Hin. apply Hall. now right. }
    rewrite E. unfold object_of_members. f_equal.
    rewrite define_props_plain; [reflexivity | | exact Hdist | ].
    + apply Forall_forall. intros kv Hin. specialize (Hall kv Hin).
      now destruct (array_index (fst kv)).
    + apply Forall_forall. reflexivity.
Qed.

Lemma plain_storable_text v :
  plain v = true -> exists text, JSON_stringify v = Some text.
Proof. destruct v as [| | [] | | | |]; cbn; try discriminate; eauto. Qed.

Lemma stringify_defined v : v <> JUndefined -> exists text, JSON_stringify v = Some text.
Proof. intros Hv. exists (written v). now apply serialize_written. Qed.

(** X26. [putJsonUtf8] then [getJsonUtf8], under any key and for every
    value but [undefined]: what is read is the value [JSON.parse] makes of
    the text [JSON.stringify] wrote, so the bytes of UTF-8 lose nothing,
    whatever Unicode the strings and the keys hold. A value that JSON holds
    as it is, is read back as it was written. What the other keys hold is
    read as before. *)
Theorem kv_round_trip key v env :
  storable v = true -> v <> JUndefined -> healthy env ->
  exists env1,
    putJsonUtf8 key v env = (Normal tt, env1)
    /\ getJsonUtf8 key env1 = (Normal (reread_value v), env1)
    /\ (plain v = true -> getJsonUtf8 key env1 = (Normal v, env1))
    /\ forall key', key' <> key ->
                    fst (getJsonUtf8 key' env1) = fst (getJsonUtf8 key' env).
Proof.
  intros Hv Hdef [Hg Hp].
  destruct (stringify_defined v Hdef) as [text Htext].
  destruct (put_then_get key v text env Hv Htext Hg Hp) as (env1 & Hput & Hget).
  exists env1. split; [exact Hput|]. split; [exact Hget|]. split.
  - intros Hplain. rewrite Hget. now rewrite (plain_reread v Hplain).
  - intros key' Hkey. unfold putJsonUtf8, kv_put in Hput. rewrite Hp in Hput.
    injection Hput as <-.
    unfold getJsonUtf8, bind, kv_get. cbn [REVIEWS_DB kv_get_fault kv_data].
    rewrite Hg. rewrite lookup_insert_ne by congruence.
    now destruct (kv_data (REVIEWS_DB env) !! key').
Qed.

Lemma kv_round_trip_witness :
  exists env1,
    putJsonUtf8 "settings" settings_value seeded_env = (Normal tt, env1)
    /\ getJsonUtf8 "settings" env1 = (Normal (reread_value settings_value), env1)
    /\ (plain settings_value = true
        -> getJsonUtf8 "settings" env1 = (Normal settings_value, env1))
    /\ forall key', key' <> "settings"%string ->
                    fst (getJsonUtf8 key' env1) = fst (getJsonUtf8 key' seeded_env).
Proof.
  apply (kv_round_trip "settings" settings_value seeded_env).
  - vm_compute. reflexivity.
  - discriminate.
  - split; reflexivity.
Defined.

(** X27. [putJsonUtf8] of [undefined] writes no byte, as [JSON.stringify]
    has no text for it, and [getJsonUtf8] then throws a [SyntaxError]: the
    key is there and cannot be read. *)
Theorem put_undefined_unreadable key env :
  healthy env ->
  exists env1 message,
    putJsonUtf8 key JUndefined env = (Normal tt, env1)
    /\ kv_data (REVIEWS_DB env1) !! key = Some []
    /\ getJsonUtf8 key env1 = (Throw (ErrorObject SyntaxError message), env1).
Proof.
  intros [Hg Hp]. unfold putJsonUtf8, kv_put. rewrite Hp.
  eexists _, _. split; [reflexivity|]. split.
  - cbn [REVIEWS_DB kv_data]. apply lookup_insert_eq.
  - unfold getJsonUtf8, bind, kv_get. cbn [REVIEWS_DB kv_get_fault kv_data].
    rewrite Hg, lookup_insert_eq. reflexivity.
Qed.

Lemma put_undefined_unreadable_witness :
  exists env1 message,
    putJsonUtf8 "reviews" JUndefined seeded_env = (Normal tt, env1)
    /\ kv_data (REVIEWS_DB env1) !! "reviews"%string = Some []
    /\ getJsonUtf8 "reviews" env1 = (Throw (ErrorObject SyntaxError message), env1).
Proof. apply (put_undefined_unreadable "reviews" seeded_env). split; reflexivity. Defined.

(** The body of a response that [json] makes is the text of its data. *)
Lemma json_reads_back data code :
  storable data = true -> data <> JUndefined ->
  exists text,
    json data code
    = {| status := code;
         headers := ("Content-Type", "application/json; charset=utf-8")%string :: cors;
         body := Some text |}
    /\ JSON_parse text = Normal (reread_value data).
Proof.
  intros Hv Hdef. destruct (stringify_defined data Hdef) as [text Htext].
  exists text. unfold json. rewrite Htext. split; [reflexivity|].
  exact (JSON_parse_written data text Hv Htext).
Qed.



(** ** Append of a name that is not a string, then Delete *)

Lemma is_jsstringb_complete s : is_jsstring s -> is_jsstringb s = true.
Proof.
  unfold is_jsstringb, is_jsstring, is_code_unit. rewrite forallb_forall, Forall_forall.
  intros H c Hc. specialize (H c Hc). apply andb_true_iff. rewrite Z.leb_le, Z.ltb_lt. lia.
Qed.

(** The properties of a value that can be stored can be stored. *)
Lemma storable_Get v k x : storable v = true -> Get v k = Normal x -> storable x = true.
Proof.
  destruct v as [| | b | n | s | elems | props]; cbn [Get]; intros Hv;
    try discriminate; try (now intros [= <-]).
  - destruct (jsstring_eqb k length_key); [now intros [= <-]|].
    destruct (array_index k) as [i |]; [|now intros [= <-]].
    destruct (nth_error s (Z.to_nat i)) as [c |] eqn:E; intros [= <-]; [|reflexivity].
    cbn [storable] in *. unfold is_jsstringb in *. rewrite forallb_forall in Hv.
    cbn [forallb]. rewrite (Hv c (nth_error_In _ _ E)). reflexivity.
  - destruct (jsstring_eqb k length_key); [now intros [= <-]|].
    destruct (array_index k) as [i |]; [|now intros [= <-]].
    destruct (nth_error elems (Z.to_nat i)) as [e |] eqn:E; intros [= <-]; [|reflexivity].
    cbn [storable] in Hv. rewrite forallb_forall in Hv. apply Hv, (nth_error_In _ _ E).
  - intros [= <-]. cbn [storable] in Hv. rewrite forallb_forall in Hv.
    induction props as [| [k' v'] rest IH]; cbn [lookup_prop]; [reflexivity|].
    destruct (jsstring_eqb k k').
    + specialize (Hv (k', v') (or_introl eq_refl)). now apply andb_true_iff in Hv.
    + apply IH. intros kv Hin. apply Hv. now right.
Qed.

(** What the namespace holds after a write of a value. *)
Lemma persist_holds_value env v :
  storable v = true -> v <> JUndefined -> healthy env ->
  holds (persist env v) (reread_value v).
Proof.
  intros Hv Hdef [Hg Hp]. destruct (stringify_defined v Hdef) as [text Htext].
  destruct (put_then_get "reviews" v text env Hv Htext Hg Hp) as (env1 & Hput & Hget).
  rewrite (putJsonUtf8_ok env v Hp) in Hput. injection Hput as <-. exact Hget.
Qed.

(** A name that is not a string is not one after it was stored. *)
Lemma untyped_name_reread nv :
  untyped_name nv ->
  match reread_value nv with
  | JUndefined | JNull | JString _ => False
  | _ => True
  end.
Proof.
  intros (Ht & Hs & Hx). destruct nv as [| | [] | x | s | elems | props];
    try discriminate Ht; cbn [reread_value]; try exact I.
  - destruct (parse_number_written x [] (Hx x eq_refl) I) as (v & -> & _). exact I.
  - now destruct (Hs s).
Qed.

(** X29. Append stores the name it is given without a test of its type,
    and one such record blocks Delete: after an Append whose name is truthy
    and not a string, a number as [7] or [true] or an object, every Delete
    with a name is answered 500, whatever the name, and removes nothing. *)
Theorem untyped_name_blocks_delete host req del env body dbody nv tv rt dn stored old :
  body_is req body -> storable body = true ->
  Get body k_name = Normal nv -> untyped_name nv ->
  Get body k_text = Normal tv -> ToBoolean tv = true ->
  Get body k_rating = Normal rt ->
  healthy env -> holds env stored -> collection_of stored = Some old ->
  storable (JArray old) = true ->
  body_is del dbody -> Get dbody k_name = Normal dn -> ToBoolean dn = true ->
  let created := newReview_of host nv tv rt in
  let env1 := persist env (JArray (created :: old)) in
  handlePostReview host req env
  = (Normal (json (JObject [(k_ok, JBool true); (k_review, created)]) 200), env1)
  /\ exists message,
       handleDeleteReview host del env1
       = (Normal (json (error_envelope message) 500), env1).
Proof.
  intros Hbody Sbody Hn Hname Ht Tt Hr Hhealthy Hget Hold Sold Hdel Hdn Tdn created env1.
  pose proof Hname as (Tn & _ & _).
  split.
  - apply (post_creates host req env body nv tv rt stored old); try assumption.
    + now apply collection_or_else.
    + apply Hhealthy.
  - assert (Hrating : nullish rt (JNumber five) <> JUndefined).
    { destruct rt; discriminate. }
    assert (Hcreated : reread_value created
                       = JObject [(k_name, reread_value nv); (k_text, reread_value tv);
                                  (k_rating, reread_value (nullish rt (JNumber five)));
                                  (k_date, JString (Date_toISOString (now host)))]).
    { unfold created, newReview_of. cbn [reread_value flat_map fst snd List.app].
      destruct nv; try discriminate Tn; destruct tv; try discriminate Tt;
        destruct (nullish rt (JNumber five)); try (now destruct Hrating);
        apply object_of_four. }
    assert (Sstored : storable (JArray (created :: old)) = true).
    { cbn [storable forallb] in Sold |- *. rewrite Sold, andb_true_r.
      unfold created, newReview_of. cbn [storable forallb fst snd].
      destruct keys_are_strings as (K1 & K2 & K3 & K4).
      rewrite !is_jsstringb_complete by assumption.
      rewrite (is_jsstringb_complete _ (Date_toISOString_jsstring (now host))).
      rewrite (storable_Get body k_name nv Sbody Hn), (storable_Get body k_text tv Sbody Ht).
      pose proof (storable_Get body k_rating rt Sbody Hr) as Srt.
      destruct rt; cbn [nullish]; rewrite ?Srt; reflexivity. }
    pose proof (persist_holds_value env (JArray (created :: old)) Sstored
                  ltac:(discriminate) Hhealthy) as Hholds.
    fold env1 in Hholds. cbn [reread_value map] in Hholds.
    apply (delete_blocked host del env1 dbody dn _ Hdel Hdn Tdn Hholds).
    apply Exists_cons_hd. rewrite Hcreated. unfold name_of.
    cbn [Get lookup_prop]. rewrite jsstring_eqb_refl.
    pose proof (untyped_name_reread nv Hname) as Hnot.
    destruct (reread_value nv); try contradiction; reflexivity.
Qed.

Lemma untyped_name_blocks_delete_witness :
  let created := newReview_of example_host (JNumber (Number_of_Z 7)) (JString (lit "hi"))
                   JUndefined in
  let env1 := persist seeded_env (JArray (created :: map js_of_Review seed)) in
  handlePostReview example_host seven_request seeded_env
  = (Normal (json (JObject [(k_ok, JBool true); (k_review, created)]) 200), env1)
  /\ exists message,
       handleDeleteReview example_host (delete_request "Jennifer D.") env1
       = (Normal (json (error_envelope message) 500), env1).
Proof.
  apply (untyped_name_blocks_delete example_host seven_request (delete_request "Jennifer D.")
           seeded_env seven_body (JObject [(k_name, JString (lit "Jennifer D."))])
           (JNumber (Number_of_Z 7)) (JString (lit "hi")) JUndefined
           (JString (lit "Jennifer D.")) (js_of_reviews seed) (map js_of_Review seed)).
  - vm_compute. reflexivity.
  - vm_compute. reflexivity.
  - reflexivity.
  - split; [reflexivity|]. split; [discriminate|]. intros x [= <-]. reflexivity.
  - reflexivity.
  - reflexivity.
  - reflexivity.
  - split; reflexivity.
  - apply seeded_holds.
  - reflexivity.
  - vm_compute. reflexivity.
  - vm_compute. reflexivity.
  - reflexivity.
  - reflexivity.
Defined.

Example plain_settings : plain settings_value = true.
Proof. vm_compute. reflexivity. Qed.

Example plain_seed : plain (js_of_reviews seed) = true.
Proof. vm_compute. reflexivity. Qed.

(* ===================================================================== *)
(** * The three outcomes of List *)
(* ===================================================================== *)

(** X25. List does one of three things. It throws, and the namespace is
    as it was. Or it answers 200 with what the namespace holds, a truthy
    value whose length is not 0, and writes nothing. Or it writes the seed
    and answers 200 with it, when what the namespace holds is falsy or has
    length 0. *)
Theorem list_all_or_nothing env :
  (exists t, handleGetReviews env = (Throw t, env))
  \/ (exists stored,
        holds env stored /\ ToBoolean stored = true
        /\ (exists len, Get stored length_key = Normal len
                        /\ IsStrictlyEqual len (JNumber (Number_of_Z 0)) = false)
        /\ handleGetReviews env
           = (Normal (json (JObject [(k_ok, JBool true); (k_reviews, stored)]) 200), env))
  \/ ((exists stored,
         holds env stored
         /\ (ToBoolean stored = false
             \/ exists len, Get stored length_key = Normal len
                            /\ IsStrictlyEqual len (JNumber (Number_of_Z 0)) = true))
      /\ handleGetReviews env
         = (Normal (seed_response seed), persist env (js_of_reviews seed))).
Proof.
  unfold handleGetReviews, getReviews. run_handler; try (left; eexists; reflexivity).
  all: repeat match goal with
              | H : lift _ _ = _ |- _ => unfold lift in H; injection H as H ?; subst
              | H : ret _ _ = _ |- _ => unfold ret in H; injection H as H ?; subst
              | H : (_, _) = (_, _) |- _ => injection H as ? ?; subst
              end.
  all: try discriminate.
  all: match goal with
       | Hl : kv_data _ !! _ = Some ?l, Hv : JSON_parse _ = Normal ?v,
         Hg : kv_get_fault _ = None |- _ =>
           pose proof (holds_blob env l v Hg Hl Hv) as Hholds
       | Hl : kv_data _ !! _ = None, Hg : kv_get_fault _ = None |- _ =>
           pose proof (holds_nothing env Hg Hl) as Hholds
       end.
  all: first
         [ right; left; eexists; split; [exact Hholds|]; split;
           [ match goal with H : negb (ToBoolean _) = false |- _ =>
               now apply negb_false_iff in H end
           | split; [eexists; split; [eassumption | assumption] | reflexivity] ]
         | right; right; split;
           [ eexists; split; [exact Hholds|];
             first [ left; match goal with H : negb (ToBoolean _) = true |- _ =>
                             now apply negb_true_iff in H end
                   | left; reflexivity
                   | right; eexists; split; [eassumption | assumption] ]
           | unfold seed_response, js_of_reviews; f_equal; now apply persist_written ] ].
Qed.

(* ===================================================================== *)
(** * Delete, then List *)
(* ===================================================================== *)

Lemma filter_keeps_sublist host q rs : sublist (List.filter (keeps host q) rs) rs.
Proof.
  induction rs as [| r rs IH]; cbn [List.filter]; [constructor|].
  destruct (keeps host q r); now constructor.
Qed.

(** X30. Delete, then List: when a Delete has removed some reviews and
    left others, the next List returns the reviews that were left, in the
    order they had, and writes nothing. *)
Theorem delete_then_list host req env body q rs :
  body_is req body -> Get body k_name = Normal (JString q) -> q <> [] ->
  healthy env -> holds env (js_of_reviews rs) -> Forall valid_review rs ->
  Exists (fun r => keeps host q r = false) rs ->
  Exists (fun r => keeps host q r = true) rs ->
  let kept := filter (keeps host q) rs in
  let env1 := persist env (js_of_reviews kept) in
  handleDeleteReview host req env
  = (Normal (deleted_response (length rs - length kept) q), env1)
  /\ handleGetReviews env1
     = (Normal (json (JObject [(k_ok, JBool true); (k_reviews, JArray (map reread kept))])
                  200), env1)
  /\ sublist kept rs.
Proof.
  intros Hbody Hn Nq Hhealthy Hget Hvalid Hmatch Hrest kept env1.
  pose proof (filter_keeps_length host q rs Hmatch) as Hless. fold kept in Hless.
  split; [|split].
  - destruct (delete_reviews host req env body q js_of_Review rs) as [_ H];
      try assumption; [apply name_of_js_of_Review | apply Hhealthy |].
    apply H. fold kept. lia.
  - assert (Hkept : exists r rest, kept = r :: rest).
    { apply Exists_exists in Hrest. destruct Hrest as (r & Hin & Hr).
      assert (Hink : In r kept) by (apply filter_In; now split).
      destruct kept as [| r' rest]; [contradiction | eauto]. }
    destruct Hkept as (r & rest & Ekept). unfold env1. rewrite Ekept.
    cbn [map]. apply list_after_write; [|exact Hhealthy].
    rewrite <- Ekept. now apply Forall_valid_filter.
  - apply filter_keeps_sublist.
Qed.

Lemma delete_then_list_witness :
  let kept := filter (keeps example_host (lit "JENNIFER D.")) seed in
  let env1 := persist seeded_env (js_of_reviews kept) in
  handleDeleteReview example_host (delete_request "JENNIFER D.") seeded_env
  = (Normal (deleted_response (length seed - length kept) (lit "JENNIFER D.")), env1)
  /\ handleGetReviews env1
     = (Normal (json (JObject [(k_ok, JBool true); (k_reviews, JArray (map reread kept))])
                  200), env1)
  /\ sublist kept seed.
Proof.
  apply (delete_then_list example_host (delete_request "JENNIFER D.") seeded_env
           (JObject [(k_name, JString (lit "JENNIFER D."))]) (lit "JENNIFER D.") seed).
  - vm_compute. reflexivity.
  - reflexivity.
  - vm_compute. discriminate.
  - split; reflexivity.
  - apply seeded_holds.
  - repeat apply Forall_cons; try apply Forall_nil;
      (repeat split; try exact I; apply is_jsstringb_spec; vm_compute; reflexivity).
  - apply Exists_cons_hd. vm_compute. reflexivity.
  - apply Exists_cons_tl, Exists_cons_hd. vm_compute. reflexivity.
Defined.
(* ===================================================================== *)
(** * What is read is made of code units *)
(* ===================================================================== *)

(** ** The decoder *)

Lemma utf16_encode_units cp : 0 <= cp < 0x200000 -> is_jsstring (utf16_encode cp).
Proof.
  intros Hcp. unfold utf16_encode, is_jsstring, is_code_unit.
  destruct (cp <? 0x10000) eqn:E.
  - apply Z.ltb_lt in E. repeat constructor; lia.
  - apply Z.ltb_ge in E. rewrite shiftr_div by lia.
    change 0x3FF with (Z.ones 10). rewrite land_mod by lia.
    change (2 ^ 10) with 1024. repeat constructor; lia.
Qed.

Lemma utf8_start_pending x :
  0 <= x < 256 ->
  Forall (fun cp => 0 <= cp < 0x200000) (fst (utf8_start x)) /\ pending (snd (utf8_start x)).
Proof.
  intros Hx. unfold utf8_start.
  destruct (x <=? 0x7F) eqn:E1.
  { apply Z.leb_le in E1. cbn. split; [repeat constructor; lia | exact I]. }
  destruct ((0xC2 <=? x) && (x <=? 0xDF)).
  { cbn [fst snd]. split; [constructor|]. unfold pending. cbn [u8_needed u8_code_point].
    change 0x1F with (Z.ones 5). rewrite land_mod by lia. change (2 ^ 5) with 32. lia. }
  destruct ((0xE0 <=? x) && (x <=? 0xEF)).
  { cbn [fst snd]. split; [constructor|]. unfold pending. cbn [u8_needed u8_code_point].
    change 0xF with (Z.ones 4). rewrite land_mod by lia. change (2 ^ 4) with 16. lia. }
  destruct ((0xF0 <=? x) && (x <=? 0xF4)).
  { cbn [fst snd]. split; [constructor|]. unfold pending. cbn [u8_needed u8_code_point].
    change 0x7 with (Z.ones 3). rewrite land_mod by lia. change (2 ^ 3) with 8. lia. }
  cbn. split; [repeat constructor; lia | exact I].
Qed.

Lemma utf8_step_pending st b :
  pending st ->
  Forall (fun cp => 0 <= cp < 0x200000) (fst (utf8_step st b))
  /\ pending (snd (utf8_step st b)).
Proof.
  intros Hst. pose proof (Z_of_byte_range b) as Hb.
  pose proof (utf8_start_pending (Z_of_byte b) Hb) as [Hout Hnext].
  unfold utf8_step. destruct st as [cp needed lo hi]. unfold pending in Hst.
  cbn [u8_needed u8_code_point u8_lower u8_upper] in *.
  destruct needed as [| n]; [now split|].
  destruct ((lo <=? Z_of_byte b) && (Z_of_byte b <=? hi)).
  - assert (Hcp : Z.lor (Z.shiftl cp 6) (Z.land (Z_of_byte b) 0x3F)
                  = cp * 64 + Z_of_byte b mod 64).
    { change 0x3F with (Z.ones 6). rewrite land_mod by lia.
      rewrite lor_shiftl_low; change (2 ^ 6) with 64; lia. }
    rewrite Hcp.
    destruct n as [| [| [| n]]]; cbn [fst snd]; try contradiction.
    + split; [repeat constructor; lia | exact I].
    + split; [constructor|]. unfold pending. cbn [u8_needed u8_code_point]. lia.
    + split; [constructor|]. unfold pending. cbn [u8_needed u8_code_point]. lia.
  - destruct (utf8_start (Z_of_byte b)) as [out st']. cbn [fst snd] in *.
    split; [constructor; [lia | exact Hout] | exact Hnext].
Qed.

Lemma utf8_run_code_points st bs :
  pending st -> Forall (fun cp => 0 <= cp < 0x200000) (utf8_run st bs).
Proof.
  revert st. induction bs as [| b bs IH]; intros st Hst.
  - cbn [utf8_run]. destruct (u8_needed st); repeat constructor; lia.
  - rewrite utf8_run_step. destruct (utf8_step_pending st b Hst) as [Hout Hnext].
    apply Forall_app. split; [exact Hout | now apply IH].
Qed.

(** Whatever the bytes, [TextDecoder.decode] gives a string of code
    units. *)
Lemma TextDecoder_decode_jsstring bs : is_jsstring (TextDecoder_decode bs).
Proof.
  unfold TextDecoder_decode, CodePointsToString.
  assert (H : Forall (fun cp => 0 <= cp < 0x200000) (utf8_run utf8_initial (strip_bom bs)))
    by (apply utf8_run_code_points; exact I).
  induction H as [| cp cps Hcp _ IH]; [constructor|].
  cbn [flat_map]. apply Forall_app. split; [now apply utf16_encode_units | exact IH].
Qed.
(** ** The parser *)

Lemma skip_ws_units s : is_jsstring s -> is_jsstring (skip_ws s).
Proof.
  induction 1 as [| c s Hc Hs IH]; [constructor|]. cbn [skip_ws].
  destruct (is_ws c); [exact IH | now constructor].
Qed.

Lemma hex_value_range c n : hex_value c = Some n -> 0 <= n < 16.
Proof.
  unfold hex_value.
  destruct ((48 <=? c) && (c <=? 57)) eqn:E1;
    [|destruct ((97 <=? c) && (c <=? 102)) eqn:E2;
      [|destruct ((65 <=? c) && (c <=? 70)) eqn:E3; [|discriminate]]];
    intros [= <-];
    match goal with H : _ && _ = true |- _ => apply andb_true_iff in H; destruct H as [A B] end;
    apply Z.leb_le in A; apply Z.leb_le in B; lia.
Qed.

Lemma hex4_unit a b c d u : hex4 a b c d = Some u -> is_code_unit u.
Proof.
  unfold hex4.
  destruct (hex_value a) as [x |] eqn:Ea; [|discriminate].
  destruct (hex_value b) as [y |] eqn:Eb; [|discriminate].
  destruct (hex_value c) as [z |] eqn:Ec; [|discriminate].
  destruct (hex_value d) as [w |] eqn:Ed; [|discriminate].
  intros [= <-]. apply hex_value_range in Ea, Eb, Ec, Ed. unfold is_code_unit. lia.
Qed.

Lemma simple_escape_unit e u : simple_escape e = Some u -> is_code_unit u.
Proof.
  unfold simple_escape, is_code_unit.
  repeat match goal with
         | |- context [if ?b then _ else _] => destruct b
         end; intros [= <-]; vm_compute; (split; [discriminate | reflexivity]).
Qed.

Lemma parse_string_chars_units s t r :
  is_jsstring s -> parse_string_chars s = Some (t, r) -> is_jsstring t /\ is_jsstring r.
Proof.
  remember (length s) as n eqn:Hn. revert s t r Hn.
  induction n as [n IH] using lt_wf_ind. intros s t r Hn Hs H.
  destruct s as [| c s]; [discriminate|]. cbn [parse_string_chars] in H.
  cbn [length] in Hn. inversion Hs as [| ? ? Hc Hs']; subst.
  destruct (c =? 0x22); [inversion H; subst; split; [constructor | exact Hs']|].
  destruct (c =? 0x5C).
  - destruct s as [| e s1]; [discriminate|].
    inversion Hs' as [| ? ? He Hs1]; subst.
    destruct (e =? ch "u").
    + destruct s1 as [| a [| b [| c' [| d s2]]]]; try discriminate.
      destruct (hex4 a b c' d) as [u |] eqn:Eu; [|discriminate].
      destruct (parse_string_chars s2) as [[t' r'] |] eqn:E; [|discriminate].
      inversion H; subst.
      assert (Hs2 : is_jsstring s2).
      { clear - Hs1. unfold is_jsstring in *.
        do 4 apply Forall_inv_tail in Hs1. exact Hs1. }
      destruct (IH (length s2) ltac:(cbn [length]; lia) s2 t' r eq_refl Hs2 E) as [Ht Hr].
      split; [constructor; [now apply (hex4_unit a b c' d) | exact Ht] | exact Hr].
    + destruct (simple_escape e) as [u |] eqn:Eu; [|discriminate].
      destruct (parse_string_chars s1) as [[t' r'] |] eqn:E; [|discriminate].
      inversion H; subst.
      destruct (IH (length s1) ltac:(cbn [length]; lia) s1 t' r eq_refl Hs1 E) as [Ht Hr].
      split; [constructor; [now apply (simple_escape_unit e) | exact Ht] | exact Hr].
  - destruct (c <? 0x20); [discriminate|].
    destruct (parse_string_chars s) as [[t' r'] |] eqn:E; [|discriminate].
    inversion H; subst.
    destruct (IH (length s) ltac:(lia) s t' r eq_refl Hs' E) as [Ht Hr].
    split; [now constructor | exact Hr].
Qed.

Lemma span_digits_units s ds r : is_jsstring s -> span_digits s = (ds, r) -> is_jsstring r.
Proof.
  intros Hs. revert ds r. induction Hs as [| c s Hc Hs IH]; intros ds r H; cbn [span_digits] in H.
  - inversion H. constructor.
  - destruct (is_digit c).
    + destruct (span_digits s) as [ds' r'] eqn:E. inversion H; subst. now apply (IH ds').
    + inversion H; subst. now constructor.
Qed.

Lemma parse_unsigned_units neg s x r :
  is_jsstring s -> parse_unsigned neg s = Some (x, r) -> is_jsstring r.
Proof.
  unfold parse_unsigned. intros Hs H.
  destruct (parse_int_part s) as [[i r1] |] eqn:E1; [|discriminate].
  destruct (parse_frac_part r1) as [[f r2] |] eqn:E2; [|discriminate].
  destruct (parse_exp_part r2) as [[e r3] |] eqn:E3; [|discriminate].
  inversion H; subst. clear H.
  assert (H1 : is_jsstring r1).
  { unfold parse_int_part in E1. destruct s as [| c s]; [discriminate|].
    destruct (c =? 48); [inversion E1; subst; now inversion Hs|].
    destruct (is_digit c); [|discriminate].
    inversion E1 as [E]. now apply (span_digits_units (c :: s) i). }
  assert (H2 : is_jsstring r2).
  { unfold parse_frac_part in E2. destruct r1 as [| c r1]; [inversion E2; constructor|].
    destruct (c =? ch ".").
    - destruct (span_digits r1) as [ds r'] eqn:Es. destruct ds; [discriminate|].
      inversion E2; subst. apply (span_digits_units r1 (z :: ds)); [now inversion H1 | exact Es].
    - inversion E2; subst. exact H1. }
  unfold parse_exp_part, parse_exp_digits in E3.
  destruct r2 as [| c r2]; [inversion E3; constructor|].
  destruct ((c =? ch "e") || (c =? ch "E")); [|inversion E3; subst; exact H2].
  destruct r2 as [| sg r2]; [discriminate|].
  assert (H3 : is_jsstring (sg :: r2)) by now inversion H2.
  assert (H4 : is_jsstring r2) by now inversion H3.
  destruct (sg =? ch "+"); [|destruct (sg =? ch "-")].
  - destruct (span_digits r2) as [ds r'] eqn:Es. destruct ds; [discriminate|].
    inversion E3; subst. now apply (span_digits_units r2 (z :: ds)).
  - destruct (span_digits r2) as [ds r'] eqn:Es. destruct ds; [discriminate|].
    inversion E3; subst. now apply (span_digits_units r2 (z :: ds)).
  - destruct (span_digits (sg :: r2)) as [ds r'] eqn:Es. destruct ds; [discriminate|].
    inversion E3; subst. now apply (span_digits_units (sg :: r2) (z :: ds)).
Qed.

Lemma parse_number_units s x r :
  is_jsstring s -> parse_number s = Some (x, r) -> is_jsstring r.
Proof.
  unfold parse_number. intros Hs. destruct s as [| c s]; [discriminate|].
  destruct (c =? ch "-"); intros H.
  - apply (parse_unsigned_units true s x); [now inversion Hs | exact H].
  - now apply (parse_unsigned_units false (c :: s) x).
Qed.

Lemma match_prefix_units p s r : is_jsstring s -> match_prefix p s = Some r -> is_jsstring r.
Proof.
  revert s. induction p as [| a p IH]; intros s Hs H; cbn [match_prefix] in H.
  - now inversion H; subst.
  - destruct s as [| b s]; [discriminate|]. destruct (a =? b); [|discriminate].
    apply (IH s); [now inversion Hs | exact H].
Qed.

Lemma parse_literal_units word v s v' r :
  is_jsstring s -> parse_literal word v s = Parsed v' r -> v' = v /\ is_jsstring r.
Proof.
  intros Hs. unfold parse_literal.
  destruct (match_prefix word s) as [r' |] eqn:E; [|discriminate].
  intros H. inversion H; subst. split; [reflexivity | now apply (match_prefix_units word s)].
Qed.

(** ** Objects *)

Lemma storable_props_app a b :
  storable_props (a ++ b) = storable_props a && storable_props b.
Proof. apply forallb_app. Qed.

Lemma replace_prop_storable k v props :
  storable v = true -> storable_props props = true ->
  storable_props (replace_prop k v props) = true.
Proof.
  intros Hv. induction props as [| [k' v'] rest IH]; [reflexivity|].
  cbn [replace_prop storable_props forallb fst snd]. intros H.
  apply andb_true_iff in H. destruct H as [H1 H2]. apply andb_true_iff in H1.
  destruct (jsstring_eqb k k'); cbn [storable_props forallb fst snd].
  - rewrite Hv, (proj1 H1). exact H2.
  - rewrite (proj1 H1), (proj2 H1). now apply IH.
Qed.

Lemma insert_index_storable i k v props :
  is_jsstringb k = true -> storable v = true -> storable_props props = true ->
  storable_props (insert_index i k v props) = true.
Proof.
  intros Hk Hv. induction props as [| [k' v'] rest IH]; intros H.
  - cbn [insert_index storable_props forallb fst snd]. now rewrite Hk, Hv.
  - cbn [insert_index]. destruct (array_index k') as [j |].
    + destruct (j <? i).
      * cbn [storable_props forallb fst snd] in H |- *.
        apply andb_true_iff in H. destruct H as [H1 H2]. rewrite H1. now apply IH.
      * change (storable_props ((k, v) :: (k', v') :: rest))
          with (is_jsstringb k && storable v && storable_props ((k', v') :: rest)).
        now rewrite Hk, Hv, H.
    + change (storable_props ((k, v) :: (k', v') :: rest))
        with (is_jsstringb k && storable v && storable_props ((k', v') :: rest)).
      now rewrite Hk, Hv, H.
Qed.

Lemma define_prop_storable props k v :
  is_jsstringb k = true -> storable v = true -> storable_props props = true ->
  storable_props (define_prop props k v) = true.
Proof.
  intros Hk Hv H. unfold define_prop. destruct (lookup_prop k props).
  - now apply replace_prop_storable.
  - destruct (array_index k) as [i |].
    + now apply insert_index_storable.
    + rewrite storable_props_app, H. cbn [storable_props forallb fst snd andb].
      now rewrite Hk, Hv.
Qed.

Lemma object_of_members_storable ms :
  storable_props ms = true -> storable (object_of_members ms) = true.
Proof.
  unfold object_of_members. change (storable (JObject ?p)) with (storable_props p).
  assert (G : forall acc, storable_props acc = true -> storable_props ms = true ->
                          storable_props
                            (fold_left (fun o kv => define_prop o (fst kv) (snd kv)) ms acc)
                          = true).
  { induction ms as [| [k v] ms IH]; intros acc Hacc H; [exact Hacc|].
    cbn [fold_left fst snd]. cbn [storable_props forallb fst snd] in H.
    apply andb_true_iff in H. destruct H as [H1 H2]. apply andb_true_iff in H1.
    apply IH; [|exact H2]. apply define_prop_storable; tauto. }
  intros H. now apply G.
Qed.

(** What the parser reads of a text of code units is made of code
    units. *)
Lemma parse_storable f :
  (forall s v r, is_jsstring s -> parse_value f s = Parsed v r ->
                 storable v = true /\ is_jsstring r)
  /\ (forall s vs r, is_jsstring s -> parse_elements f s = Parsed vs r ->
                     forallb storable vs = true /\ is_jsstring r)
  /\ (forall s ms r, is_jsstring s -> parse_members f s = Parsed ms r ->
                     storable_props ms = true /\ is_jsstring r).
Proof.
  induction f as [| f (IHv & IHe & IHm)]; [repeat split; intros; discriminate|].
  split; [|split]; intros s x r Hs H.
  - rewrite parse_value_S in H. pose proof (skip_ws_units s Hs) as Hs0.
    destruct (skip_ws s) as [| c r0]; [discriminate|].
    assert (Hr0 : is_jsstring r0) by now inversion Hs0.
    destruct (c =? ch "{").
    { pose proof (skip_ws_units r0 Hr0) as Hr1.
      destruct (skip_ws r0) as [| c1 r1]; [discriminate|].
      destruct (c1 =? ch "}"); [inversion H; subst; split; [reflexivity | now inversion Hr1]|].
      destruct (parse_members f (c1 :: r1)) as [ms r2 | |] eqn:Em; try discriminate.
      inversion H; subst. destruct (IHm _ _ _ Hr1 Em) as [Hms Hr].
      split; [now apply object_of_members_storable | exact Hr]. }
    destruct (c =? ch "[").
    { pose proof (skip_ws_units r0 Hr0) as Hr1.
      destruct (skip_ws r0) as [| c1 r1]; [discriminate|].
      destruct (c1 =? ch "]"); [inversion H; subst; split; [reflexivity | now inversion Hr1]|].
      destruct (parse_elements f (c1 :: r1)) as [vs r2 | |] eqn:Ee; try discriminate.
      inversion H; subst. destruct (IHe _ _ _ Hr1 Ee) as [Hvs Hr].
      split; [exact Hvs | exact Hr]. }
    destruct (c =? 0x22).
    { destruct (parse_string_chars r0) as [[t r1] |] eqn:Ec; [|discriminate].
      inversion H; subst. destruct (parse_string_chars_units r0 t r Hr0 Ec) as [Ht Hr].
      split; [now apply is_jsstringb_complete | exact Hr]. }
    destruct (c =? ch "t");
      [apply parse_literal_units in H; [destruct H as [-> Hr]; now split | exact Hs0]|].
    destruct (c =? ch "f");
      [apply parse_literal_units in H; [destruct H as [-> Hr]; now split | exact Hs0]|].
    destruct (c =? ch "n");
      [apply parse_literal_units in H; [destruct H as [-> Hr]; now split | exact Hs0]|].
    destruct (parse_number (c :: r0)) as [[n r1] |] eqn:En; [|discriminate].
    inversion H; subst. split; [reflexivity | now apply (parse_number_units (c :: r0) n)].
  - rewrite parse_elements_S in H.
    destruct (parse_value f s) as [v r0 | |] eqn:Ev; try discriminate.
    destruct (IHv _ _ _ Hs Ev) as [Hv Hr0]. pose proof (skip_ws_units r0 Hr0) as Hr1.
    destruct (skip_ws r0) as [| c r1]; [discriminate|].
    assert (Hr1' : is_jsstring r1) by now inversion Hr1.
    destruct (c =? ch ",").
    { destruct (parse_elements f r1) as [vs r2 | |] eqn:Ee; try discriminate.
      inversion H; subst. destruct (IHe _ _ _ Hr1' Ee) as [Hvs Hr].
      split; [cbn [forallb]; now rewrite Hv | exact Hr]. }
    destruct (c =? ch "]"); [|discriminate]. inversion H; subst.
    split; [cbn [forallb]; now rewrite Hv | exact Hr1'].
  - rewrite parse_members_S in H. pose proof (skip_ws_units s Hs) as Hs0.
    destruct (skip_ws s) as [| q r0]; [discriminate|].
    assert (Hr0 : is_jsstring r0) by now inversion Hs0.
    destruct (q =? 0x22); [|discriminate].
    destruct (parse_string_chars r0) as [[k r1] |] eqn:Ek; [|discriminate].
    destruct (parse_string_chars_units r0 k r1 Hr0 Ek) as [Hk Hr1].
    apply is_jsstringb_complete in Hk.
    pose proof (skip_ws_units r1 Hr1) as Hr2.
    destruct (skip_ws r1) as [| c r2]; [discriminate|].
    assert (Hr2' : is_jsstring r2) by now inversion Hr2.
    destruct (c =? ch ":"); [|discriminate].
    destruct (parse_value f r2) as [v r3 | |] eqn:Ev; try discriminate.
    destruct (IHv _ _ _ Hr2' Ev) as [Hv Hr3]. pose proof (skip_ws_units r3 Hr3) as Hr4.
    destruct (skip_ws r3) as [| c' r4]; [discriminate|].
    assert (Hr4' : is_jsstring r4) by now inversion Hr4.
    destruct (c' =? ch ",").
    { destruct (parse_members f r4) as [ms r5 | |] eqn:Em; try discriminate.
      inversion H; subst. destruct (IHm _ _ _ Hr4' Em) as [Hms Hr].
      split; [cbn [storable_props forallb fst snd]; now rewrite Hk, Hv | exact Hr]. }
    destruct (c' =? ch "}"); [|discriminate]. inversion H; subst.
    split; [cbn [storable_props forallb fst snd]; now rewrite Hk, Hv | exact Hr4'].
Qed.

(** What [JSON.parse] returns can be stored. *)
Lemma JSON_parse_storable text v :
  is_jsstring text -> JSON_parse text = Normal v -> storable v = true.
Proof.
  intros Htext. unfold JSON_parse, parse_text.
  destruct (parse_value (parse_fuel text) text) as [v' r | |] eqn:E; try discriminate.
  destruct (parse_storable (parse_fuel text)) as (Hv & _ & _).
  destruct (Hv text v' r Htext E) as [Hs _].
  destruct (skip_ws r); [|discriminate]. now intros [= <-].
Qed.

(** The body of a request that was parsed, and the collection that was
    read, can be stored. *)
Lemma body_storable req body : body_is req body -> storable body = true.
Proof. apply JSON_parse_storable, TextDecoder_decode_jsstring. Qed.

Lemma holds_storable env stored : holds env stored -> storable stored = true.
Proof.
  unfold holds, getJsonUtf8, bind, kv_get.
  destruct (kv_get_fault (REVIEWS_DB env)); [discriminate|].
  destruct (kv_data (REVIEWS_DB env) !! "reviews"%string) as [bytes |].
  - unfold lift. intros [= H]. revert H. apply JSON_parse_storable, TextDecoder_decode_jsstring.
  - unfold ret. now intros [= <-].
Qed.
(* ===================================================================== *)
(** * The date of a new record is the time of the clock *)
(* ===================================================================== *)

Lemma civil_from_days_inverse z :
  let '(y, m, d) := civil_from_days z in
  days_from_civil y m d = z /\ 1 <= m <= 12 /\ 1 <= d <= 31.
Proof.
  unfold civil_from_days.
  set (z' := z + 719468). set (era := z' / 146097). set (doe := z' mod 146097).
  set (yoe := (doe - doe / 1460 + doe / 36524 - doe / 146096) / 365).
  set (doy := doe - (365 * yoe + yoe / 4 - yoe / 100)).
  set (mp := (5 * doy + 2) / 153).
  assert (Hdoe : 0 <= doe <= 146096) by (subst doe; lia).
  assert (Hyoe : 0 <= yoe <= 399) by (subst yoe; lia).
  assert (Hdoy : 0 <= doy <= 365) by (subst doy yoe; lia).
  assert (Hmp : 0 <= mp <= 11) by (subst mp; lia).
  assert (Hz : z = era * 146097 + doe - 719468) by (subst era doe z'; lia).
  unfold days_from_civil.
  destruct (mp <? 10) eqn:E; [apply Z.ltb_lt in E | apply Z.ltb_ge in E].
  - replace (mp + 3 <=? 2) with false by (symmetry; apply Z.leb_gt; lia).
    replace (2 <? mp + 3) with true by (symmetry; apply Z.ltb_lt; lia).
    rewrite Z.add_0_r.
    replace ((yoe + era * 400) / 400) with era by lia.
    replace (yoe + era * 400 - era * 400) with yoe by lia.
    replace (mp + 3 - 3) with mp by lia.
    subst mp. split; [|lia]. subst doy. lia.
  - replace (mp - 9 <=? 2) with true by (symmetry; apply Z.leb_le; lia).
    replace (2 <? mp - 9) with false by (symmetry; apply Z.ltb_ge; lia).
    replace ((yoe + era * 400 + 1 - 1) / 400) with era by lia.
    replace (yoe + era * 400 + 1 - 1 - era * 400) with yoe by lia.
    replace (mp - 9 + 9) with mp by lia.
    subst mp. split; [|lia]. subst doy. lia.
Qed.

Lemma civil_from_days_year z :
  -719528 <= z <= 2932896 -> 0 <= fst (fst (civil_from_days z)) <= 9999.
Proof.
  intros Hz. unfold civil_from_days. cbn [fst].
  set (z' := z + 719468). set (era := z' / 146097). set (doe := z' mod 146097).
  set (yoe := (doe - doe / 1460 + doe / 36524 - doe / 146096) / 365).
  set (doy := doe - (365 * yoe + yoe / 4 - yoe / 100)).
  set (mp := (5 * doy + 2) / 153).
  assert (Hdoe : 0 <= doe <= 146096) by (subst doe; lia).
  assert (Hyoe : 0 <= yoe <= 399) by (subst yoe; lia).
  assert (Hera : -1 <= era <= 24) by (subst era z'; lia).
  destruct (mp <? 10) eqn:E; [apply Z.ltb_lt in E | apply Z.ltb_ge in E].
  - replace (mp + 3 <=? 2) with false by (symmetry; apply Z.leb_gt; lia).
    assert (era <> -1) by (subst mp doy yoe doe era z'; lia).
    lia.
  - replace (mp - 9 <=? 2) with true by (symmetry; apply Z.leb_le; lia).
    assert (era = 24 -> yoe <= 398) by (subst mp doy yoe doe era z'; lia).
    assert (era = -1 -> yoe = 399) by (subst mp doy yoe doe era z'; lia).
    lia.
Qed.
Lemma digits_pad2 n : 0 <= n <= 99 -> digits_value 0 (pad2 n) = n.
Proof. intros H. unfold pad2, digit_char. cbn [digits_value]. lia. Qed.

Lemma digits_pad3 n : 0 <= n <= 999 -> digits_value 0 (pad3 n) = n.
Proof. intros H. unfold pad3, pad2, digit_char. cbn [digits_value]. lia. Qed.

Lemma digits_pad4 n : 0 <= n <= 9999 -> digits_value 0 (pad4 n) = n.
Proof. intros H. unfold pad4, pad3, pad2, digit_char. cbn [digits_value]. lia. Qed.

(** The string [toISOString] writes of a time in the years 0000 to 9999
    denotes that time. *)
Lemma Date_parse_toISOString t :
  -62167219200000 <= t < 253402300800000 ->
  Date_parse (Date_toISOString t) = Some t.
Proof.
  intros Ht. unfold Date_parse. rewrite Date_toISOString_iso8601.
  unfold Date_toISOString.
  pose proof (civil_from_days_inverse (t / msPerDay)) as Hinv.
  pose proof (civil_from_days_year (t / msPerDay)) as Hyear.
  destruct (civil_from_days (t / msPerDay)) as [[y m] d]. cbn [fst] in Hyear.
  destruct Hinv as (Hdays & Hm & Hd).
  assert (Hy : 0 <= y <= 9999) by (apply Hyear; unfold msPerDay; lia).
  unfold year_string.
  replace ((0 <=? y) && (y <=? 9999)) with true by (symmetry; bool_lia).
  set (ms := t mod msPerDay).
  assert (Hms : 0 <= ms < 86400000) by (subst ms; unfold msPerDay; lia).
  change (pad4 y ++ [ch "-"] ++ pad2 m ++ [ch "-"] ++ pad2 d ++ [ch "T"]
          ++ pad2 (ms / 3600000) ++ [ch ":"] ++ pad2 (ms / 60000 mod 60) ++ [ch ":"]
          ++ pad2 (ms / 1000 mod 60) ++ [ch "."] ++ pad3 (ms mod 1000) ++ [ch "Z"])
    with (match pad4 y, pad2 m, pad2 d, pad2 (ms / 3600000), pad2 (ms / 60000 mod 60),
                pad2 (ms / 1000 mod 60), pad3 (ms mod 1000) with
          | [y1; y2; y3; y4], [m1; m2], [d1; d2], [h1; h2], [n1; n2], [s1; s2], [f1; f2; f3] =>
              [y1; y2; y3; y4; ch "-"; m1; m2; ch "-"; d1; d2; ch "T"; h1; h2; ch ":";
               n1; n2; ch ":"; s1; s2; ch "."; f1; f2; f3; ch "Z"]
          | _, _, _, _, _, _, _ => []
          end).
  cbv beta iota delta [pad4 pad3 pad2].
  fold (pad2 m) (pad2 d) (pad2 (ms / 3600000)) (pad2 (ms / 60000 mod 60))
    (pad2 (ms / 1000 mod 60)).
  fold (pad2 (ms mod 1000)). fold (pad3 (ms mod 1000)).
  fold (pad2 y). fold (pad3 y). fold (pad4 y).
  rewrite (digits_pad4 y), (digits_pad2 m), (digits_pad2 d), (digits_pad2 (ms / 3600000)),
    (digits_pad2 (ms / 60000 mod 60)), (digits_pad2 (ms / 1000 mod 60)),
    (digits_pad3 (ms mod 1000)) by lia.
  replace ((1 <=? m) && (m <=? 12) && (1 <=? d) && (d <=? 31) && (ms / 3600000 <=? 23)
           && (ms / 60000 mod 60 <=? 59) && (ms / 1000 mod 60 <=? 59))
    with true by (symmetry; bool_lia).
  f_equal. rewrite Hdays. subst ms. unfold msPerDay. lia.
Qed.
(* ===================================================================== *)
(** * The operations on the reviews, from the request to the bytes *)
(* ===================================================================== *)

Lemma holds_readable env v : holds env v -> kv_get_fault (REVIEWS_DB env) = None.
Proof.
  unfold holds, getJsonUtf8, bind, kv_get.
  destruct (kv_get_fault (REVIEWS_DB env)); [discriminate | reflexivity].
Qed.

Lemma JSON_parse_defined text v : JSON_parse text = Normal v -> v <> JUndefined.
Proof.
  unfold JSON_parse, parse_text.
  destruct (parse_value (parse_fuel text) text) as [v' r | |] eqn:E; try discriminate.
  destruct (skip_ws r); [|discriminate]. intros [= <-].
  unfold parse_fuel in E. rewrite parse_value_S in E.
  destruct (skip_ws text) as [| c r0]; [discriminate|].
  repeat match type of E with
         | (if ?b then _ else _) = _ => destruct b
         | match ?x with _ => _ end = _ => destruct x eqn:?
         end; try discriminate; try (injection E as <- _; discriminate).
  all: unfold parse_literal in E;
    match type of E with match ?x with _ => _ end = _ => destruct x end;
    try discriminate; injection E as <- _; discriminate.
Qed.

Lemma Get_total v k : v <> JUndefined -> v <> JNull -> exists x, Get v k = Normal x.
Proof.
  destruct v; cbn [Get]; try congruence; intros _ _; eauto.
  - destruct (jsstring_eqb k length_key); [eauto|]. destruct (array_index k); eauto.
  - destruct (jsstring_eqb k length_key); [eauto|]. destruct (array_index k); eauto.
Qed.

Lemma map_reread_plain vs : forallb plain vs = true -> map reread_value vs = vs.
Proof.
  induction vs as [| v vs IH]; [reflexivity|]. cbn [forallb map]. intros H.
  apply andb_true_iff in H. destruct H as [Hv Hvs].
  now rewrite (plain_reread v Hv), IH.
Qed.

Lemma rating_of_nullish rt : nullish rt (JNumber five) = rating_of rt.
Proof. destruct rt; reflexivity. Qed.

Lemma rating_of_defined rt : rating_of rt <> JUndefined.
Proof. destruct rt; discriminate. Qed.

Lemma rating_of_storable rt : storable rt = true -> storable (rating_of rt) = true.
Proof. destruct rt; intros H; try exact H; reflexivity. Qed.

Lemma reread_created n t x d :
  x <> JUndefined ->
  reread_value (JObject [(k_name, JString n); (k_text, JString t); (k_rating, x);
                         (k_date, JString d)])
  = JObject [(k_name, JString n); (k_text, JString t); (k_rating, reread_value x);
             (k_date, JString d)].
Proof.
  intros Hx. cbn [reread_value flat_map fst snd List.app].
  destruct x; try congruence; apply object_of_four.
Qed.

(** The texts and the bytes of the seed. *)
Lemma seed_blob : blob_of (js_of_reviews seed) = json_bytes seed_json.
Proof. vm_compute. reflexivity. Qed.

Lemma seed_response_text :
  seed_response seed
  = {| status := 200;
       headers := json_headers;
       body := Some (json_text (String.append "{'ok':true,'reviews':"
                                  (String.append seed_json "}"))) |}.
Proof. vm_compute. reflexivity. Qed.

(** C3. When the collection is absent or empty, [handleGetReviews] writes
    the seed once and returns it. The bytes written are the JSON of three
    records, and the body of the answer is the JSON of the envelope that
    holds them: read as JSON, both give three records, the first named
    Jennifer D. and the other two with the empty name, each rated 5, with
    the text of the source and without a date. A second call right after
    returns the same response and leaves the namespace, its log of writes
    included, as the first call left it. *)
Theorem list_seeds_once env :
  healthy env ->
  (stored_blob env = None
   \/ exists b, stored_blob env = Some b
                /\ JSON_parse (TextDecoder_decode b) = Normal (JArray [])) ->
  let answer :=
    {| status := 200;
       headers := json_headers;
       body := Some (json_text (String.append "{'ok':true,'reviews':"
                                  (String.append seed_json "}"))) |} in
  exists env1 rs,
    handleGetReviews env = (Normal answer, env1)
    /\ handleGetReviews env1 = (Normal answer, env1)
    /\ env1 = persist env (js_of_reviews seed)
    /\ stored_blob env1 = Some (json_bytes seed_json)
    /\ kv_log (REVIEWS_DB env1)
       = ("reviews"%string, json_bytes seed_json) :: kv_log (REVIEWS_DB env)
    /\ JSON_parse (TextDecoder_decode (json_bytes seed_json)) = Normal (JArray rs)
    /\ JSON_parse (json_text (String.append "{'ok':true,'reviews':"
                                (String.append seed_json "}")))
       = Normal (JObject [(k_ok, JBool true); (k_reviews, JArray rs)])
    /\ map (fun r => Get r k_name) rs
       = [Normal (JString (lit "Jennifer D.")); Normal (JString []); Normal (JString [])]
    /\ map (fun r => Get r k_rating) rs
       = [Normal (JNumber (Number_of_Z 5)); Normal (JNumber (Number_of_Z 5));
          Normal (JNumber (Number_of_Z 5))]
    /\ map (fun r => Get r k_date) rs = [Normal JUndefined; Normal JUndefined; Normal JUndefined]
    /\ map (fun r => Get r k_text) rs = map (fun s => Normal (JString (text s))) seed.
Proof.
  intros Hh Hstate answer.
  assert (Hholds : exists stored, holds env stored
                                  /\ (ToBoolean stored = false \/ stored = JArray [])).
  { destruct Hh as [Hg Hp]. destruct Hstate as [Habs | (b & Hb & Hparse)].
    - exists JNull. split; [now apply getJsonUtf8_absent | now left].
    - exists (JArray []). split; [|now right].
      unfold holds. rewrite (getJsonUtf8_blob env b Hg Hb). now rewrite Hparse. }
  destruct Hholds as (stored & Hget & Hempty).
  destruct (getReviews_twice seed env stored seed_reads_back eq_refl Hh Hget Hempty)
    as [H1 H2].
  fold handleGetReviews in H1, H2. rewrite seed_response_text in H1, H2.
  exists (persist env (js_of_reviews seed)), (map js_of_Review seed).
  split; [exact H1|]. split; [exact H2|]. split; [reflexivity|].
  split; [rewrite persist_blob; f_equal; exact seed_blob|].
  split; [rewrite persist_log; now rewrite seed_blob|].
  repeat split; vm_compute; reflexivity.
Qed.

Lemma list_seeds_once_witness :
  exists env1,
    handleGetReviews empty_env
    = (Normal {| status := 200;
                 headers := json_headers;
                 body := Some (json_text (String.append "{'ok':true,'reviews':"
                                            (String.append seed_json "}"))) |}, env1)
    /\ stored_blob env1 = Some (json_bytes seed_json)
    /\ kv_log (REVIEWS_DB env1) = [("reviews"%string, json_bytes seed_json)].
Proof.
  destruct (list_seeds_once empty_env) as (env1 & rs & H1 & _ & _ & Hblob & Hlog & _).
  - split; reflexivity.
  - left. reflexivity.
  - exists env1. split; [exact H1|]. split; [exact Hblob | exact Hlog].
Defined.
(** What Append and Delete read of the request and of the namespace can
    be stored. *)
Lemma collection_storable stored rs :
  storable stored = true -> collection_of stored = Some rs -> storable (JArray rs) = true.
Proof. destruct stored; cbn [collection_of]; intros H [= <-]; [reflexivity | exact H]. Qed.

Lemma created_storable n t x d :
  is_jsstringb n = true -> is_jsstringb t = true -> storable x = true -> is_jsstring d ->
  storable (JObject [(k_name, JString n); (k_text, JString t); (k_rating, x);
                     (k_date, JString d)]) = true.
Proof.
  intros Hn Ht Hx Hd. apply is_jsstringb_complete in Hd.
  cbn [storable forallb fst snd]. rewrite Hn, Ht, Hx, Hd. reflexivity.
Qed.

Lemma reread_answer k v :
  k = k_review \/ k = k_reviews \/ k = k_message \/ k = k_error ->
  v <> JUndefined -> forall b,
  reread_value (JObject [(k_ok, JBool b); (k, v)]) = JObject [(k_ok, JBool b); (k, reread_value v)].
Proof.
  intros Hk Hv b. cbn [reread_value flat_map fst snd List.app].
  destruct v; try congruence; destruct Hk as [-> | [-> | [-> | ->]]]; reflexivity.
Qed.

(** C4. An Append whose name and text are non-empty strings creates the
    record with that name and text, the rating of the body or 5 when it has
    none, and the date of the clock, whatever date the body carried: the
    date has the shape of ISO 8601 and denotes the time of the clock. The
    collection that was read (none read as the empty one) is written with
    the new record in front, and the answer is 200 with that record. The
    body of the answer reads as JSON to the envelope of the record, and the
    namespace then holds the record before the earlier ones. *)
Theorem append_prepends host req env body n t rt stored old :
  body_is req body ->
  Get body k_name = Normal (JString n) -> n <> [] ->
  Get body k_text = Normal (JString t) -> t <> [] ->
  Get body k_rating = Normal rt ->
  holds env stored -> collection_of stored = Some old ->
  kv_put_fault (REVIEWS_DB env) = None ->
  let date := Date_toISOString (now host) in
  let created :=
    JObject [(k_name, JString n); (k_text, JString t); (k_rating, rating_of rt);
             (k_date, JString date)] in
  let read_back :=
    JObject [(k_name, JString n); (k_text, JString t);
             (k_rating, reread_value (rating_of rt)); (k_date, JString date)] in
  let env' := persist env (JArray (created :: old)) in
  handlePostReview host req env
  = (Normal (json (JObject [(k_ok, JBool true); (k_review, created)]) 200), env')
  /\ (exists text,
        json (JObject [(k_ok, JBool true); (k_review, created)]) 200
        = {| status := 200; headers := json_headers; body := Some text |}
        /\ JSON_parse text = Normal (JObject [(k_ok, JBool true); (k_review, read_back)]))
  /\ holds env' (JArray (read_back :: map reread_value old))
  /\ (forallb plain old = true -> holds env' (JArray (read_back :: old)))
  /\ (rt = JUndefined \/ rt = JNull ->
      rating_of rt = JNumber (Number_of_Z 5)
      /\ reread_value (rating_of rt) = JNumber (Number_of_Z 5))
  /\ is_iso8601 date = true
  /\ (-62167219200000 <= now host < 253402300800000 -> Date_parse date = Some (now host)).
Proof.
  intros Hbody Hn Nn Ht Nt Hr Hget Hold Hput date created read_back env'.
  pose proof (body_storable req body Hbody) as Sbody.
  pose proof (storable_Get body k_name _ Sbody Hn) as Sn.
  pose proof (storable_Get body k_text _ Sbody Ht) as St.
  pose proof (storable_Get body k_rating _ Sbody Hr) as Sr.
  pose proof (collection_storable stored old (holds_storable env stored Hget) Hold) as Sold.
  assert (Screated : storable created = true).
  { apply created_storable; [exact Sn | exact St | now apply rating_of_storable
                            | apply Date_toISOString_jsstring]. }
  assert (Rcreated : reread_value created = read_back)
    by (apply reread_created, rating_of_defined).
  split; [|split; [|split; [|split; [|split; [|split]]]]].
  - rewrite (post_creates host req env body (JString n) (JString t) rt stored old);
      try assumption.
    + unfold newReview_of. now rewrite rating_of_nullish.
    + destruct n; [contradiction | reflexivity].
    + destruct t; [contradiction | reflexivity].
    + now apply collection_or_else.
  - destruct (json_reads_back (JObject [(k_ok, JBool true); (k_review, created)]) 200)
      as (text & E & Hparse).
    + cbn [storable forallb fst snd]. now rewrite Screated.
    + discriminate.
    + exists text. split; [exact E|].
      rewrite Hparse, reread_answer, Rcreated; [reflexivity | now left | discriminate].
  - unfold env'. rewrite <- Rcreated.
    change (JArray (reread_value created :: map reread_value old))
      with (reread_value (JArray (created :: old))).
    apply persist_holds_value.
    + cbn [storable forallb] in Sold |- *. now rewrite Screated.
    + discriminate.
    + split; [exact (holds_readable env stored Hget) | exact Hput].
  - intros Hplain. unfold env'. rewrite <- Rcreated.
    rewrite <- (map_reread_plain old Hplain) at 2.
    change (JArray (reread_value created :: map reread_value old))
      with (reread_value (JArray (created :: old))).
    apply persist_holds_value.
    + cbn [storable forallb] in Sold |- *. now rewrite Screated.
    + discriminate.
    + split; [exact (holds_readable env stored Hget) | exact Hput].
  - intros [-> | ->]; split; vm_compute; reflexivity.
  - apply Date_toISOString_iso8601.
  - apply Date_parse_toISOString.
Qed.

Lemma append_prepends_witness :
  exists env',
    handlePostReview example_host backdated_request seeded_env
    = (Normal {| status := 200;
                 headers := json_headers;
                 body := Some (json_text "{'ok':true,'review':{'name':'A','text':'hi','rating':5,'date':'2023-11-14T22:13:20.123Z'}}") |},
       env')
    /\ stored_blob env'
       = Some (json_bytes
                 (String.append
                    "[{'name':'A','text':'hi','rating':5,'date':'2023-11-14T22:13:20.123Z'},"
                    (String.append jennifer_json
                       (String.append "," (String.append anonymous_json "]")))))
    /\ Date_parse (lit "2023-11-14T22:13:20.123Z") = Some 1700000000123.
Proof.
  destruct (append_prepends example_host backdated_request seeded_env backdated_body
              (lit "A") (lit "hi") JUndefined (js_of_reviews seed) (map js_of_Review seed))
    as (H & _ & _ & _ & _ & _ & Hdate).
  - vm_compute. reflexivity.
  - reflexivity.
  - vm_compute. discriminate.
  - reflexivity.
  - vm_compute. discriminate.
  - reflexivity.
  - apply seeded_holds.
  - reflexivity.
  - reflexivity.
  - eexists. split; [rewrite H; apply f_equal2; [vm_compute; reflexivity | reflexivity]|].
    split; [rewrite persist_blob; vm_compute; reflexivity|].
    apply Hdate. vm_compute. split; [discriminate | reflexivity].
Defined.
(** ** What Delete answers and writes *)

Lemma Number_toString_units x : is_jsstring (Number_toString x).
Proof.
  assert (H : Forall (fun c => 0 <= c < 128) (Number_toString x)).
  { destruct (is_finite x) eqn:Hx.
    - pose proof (number_text_ascii x) as H. unfold number_text in H. now rewrite Hx in H.
    - destruct x as [s | [|] | | neg m e]; try discriminate;
        repeat constructor; cbv; congruence. }
  eapply Forall_impl; [|exact H]. unfold is_code_unit. cbn beta. lia.
Qed.

Lemma lit_units s : is_jsstring (lit s).
Proof. apply TextDecoder_decode_jsstring. Qed.

Lemma is_jsstringb_sound s : is_jsstringb s = true -> is_jsstring s.
Proof.
  unfold is_jsstringb, is_jsstring, is_code_unit. rewrite forallb_forall, Forall_forall.
  intros H c Hc. specialize (H c Hc). apply andb_true_iff in H.
  rewrite Z.leb_le, Z.ltb_lt in H. lia.
Qed.

(** The body of an answer reads as JSON to the envelope it was made of. *)
Lemma answer_reads_back k v code b :
  k = k_review \/ k = k_reviews \/ k = k_message \/ k = k_error ->
  storable v = true -> v <> JUndefined ->
  exists text,
    json (JObject [(k_ok, JBool b); (k, v)]) code
    = {| status := code; headers := json_headers; body := Some text |}
    /\ JSON_parse text = Normal (JObject [(k_ok, JBool b); (k, reread_value v)]).
Proof.
  intros Hk Hv Hdef.
  destruct (json_reads_back (JObject [(k_ok, JBool b); (k, v)]) code) as (text & E & Hparse).
  - cbn [storable forallb fst snd]. rewrite Hv.
    destruct Hk as [-> | [-> | [-> | ->]]]; reflexivity.
  - discriminate.
  - exists text. split; [exact E|]. now rewrite Hparse, reread_answer.
Qed.

Lemma storable_filter keep rs :
  storable (JArray rs) = true -> storable (JArray (List.filter keep rs)) = true.
Proof.
  cbn [storable]. rewrite !forallb_forall. intros H r Hr.
  apply List.filter_In in Hr. now apply H.
Qed.

(** Every record has a readable name, or one has not. *)
Lemma well_named_or_not rs :
  Forall well_named rs \/ Exists (fun r => name_of r = None) rs.
Proof.
  induction rs as [| r rs [IH | IH]].
  - left. constructor.
  - destruct (name_of r) as [o |] eqn:E.
    + left. constructor; [unfold well_named; congruence | exact IH].
    + right. now constructor.
  - right. now constructor 2.
Qed.

Lemma unreadable_holds env stored rs :
  holds env stored -> collection_of stored = Some rs ->
  Exists (fun r => name_of r = None) rs -> holds env (JArray rs).
Proof.
  intros Hget Hcoll Hbad. destruct stored; cbn [collection_of] in Hcoll;
    try discriminate; injection Hcoll as <-; [inversion Hbad | exact Hget].
Qed.

(** The message of a Delete that removed records is a string of code
    units. *)
Lemma deleted_message_units n q :
  is_jsstring q ->
  is_jsstring (lit "Deleted " ++ Number_toString (Number_of_Z (Z.of_nat n))
               ++ lit " review(s) for " ++ q).
Proof.
  intros Hq. unfold is_jsstring. rewrite !Forall_app.
  split; [apply lit_units|]. split; [apply Number_toString_units|].
  split; [apply lit_units | exact Hq].
Qed.

(** C5, as the specification words it, fails twice. At the empty query, on
    a collection of records with readable names: two seed records have the
    empty name, which equals the query, and the request is refused with
    nothing removed. And at a non-empty query, on a collection that holds a
    record named by a number: the record of Jennifer D. matches the query,
    and the request is answered 500 with nothing removed. *)
Lemma delete_removes_not_every_match :
  ~ (forall host req env body q stored rs,
        body_is req body -> Get body k_name = Normal (JString q) ->
        healthy env -> holds env stored -> collection_of stored = Some rs ->
        Forall well_named rs ->
        Exists (fun r => matches host q r = true) rs ->
        exists resp,
          handleDeleteReview host req env
          = (Normal resp, persist env (JArray (kept_by host q rs))))
  /\ ~ (forall host req env body q stored rs,
          body_is req body -> Get body k_name = Normal (JString q) -> q <> [] ->
          healthy env -> holds env stored -> collection_of stored = Some rs ->
          Exists (fun r => matches host q r = true) rs ->
          exists resp,
            handleDeleteReview host req env
            = (Normal resp, persist env (JArray (kept_by host q rs)))).
Proof.
  split; intros claim.
  - destruct (claim example_host (delete_request EmptyString) seeded_env
                (JObject [(k_name, JString [])]) [] (js_of_reviews seed)
                (map js_of_Review seed)) as [resp E].
    + vm_compute. reflexivity.
    + reflexivity.
    + split; reflexivity.
    + apply seeded_holds.
    + reflexivity.
    + apply seed_well_named.
    + apply Exists_cons_tl, Exists_cons_hd. reflexivity.
    + rewrite (delete_missing example_host (delete_request EmptyString) seeded_env
                 (JObject [(k_name, JString [])]) (JString [])) in E.
      * apply (f_equal (fun p => length (kv_log (REVIEWS_DB (snd p))))) in E.
        discriminate E.
      * vm_compute. reflexivity.
      * reflexivity.
      * reflexivity.
  - assert (Hholds : exists seven jennifer,
               holds seven_env (JArray [seven; jennifer])
               /\ name_of seven = None
               /\ matches example_host (lit "Jennifer D.") jennifer = true).
    { eexists _, _. split; [vm_compute; reflexivity|]. split; vm_compute; reflexivity. }
    destruct Hholds as (seven & jennifer & Hget & Hseven & Hmatch).
    destruct (claim example_host (delete_request "Jennifer D.") seven_env
                (JObject [(k_name, JString (lit "Jennifer D."))]) (lit "Jennifer D.")
                (JArray [seven; jennifer]) [seven; jennifer]) as [resp E].
    + vm_compute. reflexivity.
    + reflexivity.
    + vm_compute. discriminate.
    + split; reflexivity.
    + exact Hget.
    + reflexivity.
    + apply Exists_cons_tl, Exists_cons_hd. exact Hmatch.
    + destruct (delete_blocked example_host (delete_request "Jennifer D.") seven_env
                  (JObject [(k_name, JString (lit "Jennifer D."))])
                  (JString (lit "Jennifer D.")) [seven; jennifer]) as [message E'].
      * vm_compute. reflexivity.
      * reflexivity.
      * reflexivity.
      * exact Hget.
      * apply Exists_cons_hd. exact Hseven.
      * rewrite E' in E.
        apply (f_equal (fun p => length (kv_log (REVIEWS_DB (snd p))))) in E.
        discriminate E.
Qed.

(** C5, amended. For a query name that is a non-empty string (an empty one
    is refused), on a collection of records whose name is a string or is
    missing, [handleDeleteReview] removes exactly the records whose name,
    lowercased, is the lowercased query: the whole strings are compared as
    they are, and a record without a name matches nothing. When a record
    matches, the records that do not match are written, in their order, the
    namespace then holds them, and the answer is 200 with a message that
    reports how many records matched. When a record of the collection has
    no readable name, the answer is 500 and nothing is removed. *)
Theorem delete_removes_matches host req env body q stored rs :
  body_is req body -> Get body k_name = Normal (JString q) -> q <> [] ->
  holds env stored -> collection_of stored = Some rs ->
  kv_put_fault (REVIEWS_DB env) = None ->
  let kept := kept_by host q rs in
  let removed := removed_by host q rs in
  let message :=
    lit "Deleted " ++ Number_toString (Number_of_Z (Z.of_nat (length removed)))
    ++ lit " review(s) for " ++ q in
  let answer := json (JObject [(k_ok, JBool true); (k_message, JString message)]) 200 in
  (Forall well_named rs -> removed <> [] ->
   handleDeleteReview host req env = (Normal answer, persist env (JArray kept))
   /\ (exists text,
         answer = {| status := 200; headers := json_headers; body := Some text |}
         /\ JSON_parse text
            = Normal (JObject [(k_ok, JBool true); (k_message, JString message)]))
   /\ holds (persist env (JArray kept)) (JArray (map reread_value kept))
   /\ (forallb plain rs = true -> holds (persist env (JArray kept)) (JArray kept)))
  /\ (Exists (fun r => name_of r = None) rs ->
      exists failure,
        handleDeleteReview host req env
        = (Normal (json (error_envelope failure) 500), env))
  /\ (forall r s, name_of r = Some (Some s) ->
                  (matches host q r = true <-> toLowerCase host s = toLowerCase host q))
  /\ (forall r, name_of r = Some None -> matches host q r = false)
  /\ sublist kept rs.
Proof.
  intros Hbody Hn Nq Hget Hcoll Hput kept removed message answer.
  pose proof (body_storable req body Hbody) as Sbody.
  pose proof (storable_Get body k_name _ Sbody Hn) as Sq. cbn [storable] in Sq.
  pose proof (collection_storable stored rs (holds_storable env stored Hget) Hcoll) as Srs.
  assert (Skept : storable (JArray kept) = true) by now apply storable_filter.
  assert (Hhealthy : healthy env)
    by (split; [exact (holds_readable env stored Hget) | exact Hput]).
  split; [|split; [|split; [|split]]].
  - intros Hnames Hsome. split; [|split; [|split]].
    + destruct (delete_outcome host req env body q stored rs) as (_ & H & _);
        try assumption.
      unfold answer, message, removed, removed_by. rewrite <- removed_count.
      apply H; [|exact Hput].
      intros E. apply survivors_all in E. apply Hsome.
      unfold removed, removed_by. clear - E.
      induction E as [| r rs Hr _ IH]; [reflexivity|]. cbn [List.filter]. now rewrite Hr.
    + destruct (answer_reads_back k_message (JString message) 200 true)
        as (text & E & Hparse).
      * tauto.
      * cbn [storable]. apply is_jsstringb_complete, deleted_message_units.
        now apply is_jsstringb_sound.
      * discriminate.
      * exists text. split; [exact E | exact Hparse].
    + change (JArray (map reread_value kept)) with (reread_value (JArray kept)).
      apply persist_holds_value; [exact Skept | discriminate | exact Hhealthy].
    + intros Hplain.
      assert (Pkept : forallb plain kept = true).
      { rewrite forallb_forall in Hplain |- *. intros r Hr.
        apply List.filter_In in Hr. now apply Hplain. }
      rewrite <- (map_reread_plain kept Pkept) at 2.
      change (JArray (map reread_value kept)) with (reread_value (JArray kept)).
      apply persist_holds_value; [exact Skept | discriminate | exact Hhealthy].
  - intros Hbad.
    apply (delete_blocked host req env body (JString q) rs); try assumption.
    + destruct q; [contradiction | reflexivity].
    + now apply unreadable_holds with stored.
  - intros r s Hr. unfold matches. rewrite Hr. apply jsstring_eqb_eq.
  - intros r Hr. unfold matches. now rewrite Hr.
  - apply survivors_sublist.
Qed.

Lemma delete_removes_matches_witness :
  exists env',
    handleDeleteReview example_host (delete_request "JENNIFER d.") seeded_env
    = (Normal {| status := 200;
                 headers := json_headers;
                 body := Some (json_text
                                 "{'ok':true,'message':'Deleted 1 review(s) for JENNIFER d.'}") |},
       env')
    /\ stored_blob env'
       = Some (json_bytes (String.append "[" (String.append anonymous_json "]"))).
Proof.
  destruct (delete_removes_matches example_host (delete_request "JENNIFER d.") seeded_env
              (JObject [(k_name, JString (lit "JENNIFER d."))]) (lit "JENNIFER d.")
              (js_of_reviews seed) (map js_of_Review seed)) as [H _].
  - vm_compute. reflexivity.
  - reflexivity.
  - vm_compute. discriminate.
  - apply seeded_holds.
  - reflexivity.
  - reflexivity.
  - destruct H as [H _].
    + apply seed_well_named.
    + vm_compute. discriminate.
    + eexists. split; [rewrite H; apply f_equal2; [vm_compute; reflexivity | reflexivity]|].
      rewrite persist_blob. vm_compute. reflexivity.
Defined.



(** ** What Append refuses *)

Lemma post_unparsable host req env t :
  JSON_parse (TextDecoder_decode (req_body req)) = Throw t ->
  handlePostReview host req env
  = (Normal (json (error_envelope (lit "Server error")) 500), env).
Proof.
  intros Hbody. unfold handlePostReview.
  rewrite try_catch_throw with (t := t) (env' := env); [reflexivity|].
  unfold Request_json. now apply bind_lift_throw.
Qed.

Lemma post_null host req env :
  body_is req JNull ->
  handlePostReview host req env
  = (Normal (json (error_envelope (lit "Server error")) 500), env).
Proof.
  intros Hbody. unfold handlePostReview.
  rewrite try_catch_throw
    with (t := ErrorObject TypeError (lit "Cannot read properties of null")) (env' := env);
    [reflexivity|].
  unfold Request_json. rewrite (bind_lift_normal _ _ _ _ Hbody). reflexivity.
Qed.

Lemma missing_falsy v : missing v -> ToBoolean v = false.
Proof. intros [-> | [-> | ->]]; reflexivity. Qed.

(** C7, as the specification words it, fails in both directions. A request
    without a body has no name and no text, and is answered 500, not 400.
    And a body whose name is the number 0, with a text, is answered 400,
    though its name is neither missing nor empty. *)
Lemma append_validation_is_not_iff :
  ~ (forall host req env resp env',
        handlePostReview host req env = (Normal resp, env') ->
        (forall body nv, body_is req body -> Get body k_name = Normal nv -> missing nv) ->
        status resp = 400)
  /\ ~ (forall host req env body nv tv resp env',
          body_is req body -> Get body k_name = Normal nv -> Get body k_text = Normal tv ->
          handlePostReview host req env = (Normal resp, env') ->
          status resp = 400 -> missing nv \/ missing tv).
Proof.
  split; intros claim.
  - assert (Hparse : JSON_parse (TextDecoder_decode (req_body bodiless_request))
                     = Throw (ErrorObject SyntaxError (lit "Unexpected token in JSON")))
      by (vm_compute; reflexivity).
    pose proof (claim example_host bodiless_request empty_env _ _
                  (post_unparsable example_host bodiless_request empty_env _ Hparse)) as E.
    cbn [status json] in E.
    assert (E' : 500 = 400); [|discriminate E'].
    apply E. intros body nv Hbody. unfold body_is in Hbody. rewrite Hparse in Hbody.
    discriminate Hbody.
  - destruct (claim example_host zero_request empty_env
                (JObject [(k_name, JNumber (Number_of_Z 0)); (k_text, JString (lit "hi"))])
                (JNumber (Number_of_Z 0)) (JString (lit "hi"))
                (json (error_envelope (lit "Missing name or text")) 400) empty_env)
      as [[H | [H | H]] | [H | [H | H]]]; try discriminate H.
    + vm_compute. reflexivity.
    + reflexivity.
    + reflexivity.
    + vm_compute. reflexivity.
    + reflexivity.
Qed.

(** C7, amended. A request whose body is not JSON, or is [null], is
    answered 500. Of any other body, Append answers 400, with the envelope
    and without touching the namespace, exactly when the name or the text
    is falsy: missing, [null], the empty string, [false], 0 or NaN.
    A name or a text that is missing or empty is falsy. Whatever else the
    name, the text and the rating are, no other input is refused: with a collection to prepend to and a namespace that takes the
    write, the record is created with the name and the text as they are,
    and with the rating of the body, or 5 when it has none. *)
Theorem append_validation host req env :
  (forall t, JSON_parse (TextDecoder_decode (req_body req)) = Throw t ->
             handlePostReview host req env
             = (Normal (json (error_envelope (lit "Server error")) 500), env))
  /\ (body_is req JNull ->
      handlePostReview host req env
      = (Normal (json (error_envelope (lit "Server error")) 500), env))
  /\ (forall body,
        body_is req body -> body <> JNull ->
        exists nv tv rt resp env',
          Get body k_name = Normal nv /\ Get body k_text = Normal tv
          /\ Get body k_rating = Normal rt
          /\ handlePostReview host req env = (Normal resp, env')
          /\ (status resp = 400 <-> ToBoolean nv = false \/ ToBoolean tv = false)
          /\ (status resp = 400 ->
              resp = json (error_envelope (lit "Missing name or text")) 400 /\ env' = env)
          /\ (ToBoolean nv = true -> ToBoolean tv = true ->
              forall stored old,
                holds env stored -> collection_of stored = Some old ->
                kv_put_fault (REVIEWS_DB env) = None ->
                let created :=
                  JObject [(k_name, nv); (k_text, tv); (k_rating, rating_of rt);
                           (k_date, JString (Date_toISOString (now host)))] in
                resp = json (JObject [(k_ok, JBool true); (k_review, created)]) 200
                /\ env' = persist env (JArray (created :: old))))
  /\ json (error_envelope (lit "Missing name or text")) 400
     = {| status := 400;
          headers := json_headers;
          body := Some (json_text "{'ok':false,'error':'Missing name or text'}") |}
  /\ rating_of JUndefined = JNumber (Number_of_Z 5)
  /\ (forall v, missing v -> ToBoolean v = false).
Proof.
  split; [intros t; apply post_unparsable|].
  split; [apply post_null|].
  split; [|split; [|split]; [vm_compute; reflexivity | vm_compute; reflexivity
                            | apply missing_falsy]].
  intros body Hbody Hnull.
  pose proof (JSON_parse_defined _ _ Hbody) as Hdef.
  destruct (Get_total body k_name Hdef Hnull) as [nv Hn].
  destruct (Get_total body k_text Hdef Hnull) as [tv Ht].
  destruct (Get_total body k_rating Hdef Hnull) as [rt Hr].
  exists nv, tv, rt.
  destruct (ToBoolean nv) eqn:Tn; [destruct (ToBoolean tv) eqn:Tt|].
  - (* accepted *)
    destruct (post_accepted_status host req env body nv tv rt) as (resp & env' & E & St);
      try assumption.
    exists resp, env'. repeat (split; [assumption|]). split; [|split].
    + split.
      * intros S400. destruct St as [S | S]; rewrite S in S400; discriminate.
      * intros [F | F]; discriminate F.
    + intros S400. destruct St as [S | S]; rewrite S in S400; discriminate.
    + intros _ _ stored old Hget Hold Hput created.
      rewrite (post_creates host req env body nv tv rt stored old) in E; try assumption.
      * unfold newReview_of in E. rewrite rating_of_nullish in E. now inversion E.
      * now apply collection_or_else.
  - (* the text is falsy *)
    exists (json (error_envelope (lit "Missing name or text")) 400), env.
    repeat (split; [assumption|]).
    split; [apply post_missing with body nv; eauto|].
    split; [|split].
    + split; [intros _; now right | reflexivity].
    + now split.
    + intros _ F. discriminate F.
  - (* the name is falsy *)
    exists (json (error_envelope (lit "Missing name or text")) 400), env.
    repeat (split; [assumption|]).
    split; [apply post_missing with body nv; auto|].
    split; [|split].
    + split; [intros _; now left | reflexivity].
    + now split.
    + intros F. discriminate F.
Qed.

Lemma append_validation_witness :
  handlePostReview example_host nameless_request empty_env
  = (Normal {| status := 400;
               headers := json_headers;
               body := Some (json_text "{'ok':false,'error':'Missing name or text'}") |},
     empty_env)
  /\ exists env',
       handlePostReview example_host unrated_request empty_env
       = (Normal {| status := 200;
                    headers := json_headers;
                    body := Some (json_text "{'ok':true,'review':{'name':'A','text':'hi','rating':5,'date':'2023-11-14T22:13:20.123Z'}}") |},
          env').
Proof.
  split.
  - destruct (append_validation example_host nameless_request empty_env)
      as (_ & _ & H & Htext & _).
    destruct (H (JObject [(k_text, JString (lit "hi"))]))
      as (nv & tv & rt & resp & env' & Hn & Ht & Hr & E & S & Hmissing & _).
    + vm_compute. reflexivity.
    + discriminate.
    + injection Hn as <-. destruct Hmissing as [-> ->]; [apply S; now left|].
      rewrite E. now rewrite Htext.
  - destruct (append_validation example_host unrated_request empty_env)
      as (_ & _ & H & _).
    destruct (H unrated_body)
      as (nv & tv & rt & resp & env' & Hn & Ht & Hr & E & _ & _ & Hcreated).
    + vm_compute. reflexivity.
    + discriminate.
    + injection Hn as <-. injection Ht as <-. injection Hr as <-.
      destruct (Hcreated eq_refl eq_refl JNull []) as [-> ->]; try reflexivity.
      eexists. rewrite E. apply f_equal2; [vm_compute; reflexivity | reflexivity].
Defined.
(** ** What Delete leaves in place *)

(** Whatever the request, [handleDeleteReview] answers, and it leaves the
    namespace as it was or writes the records a non-empty query leaves of a
    collection of records with readable names. *)
Lemma delete_writes_kept host req env stored rs :
  holds env stored -> collection_of stored = Some rs ->
  exists resp env',
    handleDeleteReview host req env = (Normal resp, env')
    /\ (env' = env
        \/ exists body q,
             body_is req body /\ Get body k_name = Normal (JString q) /\ q <> []
             /\ Forall well_named rs /\ kv_put_fault (REVIEWS_DB env) = None
             /\ env' = persist env (JArray (kept_by host q rs))).
Proof.
  intros Hget Hcoll.
  destruct (well_named_or_not rs) as [Hnames | Hbad].
  { destruct (delete_effect host req env stored rs Hget Hcoll Hnames)
      as (resp & env' & E & [-> | (body & q & Hbody & Hn & Nq & Hput & ->)]).
    - exists resp, env. split; [exact E | now left].
    - eexists _, _. split; [exact E|]. right. now exists body, q. }
  destruct (JSON_parse (TextDecoder_decode (req_body req))) as [body | t] eqn:Hbody.
  2: { exists (json (error_envelope (message_of t)) 500), env. split; [|now left].
       unfold handleDeleteReview.
       rewrite try_catch_throw with (t := t) (env' := env); [reflexivity|].
       unfold Request_json. now apply bind_lift_throw. }
  destruct (Get body k_name) as [nv | t] eqn:Hn.
  2: { exists (json (error_envelope (message_of t)) 500), env. split; [|now left].
       unfold handleDeleteReview.
       rewrite try_catch_throw with (t := t) (env' := env); [reflexivity|].
       unfold Request_json. rewrite (bind_lift_normal _ _ _ _ Hbody).
       now apply bind_lift_throw. }
  destruct (ToBoolean nv) eqn:Tn.
  2: { eexists _, env. split; [|now left]. now apply delete_missing with body nv. }
  destruct (delete_blocked host req env body nv rs) as [message E]; try assumption.
  - now apply unreadable_holds with stored.
  - eexists _, env. split; [exact E | now left].
Qed.

Lemma namelessb_nameless r : namelessb r = true <-> nameless r.
Proof.
  unfold namelessb, nameless. destruct (name_of r) as [[[| c s] |] |]; split;
    intros H; try reflexivity; try discriminate; auto;
    destruct H as [H | H]; discriminate H.
Qed.

(** A query that no nameless record matches keeps every one of them, as
    often as it is there and in the order they have. *)
Lemma kept_nameless host q rs :
  (forall r, nameless r -> matches host q r = false) ->
  List.filter namelessb (kept_by host q rs) = List.filter namelessb rs.
Proof.
  intros Hnever. unfold kept_by. induction rs as [| r rs IH]; [reflexivity|].
  cbn [List.filter]. destruct (matches host q r) eqn:M; cbn [negb List.filter].
  - destruct (namelessb r) eqn:N; [|exact IH].
    apply namelessb_nameless, Hnever in N. congruence.
  - now rewrite IH.
Qed.

(** C9. An empty or missing query name is refused, whatever the state of
    the namespace, which is not touched. Whatever the request and the
    collection, the namespace is left as it was, or the name of the body is
    a non-empty string and what is written is the collection without the
    records that match it: the records with an empty or absent name are all
    among them, each as often as it was there and in the order they had,
    and the namespace then holds what was written. *)
Theorem nameless_records_survive host req env stored rs :
  (forall s, s <> [] -> toLowerCase host s <> toLowerCase host []) ->
  holds env stored -> collection_of stored = Some rs ->
  (forall env0 body nv,
      body_is req body -> Get body k_name = Normal nv -> ToBoolean nv = false ->
      handleDeleteReview host req env0
      = (Normal (json (error_envelope (lit "Missing name field")) 400), env0))
  /\ exists resp env',
      handleDeleteReview host req env = (Normal resp, env')
      /\ (env' = env
          \/ exists body q,
               body_is req body /\ Get body k_name = Normal (JString q) /\ q <> []
               /\ env' = persist env (JArray (kept_by host q rs))
               /\ List.filter namelessb (kept_by host q rs) = List.filter namelessb rs
               /\ (forall r, In r rs -> nameless r -> In r (kept_by host q rs))
               /\ sublist (kept_by host q rs) rs
               /\ holds env' (JArray (map reread_value (kept_by host q rs)))
               /\ (forallb plain rs = true -> holds env' (JArray (kept_by host q rs)))).
Proof.
  intros Hlower Hget Hcoll. split.
  - intros env0 body nv Hbody Hn F. now apply delete_missing with body nv.
  - destruct (delete_writes_kept host req env stored rs Hget Hcoll)
      as (resp & env' & E & [-> | (body & q & Hbody & Hn & Nq & _ & Hput & ->)]).
    + exists resp, env. split; [exact E | now left].
    + eexists _, _. split; [exact E|]. right. exists body, q.
      split; [exact Hbody|]. split; [exact Hn|]. split; [exact Nq|].
      split; [reflexivity|].
      split; [apply kept_nameless; intros r; now apply nameless_never_match|].
      split; [intros r Hin Hr; apply survivors_In; split;
              [exact Hin | now apply nameless_never_match]|].
      split; [apply survivors_sublist|].
      pose proof (collection_storable stored rs (holds_storable env stored Hget) Hcoll)
        as Srs.
      pose proof (persist_holds_value env (JArray (kept_by host q rs))
                    (storable_filter _ rs Srs) ltac:(discriminate)
                    (conj (holds_readable env stored Hget) Hput)) as H.
      cbn [reread_value] in H. split; [exact H|]. intros Hplain.
      assert (Pkept : forallb plain (kept_by host q rs) = true).
      { rewrite forallb_forall in Hplain |- *. intros r Hr.
        apply List.filter_In in Hr. now apply Hplain. }
      now rewrite (map_reread_plain _ Pkept) in H.
Qed.

Lemma nameless_records_survive_witness :
  exists resp env',
    handleDeleteReview example_host (delete_request "Jennifer D.") seeded_env
    = (Normal resp, env')
    /\ stored_blob env'
       = Some (json_bytes (String.append "[" (String.append anonymous_json "]"))).
Proof.
  destruct (nameless_records_survive example_host (delete_request "Jennifer D.")
              seeded_env (js_of_reviews seed) (map js_of_Review seed))
    as [_ (resp & env' & E & _)].
  - intros [| c s] Hs; [congruence | discriminate].
  - apply seeded_holds.
  - reflexivity.
  - exists resp, env'. split; [exact E|].
    assert (E' : handleDeleteReview example_host (delete_request "Jennifer D.") seeded_env
                 = (Normal (deleted_response 1 (lit "Jennifer D.")),
                    persist seeded_env (JArray (map js_of_Review (tl seed)))))
      by (vm_compute; reflexivity).
    rewrite E' in E. injection E as _ <-. rewrite persist_blob. vm_compute. reflexivity.
Defined.

(** C10. Both mutations keep the other records as they are and in their
    order. Append writes the collection it read with the new record in
    front of it. DeleteByName, whatever the collection, leaves the
    namespace as it was or writes the records that do not match the query,
    each one as it was read, as often as it was there and in the order they
    had. Of records that JSON holds as they are, the namespace then holds
    what was written. *)
Theorem mutations_keep_the_rest host req env body stored rs :
  body_is req body -> holds env stored -> collection_of stored = Some rs ->
  kv_put_fault (REVIEWS_DB env) = None ->
  (forall nv tv rt,
      Get body k_name = Normal nv -> ToBoolean nv = true ->
      Get body k_text = Normal tv -> ToBoolean tv = true ->
      Get body k_rating = Normal rt ->
      let created := newReview_of host nv tv rt in
      handlePostReview host req env
      = (Normal (json (JObject [(k_ok, JBool true); (k_review, created)]) 200),
         persist env (JArray (created :: rs)))
      /\ (forallb plain rs = true ->
          holds (persist env (JArray (created :: rs)))
            (JArray (reread_value created :: rs))))
  /\ (forall q,
        Get body k_name = Normal (JString q) -> q <> [] ->
        exists resp env',
          handleDeleteReview host req env = (Normal resp, env')
          /\ (env' = env
              \/ (env' = persist env (JArray (kept_by host q rs))
                  /\ (forallb plain rs = true -> holds env' (JArray (kept_by host q rs)))))
          /\ sublist (kept_by host q rs) rs
          /\ (forall r, In r (kept_by host q rs) <-> In r rs /\ matches host q r = false)).
Proof.
  intros Hbody Hget Hcoll Hput.
  pose proof (body_storable req body Hbody) as Sbody.
  pose proof (collection_storable stored rs (holds_storable env stored Hget) Hcoll) as Srs.
  assert (Hhealthy : healthy env)
    by (split; [exact (holds_readable env stored Hget) | exact Hput]).
  split.
  - intros nv tv rt Hn Tn Ht Tt Hr created. unfold created.
    split.
    + apply post_creates with body stored; try assumption.
      now apply collection_or_else.
    + intros Hplain.
      replace (JArray (reread_value (newReview_of host nv tv rt) :: rs))
        with (reread_value (JArray (newReview_of host nv tv rt :: rs)))
        by (cbn [reread_value map]; now rewrite (map_reread_plain rs Hplain)).
      apply persist_holds_value; [|discriminate | exact Hhealthy].
      cbn [storable forallb] in Srs |- *. rewrite Srs, andb_true_r.
      unfold newReview_of. cbn [storable forallb fst snd].
      rewrite (storable_Get body k_name _ Sbody Hn), (storable_Get body k_text _ Sbody Ht).
      rewrite rating_of_nullish,
        (rating_of_storable rt (storable_Get body k_rating _ Sbody Hr)).
      now rewrite (is_jsstringb_complete _ (Date_toISOString_jsstring (now host))).
  - intros q Hn Nq.
    assert (Hrest : sublist (kept_by host q rs) rs
                    /\ (forall r, In r (kept_by host q rs)
                                  <-> In r rs /\ matches host q r = false))
      by (split; [apply survivors_sublist | intros r; apply survivors_In]).
    destruct (well_named_or_not rs) as [Hnames | Hbad].
    + destruct (delete_outcome host req env body q stored rs) as (Hsame & Hwrite & _);
        try assumption.
      destruct (Nat.eq_dec (length (survivors host q rs)) (length rs)) as [E | E].
      * eexists _, env. split; [now apply Hsame|]. split; [now left | exact Hrest].
      * exists (deleted_response (length rs - length (survivors host q rs)) q),
          (persist env (JArray (kept_by host q rs))).
        split; [exact (Hwrite E Hput)|]. split; [|exact Hrest].
        right. split; [reflexivity|]. intros Hplain.
        assert (Pkept : forallb plain (kept_by host q rs) = true).
        { rewrite forallb_forall in Hplain |- *. intros r Hr.
          apply List.filter_In in Hr. now apply Hplain. }
        pose proof (persist_holds_value env (JArray (kept_by host q rs))
                      (storable_filter _ rs Srs) ltac:(discriminate) Hhealthy) as H.
        cbn [reread_value] in H. now rewrite (map_reread_plain _ Pkept) in H.
    + destruct (delete_blocked host req env body (JString q) rs) as [message E];
        try assumption.
      * destruct q; [contradiction | reflexivity].
      * now apply unreadable_holds with stored.
      * eexists _, env. split; [exact E|]. split; [now left | exact Hrest].
Qed.

Lemma mutations_keep_the_rest_witness :
  (exists resp env',
     handlePostReview example_host jennifer_request seeded_env = (Normal resp, env')
     /\ stored_blob env'
        = Some (json_bytes
                  (String.append
                     "[{'name':'Jennifer D.','text':'hi','rating':5,'date':'2023-11-14T22:13:20.123Z'},"
                     (String.append jennifer_json
                        (String.append "," (String.append anonymous_json "]"))))))
  /\ (exists resp env',
        handleDeleteReview example_host jennifer_request seeded_env = (Normal resp, env')
        /\ stored_blob env'
           = Some (json_bytes (String.append "[" (String.append anonymous_json "]")))).
Proof.
  destruct (mutations_keep_the_rest example_host jennifer_request seeded_env jennifer_body
              (js_of_reviews seed) (map js_of_Review seed)) as [Happend Hdelete].
  - vm_compute. reflexivity.
  - apply seeded_holds.
  - reflexivity.
  - reflexivity.
  - split.
    + destruct (Happend (JString (lit "Jennifer D.")) (JString (lit "hi")) JUndefined)
        as [E _]; try reflexivity.
      eexists _, _. split; [exact E|].
      rewrite persist_blob. vm_compute. reflexivity.
    + destruct (Hdelete (lit "Jennifer D.")) as (resp & env' & E & _).
      * reflexivity.
      * vm_compute. discriminate.
      * exists resp, env'. split; [exact E|].
        assert (E' : handleDeleteReview example_host jennifer_request seeded_env
                     = (Normal (deleted_response 1 (lit "Jennifer D.")),
                        persist seeded_env (JArray (map js_of_Review (tl seed)))))
          by (vm_compute; reflexivity).
        rewrite E' in E. injection E as _ <-. rewrite persist_blob. vm_compute. reflexivity.
Defined.
